(** * ChargeMitra booking flow: price estimate, time validation, booking submission

    A shallow embedding of the [BookingFlow] component
    (frontend/src/components/ChargerList.tsx) and of the types it uses
    (frontend/src/types/index.ts), with the properties of the reservation
    specification that concern it.

    JavaScript numbers are IEEE 754 binary64 values, so they are modelled by
    Rocq's primitive floats: sums, products and quotients round exactly as in
    the browser.  Time values are counted in milliseconds on the viewer's
    local time line, assumed to have a fixed UTC offset (as in India, the
    platform's market): the local calendar day of a time value [t] starts at
    [t - t mod 86400000]. *)

From Stdlib Require Import ZArith Bool List String Ascii Lia.
From Stdlib Require Import Floats.PrimFloat Floats.SpecFloat Floats.FloatOps.
From Stdlib Require Import Uint63.
From Stdlib Require Import Floats.FloatAxioms.
Import ListNotations.

Local Open Scope string_scope.
Local Open Scope list_scope.
Local Open Scope Z_scope.

Set Warnings "-inexact-float".

(* ===================================================================== *)
(** ** JavaScript values used by the component *)
(* ===================================================================== *)

Module Js.

(** A JavaScript [number]. *)
Definition number := float.
Bind Scope float_scope with number.

Definition NaN : number := (0 / 0)%float.

Definition isNaN (x : number) : bool := negb (x =? x)%float.

(** [ToBoolean] on a number: [+0], [-0] and [NaN] are falsy. *)
Definition truthy (x : number) : bool :=
  negb (x =? 0)%float && negb (isNaN x).

(** [x || d] on numbers. *)
Definition or_else (x d : number) : number := if truthy x then x else d.

(** [!s] on a string: only the empty string is falsy. *)
Definition blank (s : string) : bool :=
  match s with EmptyString => true | String _ _ => false end.

(** The number that holds an integer (exact below 2^53 in magnitude). *)
Definition of_Z (z : Z) : number :=
  match z with
  | Z0 => 0%float
  | Zpos _ => of_uint63 (Uint63.of_Z z)
  | Zneg p => (- of_uint63 (Uint63.of_Z (Zpos p)))%float
  end.

(** [Math.floor]. *)
Definition floor (x : number) : number :=
  match Prim2SF x with
  | S754_finite s m e =>
      if 0 <=? e then x
      else of_Z ((if s then Zneg m else Zpos m) / 2 ^ (- e))
  | _ => x
  end.

(** [hay.includes(needle)]. *)
Definition includes (hay needle : string) : bool :=
  match index 0 needle hay with Some _ => true | None => false end.

(** *** Dates *)

(** A [Date] object: a time value in milliseconds, or Invalid Date. *)
Inductive Date : Type :=
| TimeValue (ms : Z)
| InvalidDate.

Definition msPerMinute : Z := 60000.
Definition msPerDay : Z := 86400000.

(** Local midnight of the calendar day that contains [t]. *)
Definition startOfDay (t : Z) : Z := t - t mod msPerDay.

Definition digit (a : ascii) : option Z :=
  let n := Z.of_nat (nat_of_ascii a) in
  if (48 <=? n) && (n <=? 57) then Some (n - 48) else None.

(** The value of an [<input type="time">] is the empty string or a clock
    time ["HH:mm"]; [parseClock] gives its minutes after midnight.  Any
    other text makes the date string unparsable. *)
Definition parseClock (s : string) : option Z :=
  match s with
  | String h1 (String h2 (String ":" (String m1 (String m2 EmptyString)))) =>
      match digit h1, digit h2, digit m1, digit m2 with
      | Some a, Some b, Some c, Some d =>
          let h := 10 * a + b in
          let m := 10 * c + d in
          if (h <? 24) && (m <? 60) then Some (h * 60 + m) else None
      | _, _, _, _ => None
      end
  | _ => None
  end.

(** [new Date(`${format(day, 'yyyy-MM-dd')}T${clock}`)]: the clock time
    read as local time on the calendar day of [day]. *)
Definition dateAt (day : Z) (clock : string) : Date :=
  match parseClock clock with
  | Some minutes => TimeValue (startOfDay day + minutes * msPerMinute)
  | None => InvalidDate
  end.

(** [a <= b] on dates compares their time values; any comparison with
    Invalid Date (NaN) is false. *)
Definition date_leb (a b : Date) : bool :=
  match a, b with
  | TimeValue x, TimeValue y => x <=? y
  | _, _ => false
  end.

Definition date_ltb (a b : Date) : bool :=
  match a, b with
  | TimeValue x, TimeValue y => x <? y
  | _, _ => false
  end.

(** date-fns [isBefore(date, dateToCompare)]. *)
Definition isBefore (date dateToCompare : Date) : bool :=
  date_ltb date dateToCompare.

(** date-fns [differenceInMinutes(dateLeft, dateRight)]: the number of
    full minutes between the dates, truncated towards zero. *)
Definition differenceInMinutes (dateLeft dateRight : Date) : number :=
  match dateLeft, dateRight with
  | TimeValue l, TimeValue r => of_Z (Z.quot (l - r) msPerMinute)
  | _, _ => NaN
  end.

End Js.

(* ===================================================================== *)
(** ** Types (frontend/src/types/index.ts) *)
(* ===================================================================== *)

Import Js.

Inductive PricingType : Type := per_hour | per_kwh | flat_rate.

Inductive ChargerStatus : Type :=
  available | in_use | maintenance | offline | fault.

Inductive BookingStatus : Type :=
  pending | confirmed | active | completed | cancelled | failed | no_show
| expired.

Inductive PaymentStatus : Type :=
  payment_pending | payment_processing | payment_completed | payment_failed
| payment_refunded | payment_partial_refund.

Module ChargerPricing.
Record t : Type := {
  id : number;
  charger_id : number;
  pricing_type : PricingType;
  price_value : number;
  min_session_minutes : number;
  max_session_minutes : number;
  peak_hours_start : option string;
  peak_hours_end : option string;
  peak_price_multiplier : number;
  weekend_price_multiplier : number;
  booking_fee : number;
  overstay_fee_per_hour : number;
  late_cancellation_fee : number;
  advance_booking_hours : number;
  same_day_booking : bool
}.
End ChargerPricing.

(** The fields of [Charger] that the booking flow and the details page read;
    address, images, ratings and the other display fields play no part. *)
Module Charger.
Record t : Type := {
  id : number;
  title : string;
  max_power_kw : number;
  current_status : ChargerStatus;
  is_active : bool;
  is_verified : bool;
  auto_accept_bookings : bool;
  host_id : number;
  pricing : option ChargerPricing.t
}.
End Charger.

Module User.
Record t : Type := { id : number; name : string }.
End User.

Record VehicleInfo : Type := {
  type : string;
  batteryCapacity : string;
  currentCharge : string;
  targetCharge : string
}.

(** A code cut from a random draw:
    [prefix + draw.toString(36).substr(2, digits).toUpperCase()]. *)
Record Code : Type := { prefix : string; draw : number; digits : nat }.

Module Booking.
(** [start_time], [end_time], [created_at] and [updated_at] hold the time
    value that [toISOString] prints. *)
Record t : Type := {
  id : number;
  charger_id : number;
  renter_id : number;
  start_time : Z;
  end_time : Z;
  status : BookingStatus;
  payment_status : PaymentStatus;
  booking_code : Code;
  total_amount : number;
  paid_amount : number;
  currency : string;
  qr_code_url : Code;
  access_code : Code;
  vehicle_info : VehicleInfo;
  special_instructions : string;
  created_at : Z;
  updated_at : Z;
  charger : Charger.t
}.
End Booking.

Module BookingForm.
Record t : Type := {
  charger_id : number;
  start_time : Z;
  end_time : Z;
  vehicle_info : VehicleInfo;
  special_instructions : option string
}.
End BookingForm.

(* ===================================================================== *)
(** ** The BookingFlow component (frontend/src/components/ChargerList.tsx) *)
(* ===================================================================== *)

Record TimeSlot : Type := {
  slot_start : Z;
  slot_end : Z;
  slot_available : bool
}.

Module PriceEstimate.
Record t : Type := {
  duration_hours : number;
  energy_estimate_kwh : number;
  subtotal : number;
  platform_fee : number;
  booking_fee : number;
  total : number;
  pricing_type : PricingType;
  unit_price : number
}.
End PriceEstimate.

(** What one render of the component sees: its props, the signed-in user
    and its React state. *)
Record Render : Type := {
  charger : Charger.t;
  user : option User.t;
  currentStep : nat;
  isLoading : bool;
  selectedDate : Z;
  startTime : string;
  endTime : string;
  vehicleInfo : VehicleInfo;
  specialInstructions : string;
  priceEstimate : option PriceEstimate.t;
  availableSlots : list TimeSlot;
  completedBooking : option Booking.t
}.

(** The browser around it: the clock read by [new Date()] and the draws
    that [Math.random()] will return, in order. *)
Record Browser : Type := {
  now : Z;
  random : nat -> number
}.

Record Flow : Type := { render : Render; browser : Browser }.

(** Toast texts; the two duration messages carry the bound they print. *)
Inductive Message : Type :=
| Text (s : string)
| MinimumSessionDuration (hours : number)
| MaximumSessionDuration (hours : number).

(** What a handler does to the outside: toasts, state updates handed to
    React, and the parent's [onBookingComplete] callback. *)
Inductive Effect : Type :=
| ToastError (m : Message)
| ToastSuccess (m : Message)
| SetPriceEstimate (e : PriceEstimate.t)
| SetAvailableSlots (slots : list TimeSlot)
| SetIsLoading (b : bool)
| SetCompletedBooking (b : Booking.t)
| SetCurrentStep (n : nat)
| OnBookingComplete (b : Booking.t).

Record Error : Type := { message : string }.

Inductive Completion (A : Type) : Type :=
| Normal (a : A)
| Throw (e : Error).
Arguments Normal {A} a.
Arguments Throw {A} e.

(** Handlers run in a state monad over [Flow] that also collects the effects
    in order and may end by throwing. *)
Definition M (A : Type) : Type := Flow -> Completion A * Flow * list Effect.

Definition ret {A} (a : A) : M A := fun w => (Normal a, w, []).

Definition bind {A B} (m : M A) (f : A -> M B) : M B :=
  fun w =>
    match m w with
    | (Normal a, w1, t1) =>
        match f a w1 with (r, w2, t2) => (r, w2, t1 ++ t2) end
    | (Throw e, w1, t1) => (Throw e, w1, t1)
    end.

Notation "x <- m ;; k" := (bind m (fun x => k))
  (at level 61, m at next level, right associativity).
Notation "m ;; k" := (bind m (fun _ => k))
  (at level 61, right associativity).

Definition throw {A} (e : Error) : M A := fun w => (Throw e, w, []).

(** Runs [body] and hands back how it completed, as a [try] block does to
    its [catch]. *)
Definition attempt {A} (body : M A) : M (Completion A) :=
  fun w => match body w with (r, w1, t1) => (Normal r, w1, t1) end.

Definition completion {A} (m : M A) (w : Flow) : Completion A :=
  fst (fst (m w)).
Definition after {A} (m : M A) (w : Flow) : Flow := snd (fst (m w)).
Definition effects {A} (m : M A) (w : Flow) : list Effect := snd (m w).

Definition getRender : M Render := fun w => (Normal (render w), w, []).

Definition emit (e : Effect) : M unit := fun w => (Normal tt, w, [e]).

Definition updateRender (f : Render -> Render) : M unit :=
  fun w => (Normal tt, {| render := f (render w); browser := browser w |}, []).

(** [new Date()]. *)
Definition newDate : M Date := fun w => (Normal (TimeValue (now (browser w))), w, []).

(** [Math.random()]. *)
Definition Math_random : M number :=
  fun w =>
    let b := browser w in
    (Normal (random b 0%nat),
     {| render := render w;
        browser := {| now := now b; random := fun n => random b (S n) |} |},
     []).

(** [await new Promise(resolve => setTimeout(resolve, ms))]. *)
Definition timeout (ms : Z) : M unit :=
  fun w =>
    let b := browser w in
    (Normal tt,
     {| render := render w;
        browser := {| now := now b + ms; random := random b |} |},
     []).

(** [date.toISOString()] throws a RangeError on Invalid Date. *)
Definition toISOString (d : Date) : M Z :=
  match d with
  | TimeValue t => ret t
  | InvalidDate => throw {| message := "Invalid time value" |}
  end.

(** *** State updates *)

Definition with_priceEstimate (e : option PriceEstimate.t) (r : Render) : Render :=
  {| charger := charger r; user := user r; currentStep := currentStep r;
     isLoading := isLoading r; selectedDate := selectedDate r;
     startTime := startTime r; endTime := endTime r;
     vehicleInfo := vehicleInfo r; specialInstructions := specialInstructions r;
     priceEstimate := e; availableSlots := availableSlots r;
     completedBooking := completedBooking r |}.

Definition with_availableSlots (slots : list TimeSlot) (r : Render) : Render :=
  {| charger := charger r; user := user r; currentStep := currentStep r;
     isLoading := isLoading r; selectedDate := selectedDate r;
     startTime := startTime r; endTime := endTime r;
     vehicleInfo := vehicleInfo r; specialInstructions := specialInstructions r;
     priceEstimate := priceEstimate r; availableSlots := slots;
     completedBooking := completedBooking r |}.

Definition with_isLoading (b : bool) (r : Render) : Render :=
  {| charger := charger r; user := user r; currentStep := currentStep r;
     isLoading := b; selectedDate := selectedDate r;
     startTime := startTime r; endTime := endTime r;
     vehicleInfo := vehicleInfo r; specialInstructions := specialInstructions r;
     priceEstimate := priceEstimate r; availableSlots := availableSlots r;
     completedBooking := completedBooking r |}.

Definition with_completedBooking (b : option Booking.t) (r : Render) : Render :=
  {| charger := charger r; user := user r; currentStep := currentStep r;
     isLoading := isLoading r; selectedDate := selectedDate r;
     startTime := startTime r; endTime := endTime r;
     vehicleInfo := vehicleInfo r; specialInstructions := specialInstructions r;
     priceEstimate := priceEstimate r; availableSlots := availableSlots r;
     completedBooking := b |}.

Definition with_currentStep (n : nat) (r : Render) : Render :=
  {| charger := charger r; user := user r; currentStep := n;
     isLoading := isLoading r; selectedDate := selectedDate r;
     startTime := startTime r; endTime := endTime r;
     vehicleInfo := vehicleInfo r; specialInstructions := specialInstructions r;
     priceEstimate := priceEstimate r; availableSlots := availableSlots r;
     completedBooking := completedBooking r |}.

Definition with_selectedDate (d : Z) (r : Render) : Render :=
  {| charger := charger r; user := user r; currentStep := currentStep r;
     isLoading := isLoading r; selectedDate := d;
     startTime := startTime r; endTime := endTime r;
     vehicleInfo := vehicleInfo r; specialInstructions := specialInstructions r;
     priceEstimate := priceEstimate r; availableSlots := availableSlots r;
     completedBooking := completedBooking r |}.

Definition with_startTime (s : string) (r : Render) : Render :=
  {| charger := charger r; user := user r; currentStep := currentStep r;
     isLoading := isLoading r; selectedDate := selectedDate r;
     startTime := s; endTime := endTime r;
     vehicleInfo := vehicleInfo r; specialInstructions := specialInstructions r;
     priceEstimate := priceEstimate r; availableSlots := availableSlots r;
     completedBooking := completedBooking r |}.

Definition with_endTime (s : string) (r : Render) : Render :=
  {| charger := charger r; user := user r; currentStep := currentStep r;
     isLoading := isLoading r; selectedDate := selectedDate r;
     startTime := startTime r; endTime := s;
     vehicleInfo := vehicleInfo r; specialInstructions := specialInstructions r;
     priceEstimate := priceEstimate r; availableSlots := availableSlots r;
     completedBooking := completedBooking r |}.

Definition setPriceEstimate (e : PriceEstimate.t) : M unit :=
  emit (SetPriceEstimate e) ;; updateRender (with_priceEstimate (Some e)).
Definition setAvailableSlots (slots : list TimeSlot) : M unit :=
  emit (SetAvailableSlots slots) ;; updateRender (with_availableSlots slots).
Definition setIsLoading (b : bool) : M unit :=
  emit (SetIsLoading b) ;; updateRender (with_isLoading b).
Definition setCompletedBooking (b : Booking.t) : M unit :=
  emit (SetCompletedBooking b) ;; updateRender (with_completedBooking (Some b)).
Definition setCurrentStep (n : nat) : M unit :=
  emit (SetCurrentStep n) ;; updateRender (with_currentStep n).

Definition toast_error (m : Message) : M unit := emit (ToastError m).
Definition toast_success (m : Message) : M unit := emit (ToastSuccess m).

(** *** generateTimeSlots *)

(** The [while (current < end)] loop; [fuel] bounds its iterations. *)
Fixpoint slotLoop (fuel : nat) (current end_ : Z) : M (list TimeSlot) :=
  match fuel with
  | O => ret []
  | S fuel' =>
      if current <? end_ then
        (* addMinutes(current, 30) *)
        let slotEnd := current + 30 * msPerMinute in
        r <- Math_random ;;
        (* Mock availability - in real app, check against existing bookings *)
        let available := (0.3 <? r)%float in
        rest <- slotLoop fuel' slotEnd end_ ;;
        ret ({| slot_start := current; slot_end := slotEnd;
                slot_available := available |} :: rest)
      else ret []
  end.

(** Half-hour slots from 6 AM to 10 PM of the day of [date]: the loop test
    fails after 32 slots. *)
Definition generateTimeSlots (date : Z) : M (list TimeSlot) :=
  let start := startOfDay date + 6 * 60 * msPerMinute in
  let end_ := startOfDay date + 22 * 60 * msPerMinute in
  slotLoop 33 start end_.

(** *** calculatePriceEstimate *)

Definition calculatePriceEstimate : M unit :=
  r <- getRender ;;
  match Charger.pricing (charger r) with
  | None => ret tt
  | Some pricing =>
    if blank (startTime r) || blank (endTime r) then ret tt else
    let start := dateAt (selectedDate r) (startTime r) in
    let end_ := dateAt (selectedDate r) (endTime r) in
    if date_leb end_ start then
      toast_error (Text "End time must be after start time")
    else
    let durationHours := (differenceInMinutes end_ start / 60)%float in
    let minDuration :=
      (or_else (ChargerPricing.min_session_minutes pricing) 30 / 60)%float in
    let maxDuration :=
      (or_else (ChargerPricing.max_session_minutes pricing) 480 / 60)%float in
    if (durationHours <? minDuration)%float then
      toast_error (MinimumSessionDuration minDuration)
    else
    if (maxDuration <? durationHours)%float then
      toast_error (MaximumSessionDuration maxDuration)
    else
    let max_power_kw := Charger.max_power_kw (charger r) in
    let price_value := ChargerPricing.price_value pricing in
    let '(subtotal, energyEstimate) :=
      match ChargerPricing.pricing_type pricing with
      | per_hour =>
          ((durationHours * price_value)%float,
           (durationHours * max_power_kw * 0.8)%float)
      | per_kwh =>
          let energyEstimate := (durationHours * max_power_kw * 0.8)%float in
          ((energyEstimate * price_value)%float, energyEstimate)
      | flat_rate =>
          (price_value, (durationHours * max_power_kw * 0.8)%float)
      end in
    let bookingFee := or_else (ChargerPricing.booking_fee pricing) 0%float in
    let platformFeeRate := 0.15%float in
    let platformFee := (subtotal * platformFeeRate)%float in
    let total := (subtotal + bookingFee + platformFee)%float in
    setPriceEstimate
      {| PriceEstimate.duration_hours := durationHours;
         PriceEstimate.energy_estimate_kwh := energyEstimate;
         PriceEstimate.subtotal := subtotal;
         PriceEstimate.platform_fee := platformFee;
         PriceEstimate.booking_fee := bookingFee;
         PriceEstimate.total := total;
         PriceEstimate.pricing_type := ChargerPricing.pricing_type pricing;
         PriceEstimate.unit_price := price_value |}
  end.

(** *** validateTimeSelection *)

Definition validateTimeSelection : M bool :=
  r <- getRender ;;
  if blank (startTime r) || blank (endTime r) then
    toast_error (Text "Please select start and end time") ;; ret false
  else
  let start := dateAt (selectedDate r) (startTime r) in
  let end_ := dateAt (selectedDate r) (endTime r) in
  if date_leb end_ start then
    toast_error (Text "End time must be after start time") ;; ret false
  else
  today <- newDate ;;
  if isBefore start today then
    toast_error (Text "Cannot book in the past") ;; ret false
  else ret true.

(** *** submitBooking *)

(** [submitBooking] is an [async] function: it runs up to its [await], is
    suspended while the 1500 ms timer runs, and is resumed afterwards.  The
    suspended call keeps the render it was started from and the constants
    computed so far. *)
Record Suspended : Type := {
  closure : Render;
  start : Date;
  end_ : Date;
  bookingData : BookingForm.t
}.

(** The [catch] block. *)
Definition submitBooking_catch (r : Render) (error : Error) : M unit :=
  if includes (message error) "double booking" then
    toast_error (Text
      "This time slot is no longer available. Please select a different time.") ;;
    (* Refresh available slots *)
    slots <- generateTimeSlots (selectedDate r) ;;
    setAvailableSlots slots
  else
    toast_error (Text "Failed to create booking. Please try again.").

(** From the call to the [await]. *)
Definition submitBooking_begin : M (option Suspended) :=
  r <- getRender ;;
  valid <- validateTimeSelection ;;
  match valid, priceEstimate r with
  | true, Some _ =>
      setIsLoading true ;;
      tried <- attempt
        (let start := dateAt (selectedDate r) (startTime r) in
         let end_ := dateAt (selectedDate r) (endTime r) in
         start_time <- toISOString start ;;
         end_time <- toISOString end_ ;;
         ret {| closure := r; start := start; end_ := end_;
                bookingData :=
                  {| BookingForm.charger_id := Charger.id (charger r);
                     BookingForm.start_time := start_time;
                     BookingForm.end_time := end_time;
                     BookingForm.vehicle_info := vehicleInfo r;
                     BookingForm.special_instructions :=
                       if blank (specialInstructions r) then None
                       else Some (specialInstructions r) |} |}) ;;
      match tried with
      | Normal k => ret (Some k)
      | Throw error =>
          submitBooking_catch r error ;;
          setIsLoading false ;;
          ret None
      end
  | _, _ => ret None
  end.

(** The mock booking, its fields evaluated in the order of the object
    literal. *)
Definition mockBooking (k : Suspended) : M Booking.t :=
  let r := closure k in
  d_id <- Math_random ;;
  start_time <- toISOString (start k) ;;
  end_time <- toISOString (end_ k) ;;
  d_code <- Math_random ;;
  total <- match priceEstimate r with
           | Some e => ret (PriceEstimate.total e)
           | None => throw {| message := "priceEstimate is null" |}
           end ;;
  d_qr <- Math_random ;;
  d_access <- Math_random ;;
  created <- newDate ;;
  created_at <- toISOString created ;;
  updated <- newDate ;;
  updated_at <- toISOString updated ;;
  ret {| Booking.id := floor (d_id * 10000)%float;
         Booking.charger_id := Charger.id (charger r);
         Booking.renter_id :=
           match user r with
           | Some u => or_else (User.id u) 0%float
           | None => 0%float
           end;
         Booking.start_time := start_time;
         Booking.end_time := end_time;
         Booking.status :=
           if Charger.auto_accept_bookings (charger r) then confirmed
           else pending;
         Booking.payment_status := payment_pending;
         Booking.booking_code :=
           {| prefix := "BK"; draw := d_code; digits := 8 |};
         Booking.total_amount := total;
         Booking.paid_amount := 0%float;
         Booking.currency := "INR";
         Booking.qr_code_url :=
           {| prefix := "BK"; draw := d_qr; digits := 8 |};
         Booking.access_code :=
           {| prefix := ""; draw := d_access; digits := 6 |};
         Booking.vehicle_info := vehicleInfo r;
         Booking.special_instructions := specialInstructions r;
         Booking.created_at := created_at;
         Booking.updated_at := updated_at;
         Booking.charger := charger r |}.

(** From the [await] to the end, [catch] and [finally] included. *)
Definition submitBooking_resume (k : Suspended) : M unit :=
  tried <- attempt
    (booking <- mockBooking k ;;
     setCompletedBooking booking ;;
     setCurrentStep 3 ;;
     toast_success (Text "Booking created successfully!") ;;
     emit (OnBookingComplete booking)) ;;
  match tried with
  | Normal _ => ret tt
  | Throw error => submitBooking_catch (closure k) error
  end ;;
  setIsLoading false.

Definition submitBooking : M unit :=
  suspended <- submitBooking_begin ;;
  match suspended with
  | Some k =>
      (* Simulate booking creation with atomic check *)
      timeout 1500 ;;
      submitBooking_resume k
  | None => ret tt
  end.

(** The bookings handed to [onBookingComplete]. *)
Fixpoint bookingsCreated (t : list Effect) : list Booking.t :=
  match t with
  | [] => []
  | OnBookingComplete b :: t' => b :: bookingsCreated t'
  | _ :: t' => bookingsCreated t'
  end.

(** The price estimates handed to [setPriceEstimate]. *)
Fixpoint estimatesSet (t : list Effect) : list PriceEstimate.t :=
  match t with
  | [] => []
  | SetPriceEstimate e :: t' => e :: estimatesSet t'
  | _ :: t' => estimatesSet t'
  end.

(** The error toasts shown. *)
Fixpoint errorsShown (t : list Effect) : list Message :=
  match t with
  | [] => []
  | ToastError m :: t' => m :: errorsShown t'
  | _ :: t' => errorsShown t'
  end.

(** *** Step navigation and input handlers *)

Definition steps_length : nat := 4.

Definition handleNext : M unit :=
  r <- getRender ;;
  valid <- (if Nat.eqb (currentStep r) 0 then validateTimeSelection
            else ret true) ;;
  if negb valid then ret tt else
  if Nat.eqb (currentStep r) 1 && blank (type (vehicleInfo r)) then
    toast_error (Text "Please select your vehicle type")
  else
  if Nat.ltb (currentStep r) (steps_length - 1) then
    setCurrentStep (currentStep r + 1)
  else ret tt.

Definition handleBack : M unit :=
  r <- getRender ;;
  if Nat.ltb 0 (currentStep r) then setCurrentStep (currentStep r - 1)
  else ret tt.

(** The effect that follows a change of [startTime], [endTime] or
    [vehicleInfo]. *)
Definition timeSelectionEffect : M unit :=
  r <- getRender ;;
  match Charger.pricing (charger r) with
  | Some _ =>
      if negb (blank (startTime r)) && negb (blank (endTime r)) then
        calculatePriceEstimate
      else ret tt
  | None => ret tt
  end.

(** The effect that follows a change of [selectedDate]. *)
Definition selectedDateEffect : M unit :=
  r <- getRender ;;
  slots <- generateTimeSlots (selectedDate r) ;;
  setAvailableSlots slots.

Definition changeStartTime (value : string) : M unit :=
  updateRender (with_startTime value) ;; timeSelectionEffect.

Definition changeEndTime (value : string) : M unit :=
  updateRender (with_endTime value) ;; timeSelectionEffect.

Definition changeSelectedDate (date : Z) : M unit :=
  updateRender (with_selectedDate date) ;; selectedDateEffect.

(** The component as first rendered for a charger, before its effects
    run. *)
Definition mount (c : Charger.t) (u : option User.t) (b : Browser) : Flow :=
  {| render :=
       {| charger := c; user := u; currentStep := 0; isLoading := false;
          selectedDate := now b; startTime := ""; endTime := "";
          vehicleInfo := {| type := ""; batteryCapacity := "";
                            currentCharge := ""; targetCharge := "" |};
          specialInstructions := ""; priceEstimate := None;
          availableSlots := []; completedBooking := None |};
     browser := b |}.

(* ===================================================================== *)
(** ** The details page (frontend/src/pages/ChargerDetailsPage.tsx) *)
(* ===================================================================== *)

Module ChargerDetailsPage.

(** [disabled={charger.current_status !== 'available'}] on the Book Now
    button, the only way into the booking flow. *)
Definition bookNowDisabled (c : Charger.t) : bool :=
  match Charger.current_status c with
  | available => false
  | _ => true
  end.

End ChargerDetailsPage.

(* ===================================================================== *)
(** ** Quantities the properties speak about *)
(* ===================================================================== *)

(** The length in minutes of a selection made of two clock times, the end
    strictly after the start. *)
Definition selectionMinutes (r : Render) : option Z :=
  match parseClock (startTime r), parseClock (endTime r) with
  | Some s, Some e => if s <? e then Some (e - s) else None
  | _, _ => None
  end.

Definition hoursOfMinutes (minutes : Z) : number := (of_Z minutes / 60)%float.

Definition minDuration (p : ChargerPricing.t) : number :=
  (or_else (ChargerPricing.min_session_minutes p) 30 / 60)%float.

Definition maxDuration (p : ChargerPricing.t) : number :=
  (or_else (ChargerPricing.max_session_minutes p) 480 / 60)%float.

(** The two duration tests of [calculatePriceEstimate] both let the
    session through. *)
Definition withinSessionBounds (p : ChargerPricing.t) (minutes : Z) : bool :=
  negb (hoursOfMinutes minutes <? minDuration p)%float
  && negb (maxDuration p <? hoursOfMinutes minutes)%float.

(** The overlap test in the specification's words (section 4.1): two
    half-open intervals [[s1, e1)] and [[s2, e2)] overlap; intervals that
    only touch do not. *)
Definition intervalsOverlap (s1 e1 s2 e2 : Z) : bool :=
  (s1 <? e2) && (s2 <? e1).

(** In the specification's words (section 4.3): the selected interval
    overlaps the rule's peak window, both read as half-open clock intervals
    of the day. *)
Definition overlapsPeakWindow (p : ChargerPricing.t) (r : Render) : bool :=
  match ChargerPricing.peak_hours_start p, ChargerPricing.peak_hours_end p with
  | Some peakStart, Some peakEnd =>
      match parseClock peakStart, parseClock peakEnd,
            parseClock (startTime r), parseClock (endTime r) with
      | Some ps, Some pe, Some s, Some e => intervalsOverlap s e ps pe
      | _, _, _, _ => false
      end
  | _, _ => false
  end.

(** The toast of the [catch] block for a slot that was taken meanwhile. *)
Definition slotTakenToast : Effect :=
  ToastError (Text
    "This time slot is no longer available. Please select a different time.").

(* ===================================================================== *)
(** ** Two clients booking at the same time *)
(* ===================================================================== *)

(** Each client runs its own copy of the component in its own browser.  A
    call of [submitBooking] takes two turns of the event loop: one from the
    click to the [await], one when the timer fires, at least 1500 ms
    later.  The turns of two clients interleave in any order. *)
Inductive Call : Type :=
| NotCalled
| Awaiting (k : Suspended)
| Returned.

Record Client : Type := {
  flow : Flow;
  call : Call;
  seen : list Effect
}.

Definition callBegins (c : Client) : Client :=
  match submitBooking_begin (flow c) with
  | (r, w, t) =>
      {| flow := w;
         call := match r with
                 | Normal (Some k) => Awaiting k
                 | _ => Returned
                 end;
         seen := seen c ++ t |}
  end.

Definition timerFires (elapsed : Z) (k : Suspended) (c : Client) : Client :=
  match (timeout elapsed ;; submitBooking_resume k) (flow c) with
  | (_, w, t) => {| flow := w; call := Returned; seen := seen c ++ t |}
  end.

Inductive clientStep : Client -> Client -> Prop :=
| step_call c :
    call c = NotCalled -> clientStep c (callBegins c)
| step_timer c k elapsed :
    call c = Awaiting k -> 1500 <= elapsed ->
    clientStep c (timerFires elapsed k c).

Inductive step : Client * Client -> Client * Client -> Prop :=
| step_first a a' b : clientStep a a' -> step (a, b) (a', b)
| step_second a b b' : clientStep b b' -> step (a, b) (a, b').

Inductive steps : Client * Client -> Client * Client -> Prop :=
| steps_done x : steps x x
| steps_more x y z : step x y -> steps y z -> steps x z.

(** A client about to press Pay. *)
Definition ready (w : Flow) : Client :=
  {| flow := w; call := NotCalled; seen := [] |}.

(** The selection of [w] can be booked: two clock times [s < e], the start
    not before the clock, a price estimate held. *)
Definition bookable (w : Flow) (s e : Z) : Prop :=
  parseClock (startTime (render w)) = Some s
  /\ parseClock (endTime (render w)) = Some e
  /\ s < e
  /\ now (browser w) <= startOfDay (selectedDate (render w)) + s * msPerMinute
  /\ priceEstimate (render w) <> None.

(** A client whose selection is bookable goes through three stages: ready,
    suspended at the [await] with the spinner shown, returned with its
    booking. *)
Inductive stage (w : Flow) (s e : Z) : Client -> Prop :=
| stage_ready : stage w s e (ready w)
| stage_awaiting k :
    start k = TimeValue (startOfDay (selectedDate (render w)) + s * msPerMinute) ->
    end_ k = TimeValue (startOfDay (selectedDate (render w)) + e * msPerMinute) ->
    closure k = render w ->
    stage w s e
      {| flow := {| render := with_isLoading true (render w);
                    browser := browser w |};
         call := Awaiting k;
         seen := [SetIsLoading true] |}
| stage_returned c b :
    call c = Returned ->
    bookingsCreated (seen c) = [b] ->
    ~ In slotTakenToast (seen c) ->
    Booking.charger_id b = Charger.id (charger (render w)) ->
    Booking.start_time b = startOfDay (selectedDate (render w)) + s * msPerMinute ->
    Booking.end_time b = startOfDay (selectedDate (render w)) + e * msPerMinute ->
    stage w s e c.


(* ===================================================================== *)
(** ** Sample data *)
(* ===================================================================== *)

Module Sample.

(** Per-hour rule at 50 per hour with a booking fee of 10; peak window
    09:00 to 12:00 at 1.5 times the price. *)
Definition rule : ChargerPricing.t :=
  {| ChargerPricing.id := 1;
     ChargerPricing.charger_id := 1;
     ChargerPricing.pricing_type := per_hour;
     ChargerPricing.price_value := 50;
     ChargerPricing.min_session_minutes := 30;
     ChargerPricing.max_session_minutes := 240;
     ChargerPricing.peak_hours_start := Some "09:00";
     ChargerPricing.peak_hours_end := Some "12:00";
     ChargerPricing.peak_price_multiplier := 1.5;
     ChargerPricing.weekend_price_multiplier := 1;
     ChargerPricing.booking_fee := 10;
     ChargerPricing.overstay_fee_per_hour := 100;
     ChargerPricing.late_cancellation_fee := 0;
     ChargerPricing.advance_booking_hours := 0;
     ChargerPricing.same_day_booking := true |}.

(** The rule of the details page's sample charger: 12 per kWh. *)
Definition kwhRule : ChargerPricing.t :=
  {| ChargerPricing.id := 2;
     ChargerPricing.charger_id := 2;
     ChargerPricing.pricing_type := per_kwh;
     ChargerPricing.price_value := 12;
     ChargerPricing.min_session_minutes := 30;
     ChargerPricing.max_session_minutes := 240;
     ChargerPricing.peak_hours_start := None;
     ChargerPricing.peak_hours_end := None;
     ChargerPricing.peak_price_multiplier := 1.2;
     ChargerPricing.weekend_price_multiplier := 1;
     ChargerPricing.booking_fee := 10;
     ChargerPricing.overstay_fee_per_hour := 0;
     ChargerPricing.late_cancellation_fee := 0;
     ChargerPricing.advance_booking_hours := 0;
     ChargerPricing.same_day_booking := true |}.

Definition R1 : Charger.t :=
  {| Charger.id := 1;
     Charger.title := "R1";
     Charger.max_power_kw := 8;
     Charger.current_status := available;
     Charger.is_active := true;
     Charger.is_verified := true;
     Charger.auto_accept_bookings := false;
     Charger.host_id := 1;
     Charger.pricing := Some rule |}.

Definition R2 : Charger.t :=
  {| Charger.id := 2;
     Charger.title := "R2";
     Charger.max_power_kw := 8;
     Charger.current_status := available;
     Charger.is_active := true;
     Charger.is_verified := true;
     Charger.auto_accept_bookings := true;
     Charger.host_id := 1;
     Charger.pricing := Some kwhRule |}.

(** Listed as available, but switched off by its host. *)
Definition inactive : Charger.t :=
  {| Charger.id := 3;
     Charger.title := "R3";
     Charger.max_power_kw := 8;
     Charger.current_status := available;
     Charger.is_active := false;
     Charger.is_verified := true;
     Charger.auto_accept_bookings := false;
     Charger.host_id := 1;
     Charger.pricing := Some rule |}.

Definition alice : User.t := {| User.id := 7; User.name := "Alice" |}.
Definition bob : User.t := {| User.id := 8; User.name := "Bob" |}.

(** [Math.random] returns values between 1/4 and 3/4 in steps of
    1/128. *)
Definition draws (offset : Z) (n : nat) : number :=
  (of_Z ((offset + Z.of_nat n) mod 64) / 128 + 0.25)%float.

(** Two browsers on Thursday 1 January 1970, one at midnight, one at
    1 AM. *)
Definition morning : Browser := {| now := 0; random := draws 0 |}.
Definition elsewhere : Browser := {| now := 3600000; random := draws 16 |}.

(** The flow once the component is mounted, its effects have run and the
    user has picked 10:00 to 11:30. *)
Definition picked (c : Charger.t) (u : User.t) (b : Browser) : Flow :=
  after (selectedDateEffect ;; timeSelectionEffect ;;
         changeStartTime "10:00" ;; changeEndTime "11:30")
    (mount c (Some u) b).

End Sample.

(** Closed facts about the sample data are settled by evaluation. *)
Ltac evaluate := vm_compute; first [reflexivity | discriminate].

(* ===================================================================== *)
(** ** BookingFlow: the remaining input handlers *)
(* ===================================================================== *)

Definition with_vehicleInfo (v : VehicleInfo) (r : Render) : Render :=
  {| charger := charger r; user := user r; currentStep := currentStep r;
     isLoading := isLoading r; selectedDate := selectedDate r;
     startTime := startTime r; endTime := endTime r;
     vehicleInfo := v; specialInstructions := specialInstructions r;
     priceEstimate := priceEstimate r; availableSlots := availableSlots r;
     completedBooking := completedBooking r |}.

(** [setVehicleInfo({...vehicleInfo, type: value})] of the vehicle select,
    followed by the effect that depends on [vehicleInfo]. *)
Definition changeVehicleType (value : string) : M unit :=
  r <- getRender ;;
  updateRender
    (with_vehicleInfo
       {| type := value;
          batteryCapacity := batteryCapacity (vehicleInfo r);
          currentCharge := currentCharge (vehicleInfo r);
          targetCharge := targetCharge (vehicleInfo r) |}) ;;
  timeSelectionEffect.

(** The [k]-th half-hour slot of the day of [date], counted from 6 AM, with
    the availability [available]. *)
Definition slotAt (date : Z) (k : nat) (available : bool) : TimeSlot :=
  {| slot_start :=
       startOfDay date + 6 * 60 * msPerMinute + Z.of_nat k * (30 * msPerMinute);
     slot_end :=
       startOfDay date + 6 * 60 * msPerMinute
       + (Z.of_nat k + 1) * (30 * msPerMinute);
     slot_available := available |}.

(** The browser once [n] more random draws have been taken. *)
Definition drawn (n : nat) (w : Flow) : Flow :=
  {| render := render w;
     browser := {| now := now (browser w);
                   random := fun i => random (browser w) (n + i)%nat |} |}.

(** The four ways a call of [submitBooking] ends. *)
Inductive SubmitOutcome (w : Flow) : Prop :=
| outcome_refused m :
    submitBooking w = (Normal tt, w, [ToastError m]) -> SubmitOutcome w
| outcome_silent :
    priceEstimate (render w) = None ->
    submitBooking w = (Normal tt, w, []) -> SubmitOutcome w
| outcome_failed :
    submitBooking w
    = (Normal tt,
       {| render := with_isLoading false (with_isLoading true (render w));
          browser := browser w |},
       [SetIsLoading true;
        ToastError (Text "Failed to create booking. Please try again.");
        SetIsLoading false]) ->
    SubmitOutcome w
| outcome_booked b :
    submitBooking w
    = (Normal tt,
       {| render :=
            with_isLoading false
              (with_currentStep 3
                 (with_completedBooking (Some b)
                    (with_isLoading true (render w))));
          browser :=
            {| now := now (browser w) + 1500;
               random := fun n => random (browser w) (4 + n)%nat |} |},
       [SetIsLoading true; SetCompletedBooking b; SetCurrentStep 3;
        ToastSuccess (Text "Booking created successfully!");
        OnBookingComplete b; SetIsLoading false]) ->
    SubmitOutcome w.


(* ===================================================================== *)
(** ** BookingFlow: what a user can do, in any order *)
(* ===================================================================== *)

Definition with_specialInstructions (s : string) (r : Render) : Render :=
  {| charger := charger r; user := user r; currentStep := currentStep r;
     isLoading := isLoading r; selectedDate := selectedDate r;
     startTime := startTime r; endTime := endTime r;
     vehicleInfo := vehicleInfo r; specialInstructions := s;
     priceEstimate := priceEstimate r; availableSlots := availableSlots r;
     completedBooking := completedBooking r |}.

(** [setVehicleInfo(v)] with the effect that depends on [vehicleInfo]. *)
Definition changeVehicleInfo (v : VehicleInfo) : M unit :=
  updateRender (with_vehicleInfo v) ;; timeSelectionEffect.

(** [setSpecialInstructions(value)]; no effect depends on it. *)
Definition changeSpecialInstructions (value : string) : M unit :=
  updateRender (with_specialInstructions value).

(** The controls of the component, and the passing of time between two
    uses of them.  Which controls a step shows is left aside: every order of
    use is allowed.  [perform Pay] runs a whole call of [submitBooking], its
    timer included, before anything else happens; the event loop further
    down lets other events come in between. *)
Inductive Action : Type :=
| PickDate (date : Z)
| PickStart (value : string)
| PickEnd (value : string)
| PickVehicle (v : VehicleInfo)
| TypeInstructions (value : string)
| Next
| Back
| Pay
| Wait (ms : Z).

Definition perform (a : Action) : M unit :=
  match a with
  | PickDate date => changeSelectedDate date
  | PickStart value => changeStartTime value
  | PickEnd value => changeEndTime value
  | PickVehicle v => changeVehicleInfo v
  | TypeInstructions value => changeSpecialInstructions value
  | Next => handleNext
  | Back => handleBack
  | Pay => submitBooking
  | Wait ms => timeout ms
  end.

Fixpoint performAll (actions : list Action) : M unit :=
  match actions with
  | [] => ret tt
  | a :: rest => perform a ;; performAll rest
  end.

(** The component once mounted and its two effects have run. *)
Definition opened (c : Charger.t) (u : option User.t) (b : Browser) : Flow :=
  after (selectedDateEffect ;; timeSelectionEffect) (mount c u b).

(** The estimate [e] is what [calculatePriceEstimate] computes under the
    pricing rule of charger [c] for the duration it records, and that
    duration passed both session tests of the rule. *)
Definition pricedBy (c : Charger.t) (e : PriceEstimate.t) : Prop :=
  exists p,
    Charger.pricing c = Some p
    /\ PriceEstimate.pricing_type e = ChargerPricing.pricing_type p
    /\ PriceEstimate.unit_price e = ChargerPricing.price_value p
    /\ PriceEstimate.energy_estimate_kwh e
       = (PriceEstimate.duration_hours e * Charger.max_power_kw c * 0.8)%float
    /\ PriceEstimate.subtotal e
       = match ChargerPricing.pricing_type p with
         | per_hour =>
             (PriceEstimate.duration_hours e * ChargerPricing.price_value p)%float
         | per_kwh =>
             (PriceEstimate.energy_estimate_kwh e
              * ChargerPricing.price_value p)%float
         | flat_rate => ChargerPricing.price_value p
         end
    /\ PriceEstimate.platform_fee e = (PriceEstimate.subtotal e * 0.15)%float
    /\ PriceEstimate.booking_fee e
       = or_else (ChargerPricing.booking_fee p) 0%float
    /\ PriceEstimate.total e
       = (PriceEstimate.subtotal e + PriceEstimate.booking_fee e
          + PriceEstimate.platform_fee e)%float
    /\ (PriceEstimate.duration_hours e <? minDuration p)%float = false
    /\ (maxDuration p <? PriceEstimate.duration_hours e)%float = false.

(** What every state of an opened flow satisfies. *)
Record Settled (c : Charger.t) (u : option User.t) (w : Flow) : Prop := {
  settled_charger : charger (render w) = c;
  settled_user : user (render w) = u;
  settled_step : (currentStep (render w) <= 3)%nat;
  settled_spinner : isLoading (render w) = false;
  settled_estimate :
    forall e, priceEstimate (render w) = Some e -> pricedBy c e
}.

(* ===================================================================== *)
(** ** ChargerCard: the amenity chips *)
(* ===================================================================== *)

Module ChargerCard.

(** [charger.amenities], a [Record<string, boolean>], as the list of its
    entries in the order [Object.entries] gives them. *)
Definition Amenities : Type := list (string * bool).

(** [amenity.replace('_', ' ')]: a string pattern replaces the first match
    only. *)
Fixpoint replaceUnderscore (s : string) : string :=
  match s with
  | EmptyString => EmptyString
  | String c rest =>
      if Ascii.eqb c "_" then String " " rest
      else String c (replaceUnderscore rest)
  end.

(** [Object.entries(amenities).filter(([_, enabled]) => enabled)]. *)
Definition enabled (a : Amenities) : Amenities :=
  filter (fun entry => snd entry) a.

(** The chips of the card: the first three enabled amenities. *)
Definition chips (a : Amenities) : list string :=
  map (fun entry => replaceUnderscore (fst entry)) (firstn 3 (enabled a)).

(** The "+N more" note, shown when more than three are enabled. *)
Definition more (a : Amenities) : option nat :=
  let n := List.length (enabled a) in
  if Nat.ltb 3 n then Some (n - 3)%nat else None.

Fixpoint underscores (s : string) : nat :=
  match s with
  | EmptyString => 0
  | String c rest =>
      ((if Ascii.eqb c "_" then 1 else 0) + underscores rest)%nat
  end.

End ChargerCard.

(* ===================================================================== *)
(** ** SearchPage: filtering the sample chargers *)
(* ===================================================================== *)

(** An entry of [sampleChargers] (frontend/src/services/maps.ts). *)
Module SampleCharger.
Record t : Type := {
  id : number;
  title : string;
  address : string;
  latitude : number;
  longitude : number;
  connector_type : string;
  charger_type : string;
  max_power_kw : number;
  current_status : string;
  average_rating : number;
  total_bookings : number;
  price_value : number;
  pricing_type : string
}.
End SampleCharger.

Definition sampleChargers : list SampleCharger.t :=
  [ {| SampleCharger.id := 1;
       SampleCharger.title := "Green Energy Hub - Bandra";
       SampleCharger.address := "Bandra West, Mumbai, Maharashtra";
       SampleCharger.latitude := 19.0540;
       SampleCharger.longitude := 72.8294;
       SampleCharger.connector_type := "ccs";
       SampleCharger.charger_type := "dc_fast";
       SampleCharger.max_power_kw := 120;
       SampleCharger.current_status := "available";
       SampleCharger.average_rating := 4.8;
       SampleCharger.total_bookings := 156;
       SampleCharger.price_value := 12;
       SampleCharger.pricing_type := "per_kwh" |};
    {| SampleCharger.id := 2;
       SampleCharger.title := "EcoCharge Station - Andheri";
       SampleCharger.address := "Andheri East, Mumbai, Maharashtra";
       SampleCharger.latitude := 19.1197;
       SampleCharger.longitude := 72.8464;
       SampleCharger.connector_type := "type2";
       SampleCharger.charger_type := "level2";
       SampleCharger.max_power_kw := 22;
       SampleCharger.current_status := "in_use";
       SampleCharger.average_rating := 4.5;
       SampleCharger.total_bookings := 89;
       SampleCharger.price_value := 8;
       SampleCharger.pricing_type := "per_kwh" |};
    {| SampleCharger.id := 3;
       SampleCharger.title := "Power Plus - Worli";
       SampleCharger.address := "Worli, Mumbai, Maharashtra";
       SampleCharger.latitude := 19.0176;
       SampleCharger.longitude := 72.8181;
       SampleCharger.connector_type := "ccs";
       SampleCharger.charger_type := "dc_fast";
       SampleCharger.max_power_kw := 150;
       SampleCharger.current_status := "available";
       SampleCharger.average_rating := 4.9;
       SampleCharger.total_bookings := 234;
       SampleCharger.price_value := 15;
       SampleCharger.pricing_type := "per_kwh" |};
    {| SampleCharger.id := 4;
       SampleCharger.title := "Quick Charge - Powai";
       SampleCharger.address := "Powai, Mumbai, Maharashtra";
       SampleCharger.latitude := 19.1176;
       SampleCharger.longitude := 72.9060;
       SampleCharger.connector_type := "chademo";
       SampleCharger.charger_type := "dc_fast";
       SampleCharger.max_power_kw := 90;
       SampleCharger.current_status := "maintenance";
       SampleCharger.average_rating := 4.3;
       SampleCharger.total_bookings := 67;
       SampleCharger.price_value := 10;
       SampleCharger.pricing_type := "per_kwh" |};
    {| SampleCharger.id := 5;
       SampleCharger.title := "Tesla Supercharger - BKC";
       SampleCharger.address := "Bandra Kurla Complex, Mumbai, Maharashtra";
       SampleCharger.latitude := 19.0670;
       SampleCharger.longitude := 72.8777;
       SampleCharger.connector_type := "nacs";
       SampleCharger.charger_type := "dc_fast";
       SampleCharger.max_power_kw := 250;
       SampleCharger.current_status := "available";
       SampleCharger.average_rating := 4.9;
       SampleCharger.total_bookings := 445;
       SampleCharger.price_value := 18;
       SampleCharger.pricing_type := "per_kwh" |} ].

(** The fields of [SearchFilters] that [loadChargers] reads; [None] stands
    for [undefined]. *)
Module SearchFilters.
Record t : Type := {
  radius_km : option number;
  connector_type : option string;
  charger_type : option string;
  available_now : option bool;
  min_rating : option number
}.
End SearchFilters.

(** Truthiness of an optional string, boolean and number. *)
Definition givenString (o : option string) : option string :=
  match o with
  | Some s => if blank s then None else Some s
  | None => None
  end.

Definition givenNumber (o : option number) : option number :=
  match o with
  | Some x => if truthy x then Some x else None
  | None => None
  end.

(** The filters of [loadChargers], applied one after the other to
    [results]. *)
Definition applyFilters (filters : SearchFilters.t)
    (results : list SampleCharger.t) : list SampleCharger.t :=
  let results :=
    match givenString (SearchFilters.connector_type filters) with
    | Some wanted =>
        filter (fun c => String.eqb (SampleCharger.connector_type c) wanted)
          results
    | None => results
    end in
  let results :=
    match givenString (SearchFilters.charger_type filters) with
    | Some wanted =>
        filter (fun c => String.eqb (SampleCharger.charger_type c) wanted)
          results
    | None => results
    end in
  let results :=
    match SearchFilters.available_now filters with
    | Some true =>
        filter (fun c => String.eqb (SampleCharger.current_status c) "available")
          results
    | _ => results
    end in
  let results :=
    match givenNumber (SearchFilters.min_rating filters) with
    | Some wanted =>
        filter (fun c => (wanted <=? SampleCharger.average_rating c)%float)
          results
    | None => results
    end in
  results.

(** The list [loadChargers] hands to [setChargers]: the filtered samples
    when no map API key is configured, nothing otherwise. *)
Definition loadChargers (apiKey : bool) (filters : SearchFilters.t)
  : list SampleCharger.t :=
  if apiKey then [] else applyFilters filters sampleChargers.

(** [clearFilters]. *)
Definition clearedFilters : SearchFilters.t :=
  {| SearchFilters.radius_km := Some 10%float;
     SearchFilters.connector_type := None;
     SearchFilters.charger_type := None;
     SearchFilters.available_now := Some false;
     SearchFilters.min_rating := None |}.

(** A charger passes every filter that is set. *)
Definition passes (filters : SearchFilters.t) (c : SampleCharger.t) : Prop :=
  (forall wanted,
     givenString (SearchFilters.connector_type filters) = Some wanted ->
     SampleCharger.connector_type c = wanted)
  /\ (forall wanted,
        givenString (SearchFilters.charger_type filters) = Some wanted ->
        SampleCharger.charger_type c = wanted)
  /\ (SearchFilters.available_now filters = Some true ->
      SampleCharger.current_status c = "available")
  /\ (forall wanted,
        givenNumber (SearchFilters.min_rating filters) = Some wanted ->
        (wanted <=? SampleCharger.average_rating c)%float = true).

(* ===================================================================== *)
(** ** useAuth: the permission checks (frontend/src/hooks/useAuth.ts) *)
(* ===================================================================== *)

Inductive Role : Type := guest | renter | host | admin.

Inductive KycStatus : Type :=
  kyc_pending | kyc_submitted | kyc_verified | kyc_rejected.

(** The fields of the [User] interface that the permission checks read. *)
Module Account.
Record t : Type := {
  role : Role;
  is_verified : bool;
  kyc_status : KycStatus
}.
End Account.

Definition role_eqb (a b : Role) : bool :=
  match a, b with
  | guest, guest | renter, renter | host, host | admin, admin => true
  | _, _ => false
  end.

(** The argument of [hasRole]: one role or an array of roles. *)
Inductive RoleQuery : Type :=
| OneRole (r : Role)
| AnyOf (roles : list Role).

(** What the hook hands to a component: the user of its own state, the
    user of the ['user','me'] query that the permission checks close over,
    and the two flags. *)
Module Auth.
Record t : Type := {
  user : option Account.t;
  queryUser : option Account.t;
  isLoading : bool;
  isAuthenticated : bool
}.
End Auth.

Module UseAuth.

Definition hasRole (user : option Account.t) (q : RoleQuery) : bool :=
  match user with
  | None => false
  | Some u =>
      match q with
      | AnyOf roles => existsb (role_eqb (Account.role u)) roles
      | OneRole r => role_eqb (Account.role u) r
      end
  end.

Definition isHost (user : option Account.t) : bool :=
  hasRole user (AnyOf [host; admin]).

Definition isAdmin (user : option Account.t) : bool :=
  hasRole user (OneRole admin).

Definition isVerified (user : option Account.t) : bool :=
  match user with
  | Some u => Account.is_verified u
  | None => false
  end.

Definition isKYCVerified (user : option Account.t) : bool :=
  match user with
  | Some u =>
      match Account.kyc_status u with kyc_verified => true | _ => false end
  | None => false
  end.

End UseAuth.

(** [localStorage]. *)
Definition Storage : Type := string -> option string.

Definition getItem (key : string) (s : Storage) : option string := s key.

Definition setItem (key value : string) (s : Storage) : Storage :=
  fun k => if String.eqb k key then Some value else s k.

Definition removeItem (key : string) (s : Storage) : Storage :=
  fun k => if String.eqb k key then None else s k.

Inductive AuthEffect : Type :=
| AuthToastSuccess (text : string)
| RefetchUser
| NavigateReplace (path : string).

(** [apiService.login] once the server has answered: the tokens, as the
    JSON text [authData], go to [localStorage]
    (frontend/src/services/api.ts). *)
Definition apiLogin (authData : string) (s : Storage) : Storage :=
  setItem "chargemitra_auth" authData s.

(** [onSuccess] of the login mutation. *)
Definition loginSucceeded (s : Storage) : Storage * list AuthEffect :=
  let redirectTo :=
    match getItem "chargemitra_redirect" s with
    | Some path => if blank path then "/" else path
    | None => "/"
    end in
  (removeItem "chargemitra_redirect" s,
   [AuthToastSuccess "Welcome back!"; RefetchUser; NavigateReplace redirectTo]).

(** A successful login: the mutation function, then its [onSuccess]. *)
Definition login (authData : string) (s : Storage)
  : Storage * list AuthEffect :=
  loginSucceeded (apiLogin authData s).

(* ===================================================================== *)
(** ** ProtectedRoute *)
(* ===================================================================== *)

Module ProtectedRoute.

Record Props : Type := {
  requiredRole : option Role;
  requireKYC : bool;
  fallbackPath : string
}.

(** What the component returns. *)
Inductive View : Type :=
| Verifying
| RedirectTo (path : string)
| AccessDenied (becomeHostOffer : bool)
| KycRequired
| UnverifiedBanner
| Children.

Definition view (props : Props) (auth : Auth.t) : View :=
  if Auth.isLoading auth then Verifying
  else if negb (Auth.isAuthenticated auth) then RedirectTo (fallbackPath props)
  else
    let denied :=
      match requiredRole props with
      | Some r => negb (UseAuth.hasRole (Auth.queryUser auth) (OneRole r))
      | None => false
      end in
    if denied then
      AccessDenied
        (match requiredRole props, Auth.user auth with
         | Some host, Some u => role_eqb (Account.role u) renter
         | _, _ => false
         end)
    else if requireKYC props && negb (UseAuth.isKYCVerified (Auth.queryUser auth))
    then KycRequired
    else
      match Auth.user auth with
      | Some u => if negb (Account.is_verified u) then UnverifiedBanner
                  else Children
      | None => Children
      end.

(** The views that render the protected page. *)
Definition showsChildren (v : View) : bool :=
  match v with
  | UnverifiedBanner | Children => true
  | _ => false
  end.

(** The effect that stores the intended destination for the redirect after
    login. *)
Definition rememberDestination (auth : Auth.t) (pathname search : string)
    (s : Storage) : Storage :=
  if negb (Auth.isAuthenticated auth) && negb (Auth.isLoading auth) then
    setItem "chargemitra_redirect" (pathname ++ search)%string s
  else s.

End ProtectedRoute.

(* ===================================================================== *)
(** ** BookingFlow under the event loop *)
(* ===================================================================== *)

Definition with_user (u : option User.t) (r : Render) : Render :=
  {| charger := charger r; user := u; currentStep := currentStep r;
     isLoading := isLoading r; selectedDate := selectedDate r;
     startTime := startTime r; endTime := endTime r;
     vehicleInfo := vehicleInfo r; specialInstructions := specialInstructions r;
     priceEstimate := priceEstimate r; availableSlots := availableSlots r;
     completedBooking := completedBooking r |}.

(** One copy of the component between two turns of the event loop: the
    state of its last render with the browser, whether it is still mounted,
    the calls of [submitBooking] suspended at their [await], everything the
    handlers have done so far, and the errors that escaped a handler.  The
    charger is the prop of the parent, which the details page sets once. *)
Record Mounted : Type := {
  shown : Flow;
  alive : bool;
  awaiting : list Suspended;
  emitted : list Effect;
  faults : list Error
}.

(** A turn of the event loop runs [m] on the current state.  The state
    updates of a component that is no longer mounted are dropped; its
    toasts, its callbacks and its use of the browser are as before. *)
Definition turn {A} (m : M A) (x : Mounted) : Completion A * Mounted :=
  match m (shown x) with
  | (r, w, t) =>
      (r,
       {| shown := if alive x then w
                   else {| render := render (shown x); browser := browser w |};
          alive := alive x;
          awaiting := awaiting x;
          emitted := emitted x ++ t;
          faults := faults x ++ match r with
                                | Throw error => [error]
                                | Normal _ => []
                                end |})
  end.

Definition with_awaiting (ks : list Suspended) (x : Mounted) : Mounted :=
  {| shown := shown x; alive := alive x; awaiting := ks;
     emitted := emitted x; faults := faults x |}.

Definition unmount (x : Mounted) : Mounted :=
  {| shown := shown x; alive := false; awaiting := awaiting x;
     emitted := emitted x; faults := faults x |}.

(** What can happen to a mounted flow, in any order:
    - the user uses a control ([Wait] lets time pass).  Which controls a step
      shows is left aside, so every order of use is allowed; the Pay button
      is [disabled={isLoading}], and [Pay] runs [submitBooking] up to its
      [await] only;
    - the state of the component's own [useAuth()] changes, which starts
      without a user and follows the user query, logout and storage events;
    - the timer of the oldest suspended call fires, whenever that is;
    - the component is unmounted: by Cancel, the backdrop or the close
      button ([onClose]), by the page when a booking is complete, or by a
      render that fails. *)
Inductive Event : Type :=
| Uses (a : Action)
| AuthState (u : option User.t)
| TimerFired
| Unmounted.

Definition handle (e : Event) (x : Mounted) : Mounted :=
  match e with
  | Uses Pay =>
      if alive x && negb (isLoading (render (shown x))) then
        match turn submitBooking_begin x with
        | (Normal (Some k), y) => with_awaiting (awaiting y ++ [k]) y
        | (_, y) => y
        end
      else x
  | Uses (Wait ms) => snd (turn (timeout ms) x)
  | Uses a => if alive x then snd (turn (perform a) x) else x
  | AuthState u =>
      if alive x then snd (turn (updateRender (with_user u)) x) else x
  | TimerFired =>
      match awaiting x with
      | k :: rest => snd (turn (submitBooking_resume k) (with_awaiting rest x))
      | [] => x
      end
  | Unmounted => unmount x
  end.

Fixpoint handleAll (events : list Event) (x : Mounted) : Mounted :=
  match events with
  | [] => x
  | e :: rest => handleAll rest (handle e x)
  end.

(** The component after its first render and its two effects; the hook's
    state starts with no user. *)
Definition mounted (c : Charger.t) (b : Browser) : Mounted :=
  snd (turn (selectedDateEffect ;; timeSelectionEffect)
         {| shown := mount c None b; alive := true; awaiting := [];
            emitted := []; faults := [] |}).

(** The presses of Pay among the events. *)
Fixpoint pays (events : list Event) : nat :=
  match events with
  | [] => 0
  | Uses Pay :: rest => S (pays rest)
  | _ :: rest => pays rest
  end.

(** The renter id [user?.id || 0] written for a hook state [u]. *)
Definition renterId (u : option User.t) : number :=
  match u with
  | Some usr => or_else (User.id usr) 0%float
  | None => 0%float
  end.

(** A suspended call started from a render of charger [c] that held a user
    among [known] (or none), an estimate priced by the rule of [c], and a
    start before its end. *)
Definition Launched (c : Charger.t) (known : User.t -> Prop) (k : Suspended)
  : Prop :=
  charger (closure k) = c
  /\ (forall usr, user (closure k) = Some usr -> known usr)
  /\ (exists pe, priceEstimate (closure k) = Some pe /\ pricedBy c pe)
  /\ exists s e, start k = TimeValue s /\ end_ k = TimeValue e /\ s < e.

(** A booking for charger [c], for no user or one among [known], charged
    the total of an estimate priced by the rule of [c]. *)
Definition Issued (c : Charger.t) (known : User.t -> Prop) (bk : Booking.t)
  : Prop :=
  Booking.charger bk = c
  /\ Booking.charger_id bk = Charger.id c
  /\ (Booking.renter_id bk = 0%float
      \/ exists usr, known usr
                     /\ Booking.renter_id bk = or_else (User.id usr) 0%float)
  /\ Booking.status bk
     = (if Charger.auto_accept_bookings c then confirmed else pending)
  /\ Booking.start_time bk < Booking.end_time bk
  /\ exists pe, pricedBy c pe /\ Booking.total_amount bk = PriceEstimate.total pe.

(** What every state of a mounted flow satisfies. *)
Record Sound (c : Charger.t) (known : User.t -> Prop) (x : Mounted) : Prop := {
  sound_faults : faults x = [];
  sound_charger : charger (render (shown x)) = c;
  sound_step : (currentStep (render (shown x)) <= 3)%nat;
  sound_user : forall usr, user (render (shown x)) = Some usr -> known usr;
  sound_estimate :
    forall e, priceEstimate (render (shown x)) = Some e -> pricedBy c e;
  sound_single : (List.length (awaiting x) <= 1)%nat;
  sound_spinner : awaiting x <> [] -> isLoading (render (shown x)) = true;
  sound_idle :
    alive x = true -> isLoading (render (shown x)) = true -> awaiting x <> [];
  sound_awaiting : forall k, In k (awaiting x) -> Launched c known k;
  sound_emitted :
    forall bk, In bk (bookingsCreated (emitted x)) -> Issued c known bk
}.

(* ===================================================================== *)
(** ** The details page: opening the booking flow *)
(* ===================================================================== *)

Inductive PageEffect : Type :=
| PageToastError (text : string)
| Navigate (path : string).

(** [handleBookNow]: the flow is shown only to a signed-in user. *)
Definition handleBookNow (u : option User.t) : bool * list PageEffect :=
  match u with
  | None =>
      (false,
       [PageToastError "Please sign in to book a charger"; Navigate "/auth"])
  | Some _ => (true, [])
  end.

(** A press on Book Now: the button is dead while it is disabled. *)
Definition pressBookNow (c : Charger.t) (u : option User.t)
  : bool * list PageEffect :=
  if ChargerDetailsPage.bookNowDisabled c then (false, [])
  else handleBookNow u.

(** The booking flow that the page mounts for its charger after a press on
    Book Now, if it shows one.  The page hands over the charger only: the
    flow asks its own [useAuth()] for the user. *)
Definition bookingFlowFor (c : Charger.t) (u : option User.t) (b : Browser)
  : option Mounted :=
  if fst (pressBookNow c u) then Some (mounted c b) else None.

Module Visit.

(** A charger listed without a pricing rule. *)
Definition unpriced : Charger.t :=
  {| Charger.id := 4;
     Charger.title := "R4";
     Charger.max_power_kw := 8;
     Charger.current_status := available;
     Charger.is_active := true;
     Charger.is_verified := true;
     Charger.auto_accept_bookings := false;
     Charger.host_id := 1;
     Charger.pricing := None |}.

(** Alice picks 10:00 to 11:30 and her vehicle on the unpriced charger. *)
Definition withoutEstimate : Flow :=
  after (selectedDateEffect ;; timeSelectionEffect ;;
         changeStartTime "10:00" ;; changeEndTime "11:30" ;;
         changeVehicleType "Tata Nexon EV")
    (mount unpriced (Some Sample.alice) Sample.morning).

(** Alice picked 10:00 to 11:30 on R1, then typed a start that is no time,
    as a browser without a time picker lets her. *)
Definition garbledStart : Flow :=
  after (changeStartTime "soon")
    (Sample.picked Sample.R1 Sample.alice Sample.morning).


(** Alice books R1 from start to end: times, vehicle, two steps on, Pay. *)
Definition straight : list Action :=
  [PickStart "10:00"; PickEnd "11:30";
   PickVehicle {| type := "Tata Nexon EV"; batteryCapacity := "";
                  currentCharge := ""; targetCharge := "" |};
   Next; Next; Pay].

(** The same visit under the event loop: the hook reports Alice, she picks
    her times and vehicle, goes to the payment step and presses Pay; while
    the call is pending she goes back a step and is signed out; then the
    timer fires. *)
Definition interrupted : list Event :=
  [AuthState (Some Sample.alice);
   Uses (PickStart "10:00"); Uses (PickEnd "11:30");
   Uses (PickVehicle {| type := "Tata Nexon EV"; batteryCapacity := "";
                        currentCharge := ""; targetCharge := "" |});
   Uses Next; Uses Next; Uses Pay;
   Uses Back; AuthState None;
   TimerFired].

End Visit.

(** Sample accounts and a host-only route. *)
Module Guarded.

Definition root : Account.t :=
  {| Account.role := admin;
     Account.is_verified := true;
     Account.kyc_status := kyc_verified |}.

Definition signedIn (u : Account.t) : Auth.t :=
  {| Auth.user := Some u;
     Auth.queryUser := Some u;
     Auth.isLoading := false;
     Auth.isAuthenticated := true |}.

Definition signedOut : Auth.t :=
  {| Auth.user := None;
     Auth.queryUser := None;
     Auth.isLoading := false;
     Auth.isAuthenticated := false |}.

Definition hostsOnly : ProtectedRoute.Props :=
  {| ProtectedRoute.requiredRole := Some host;
     ProtectedRoute.requireKYC := false;
     ProtectedRoute.fallbackPath := "/auth" |}.

Definition emptyStorage : Storage := fun _ => None.

End Guarded.

(* ===================================================================== *)
(** ** JavaScript values: checks by evaluation *)
(* ===================================================================== *)

Example floor_of_draw : floor (0.53125 * 10000)%float = 5312%float.
Proof. reflexivity. Qed.

Example floor_negative : floor (-0.5)%float = (-1)%float.
Proof. reflexivity. Qed.

Example or_else_zero : or_else 0%float 30%float = 30%float.
Proof. reflexivity. Qed.

Example or_else_nan : or_else NaN 480%float = 480%float.
Proof. reflexivity. Qed.

Example parseClock_half_past_eleven : parseClock "11:30" = Some 690.
Proof. reflexivity. Qed.

Example parseClock_rejects_25 : parseClock "25:00" = None.
Proof. reflexivity. Qed.

Example ninety_minutes :
  differenceInMinutes (dateAt 0 "11:30") (dateAt 0 "10:00") = 90%float.
Proof. reflexivity. Qed.

(* ===================================================================== *)
(** ** generateTimeSlots terminates by its own test *)
(* ===================================================================== *)

(** Once the fuel covers the half hours left before [end_], more fuel
    changes nothing: the loop stops because [current < end_] fails. *)
Lemma slotLoop_fuel fuel extra current end_ w :
  end_ - current <= Z.of_nat fuel * (30 * msPerMinute) ->
  slotLoop (fuel + extra) current end_ w = slotLoop fuel current end_ w.
Proof.
  revert current w.
  induction fuel as [|fuel IH]; intros current w Hleft.
  - cbn [slotLoop Nat.add].
    destruct extra as [|extra]; [reflexivity|].
    cbn [slotLoop].
    replace (current <? end_) with false; [reflexivity|].
    symmetry. apply Z.ltb_ge. cbn in Hleft. lia.
  - cbn [slotLoop Nat.add].
    destruct (current <? end_); [|reflexivity].
    unfold bind.
    destruct (Math_random w) as [[[r|err] w1] t1]; [|reflexivity].
    rewrite IH; [reflexivity|].
    rewrite Nat2Z.inj_succ in Hleft. unfold msPerMinute in *. lia.
Qed.

Lemma generateTimeSlots_fuel date extra w :
  slotLoop (33 + extra)
    (startOfDay date + 6 * 60 * msPerMinute)
    (startOfDay date + 22 * 60 * msPerMinute) w
  = generateTimeSlots date w.
Proof.
  unfold generateTimeSlots. apply slotLoop_fuel.
  unfold msPerMinute. cbn. lia.
Qed.

Example thirty_two_slots :
  List.length (availableSlots
            (render (after selectedDateEffect
                       (mount Sample.R1 None Sample.morning)))) = 32%nat.
Proof. vm_compute. reflexivity. Qed.

(* ===================================================================== *)
(** ** Clock times and dates *)
(* ===================================================================== *)

Lemma digit_range a d : digit a = Some d -> 0 <= d <= 9.
Proof.
  unfold digit. intros H.
  destruct (48 <=? Z.of_nat (nat_of_ascii a)) eqn:Hlo;
    destruct (Z.of_nat (nat_of_ascii a) <=? 57) eqn:Hhi;
    cbn in H; try discriminate.
  injection H as <-. lia.
Qed.

Lemma parseClock_not_blank s m : parseClock s = Some m -> blank s = false.
Proof. destruct s; [discriminate | reflexivity]. Qed.

Lemma parseClock_range s m : parseClock s = Some m -> 0 <= m < 1440.
Proof.
  intros H.
  destruct s as [|h1 [|h2 [|colon [|m1 [|m2 [|x rest]]]]]];
    try discriminate H.
  all: destruct colon as [[] [] [] [] [] [] [] []]; try discriminate H.
    unfold parseClock in H.
    destruct (digit h1) as [a|] eqn:Ha; try discriminate H.
    destruct (digit h2) as [b|] eqn:Hb; try discriminate H.
    destruct (digit m1) as [c|] eqn:Hc; try discriminate H.
    destruct (digit m2) as [d|] eqn:Hd; try discriminate H.
    apply digit_range in Ha, Hb, Hc, Hd.
    destruct ((10 * a + b <? 24) && (10 * c + d <? 60)) eqn:Hok;
      try discriminate H.
    apply andb_true_iff in Hok. destruct Hok as [Hh Hm].
    apply Z.ltb_lt in Hh, Hm.
    assert (E : m = (10 * a + b) * 60 + (10 * c + d)) by congruence.
    lia.
Qed.

Lemma dateAt_clock day s m :
  parseClock s = Some m ->
  dateAt day s = TimeValue (startOfDay day + m * msPerMinute).
Proof. unfold dateAt. now intros ->. Qed.

Lemma minutes_between day s e :
  Z.quot ((startOfDay day + e * msPerMinute)
          - (startOfDay day + s * msPerMinute)) msPerMinute = e - s.
Proof.
  replace (startOfDay day + e * msPerMinute
           - (startOfDay day + s * msPerMinute))
    with ((e - s) * msPerMinute) by ring.
  apply Z.quot_mul. discriminate.
Qed.

Lemma selectionMinutes_clocks r minutes :
  selectionMinutes r = Some minutes ->
  exists s e, parseClock (startTime r) = Some s
              /\ parseClock (endTime r) = Some e
              /\ s < e /\ minutes = e - s.
Proof.
  unfold selectionMinutes.
  destruct (parseClock (startTime r)) as [s|]; try discriminate.
  destruct (parseClock (endTime r)) as [e|]; try discriminate.
  destruct (s <? e) eqn:Hlt; try discriminate.
  intros H. injection H as <-. apply Z.ltb_lt in Hlt. now exists s, e.
Qed.

(* ===================================================================== *)
(** ** What calculatePriceEstimate does *)
(* ===================================================================== *)

(** On a valid selection the call hands exactly one estimate to React, and
    touches nothing else. *)
Lemma calculatePriceEstimate_valid w p minutes :
  Charger.pricing (charger (render w)) = Some p ->
  selectionMinutes (render w) = Some minutes ->
  withinSessionBounds p minutes = true ->
  let durationHours := hoursOfMinutes minutes in
  let max_power_kw := Charger.max_power_kw (charger (render w)) in
  let price_value := ChargerPricing.price_value p in
  let energyEstimate := (durationHours * max_power_kw * 0.8)%float in
  let subtotal :=
    match ChargerPricing.pricing_type p with
    | per_hour => (durationHours * price_value)%float
    | per_kwh => (energyEstimate * price_value)%float
    | flat_rate => price_value
    end in
  let bookingFee := or_else (ChargerPricing.booking_fee p) 0%float in
  let platformFee := (subtotal * 0.15)%float in
  let estimate :=
    {| PriceEstimate.duration_hours := durationHours;
       PriceEstimate.energy_estimate_kwh := energyEstimate;
       PriceEstimate.subtotal := subtotal;
       PriceEstimate.platform_fee := platformFee;
       PriceEstimate.booking_fee := bookingFee;
       PriceEstimate.total := (subtotal + bookingFee + platformFee)%float;
       PriceEstimate.pricing_type := ChargerPricing.pricing_type p;
       PriceEstimate.unit_price := price_value |} in
  calculatePriceEstimate w
  = (Normal tt,
     {| render := with_priceEstimate (Some estimate) (render w);
        browser := browser w |},
     [SetPriceEstimate estimate]).
Proof.
  intros Hp Hsel Hb.
  destruct (selectionMinutes_clocks _ _ Hsel) as (s & e & Hs & He & Hlt & ->).
  unfold withinSessionBounds, minDuration, maxDuration in Hb.
  apply andb_true_iff in Hb. destruct Hb as [Hmin Hmax].
  apply negb_true_iff in Hmin, Hmax.
  unfold calculatePriceEstimate, bind, getRender.
  rewrite Hp.
  rewrite (parseClock_not_blank _ _ Hs), (parseClock_not_blank _ _ He).
  rewrite (dateAt_clock _ _ _ Hs), (dateAt_clock _ _ _ He).
  cbn [orb date_leb differenceInMinutes].
  rewrite minutes_between.
  replace (startOfDay (selectedDate (render w)) + e * msPerMinute
           <=? startOfDay (selectedDate (render w)) + s * msPerMinute)
    with false by (symmetry; apply Z.leb_gt; unfold msPerMinute; lia).
  unfold hoursOfMinutes in *.
  rewrite Hmin, Hmax.
  destruct (ChargerPricing.pricing_type p); reflexivity.
Qed.

(** A price estimate is handed over only past the pricing test, the two
    blank tests, the order test and the two duration tests. *)
Lemma calculatePriceEstimate_estimates w est :
  In est (estimatesSet (effects calculatePriceEstimate w)) ->
  exists p,
    Charger.pricing (charger (render w)) = Some p
    /\ blank (startTime (render w)) = false
    /\ blank (endTime (render w)) = false
    /\ date_leb (dateAt (selectedDate (render w)) (endTime (render w)))
                (dateAt (selectedDate (render w)) (startTime (render w)))
       = false
    /\ (PriceEstimate.duration_hours est <? minDuration p)%float = false
    /\ (maxDuration p <? PriceEstimate.duration_hours est)%float = false
    /\ PriceEstimate.duration_hours est
       = (differenceInMinutes
            (dateAt (selectedDate (render w)) (endTime (render w)))
            (dateAt (selectedDate (render w)) (startTime (render w)))
          / 60)%float.
Proof.
  unfold effects, calculatePriceEstimate, bind, getRender, minDuration,
    maxDuration.
  cbv beta iota.
  destruct (Charger.pricing (charger (render w))) as [p|];
    [|cbn; contradiction].
  destruct (blank (startTime (render w))); [cbn; contradiction|].
  destruct (blank (endTime (render w))); [cbn; contradiction|].
  cbn [orb].
  destruct (date_leb _ _) eqn:Hle; [cbn; contradiction|].
  destruct (differenceInMinutes _ _ / 60 <? _)%float eqn:Hmin;
    [cbn; contradiction|].
  destruct (_ <? differenceInMinutes _ _ / 60)%float eqn:Hmax;
    [cbn; contradiction|].
  intros Hin. exists p.
  destruct (ChargerPricing.pricing_type p); cbn in Hin;
    destruct Hin as [<- | []]; cbn [PriceEstimate.duration_hours];
    repeat split; assumption || reflexivity.
Qed.

(** The call reads neither the clock nor the random source, and leaves
    both as they were. *)
Lemma calculatePriceEstimate_browser w :
  browser (after calculatePriceEstimate w) = browser w.
Proof.
  unfold after, calculatePriceEstimate, bind, getRender.
  cbv beta iota.
  destruct (Charger.pricing (charger (render w))) as [p|]; [|reflexivity].
  destruct (blank (startTime (render w))); [reflexivity|].
  destruct (blank (endTime (render w))); [reflexivity|].
  cbn [orb].
  destruct (date_leb _ _); [reflexivity|].
  destruct (_ <? _)%float; [reflexivity|].
  destruct (_ <? _)%float; [reflexivity|].
  destruct (ChargerPricing.pricing_type p); reflexivity.
Qed.

Lemma calculatePriceEstimate_inputs w1 w2 :
  Charger.pricing (charger (render w1)) = Charger.pricing (charger (render w2)) ->
  Charger.max_power_kw (charger (render w1))
  = Charger.max_power_kw (charger (render w2)) ->
  startOfDay (selectedDate (render w1)) = startOfDay (selectedDate (render w2)) ->
  startTime (render w1) = startTime (render w2) ->
  endTime (render w1) = endTime (render w2) ->
  effects calculatePriceEstimate w1 = effects calculatePriceEstimate w2.
Proof.
  intros Hp Hk Hd Hs He.
  unfold effects, calculatePriceEstimate, bind, getRender, dateAt.
  cbv beta iota.
  rewrite Hp, Hk, Hd, Hs, He.
  destruct (Charger.pricing (charger (render w2))) as [p|]; [|reflexivity].
  destruct (blank (startTime (render w2))); [reflexivity|].
  destruct (blank (endTime (render w2))); [reflexivity|].
  cbn [orb].
  destruct (date_leb _ _); [reflexivity|].
  destruct (_ <? _)%float; [reflexivity|].
  destruct (_ <? _)%float; [reflexivity|].
  destruct (ChargerPricing.pricing_type p); reflexivity.
Qed.

(* ===================================================================== *)
(** ** What validateTimeSelection does *)
(* ===================================================================== *)

Lemma validateTimeSelection_blank w :
  blank (startTime (render w)) || blank (endTime (render w)) = true ->
  validateTimeSelection w
  = (Normal false, w, [ToastError (Text "Please select start and end time")]).
Proof.
  intros H. unfold validateTimeSelection, bind, getRender. now rewrite H.
Qed.

Lemma validateTimeSelection_order w s e :
  parseClock (startTime (render w)) = Some s ->
  parseClock (endTime (render w)) = Some e ->
  e <= s ->
  validateTimeSelection w
  = (Normal false, w, [ToastError (Text "End time must be after start time")]).
Proof.
  intros Hs He Hle. unfold validateTimeSelection, bind, getRender.
  rewrite (parseClock_not_blank _ _ Hs), (parseClock_not_blank _ _ He).
  rewrite (dateAt_clock _ _ _ Hs), (dateAt_clock _ _ _ He).
  cbn [orb date_leb].
  replace (_ <=? _) with true
    by (symmetry; apply Z.leb_le; unfold msPerMinute; lia).
  reflexivity.
Qed.

Lemma validateTimeSelection_past w s e :
  parseClock (startTime (render w)) = Some s ->
  parseClock (endTime (render w)) = Some e ->
  s < e ->
  startOfDay (selectedDate (render w)) + s * msPerMinute < now (browser w) ->
  validateTimeSelection w
  = (Normal false, w, [ToastError (Text "Cannot book in the past")]).
Proof.
  intros Hs He Hlt Hpast. unfold validateTimeSelection, bind, getRender.
  rewrite (parseClock_not_blank _ _ Hs), (parseClock_not_blank _ _ He).
  rewrite (dateAt_clock _ _ _ Hs), (dateAt_clock _ _ _ He).
  cbn [orb date_leb].
  replace (_ <=? _) with false
    by (symmetry; apply Z.leb_gt; unfold msPerMinute; lia).
  unfold newDate, isBefore, date_ltb.
  replace (_ <? _) with true by (symmetry; now apply Z.ltb_lt).
  reflexivity.
Qed.

Lemma validateTimeSelection_ok w s e :
  parseClock (startTime (render w)) = Some s ->
  parseClock (endTime (render w)) = Some e ->
  s < e ->
  now (browser w) <= startOfDay (selectedDate (render w)) + s * msPerMinute ->
  validateTimeSelection w = (Normal true, w, []).
Proof.
  intros Hs He Hlt Hfuture. unfold validateTimeSelection, bind, getRender.
  rewrite (parseClock_not_blank _ _ Hs), (parseClock_not_blank _ _ He).
  rewrite (dateAt_clock _ _ _ Hs), (dateAt_clock _ _ _ He).
  cbn [orb date_leb].
  replace (_ <=? _) with false
    by (symmetry; apply Z.leb_gt; unfold msPerMinute; lia).
  unfold newDate, isBefore, date_ltb.
  replace (_ <? _) with false by (symmetry; now apply Z.ltb_ge).
  reflexivity.
Qed.

(** The validation leaves the flow as it was; it answers [true] without a
    toast, or [false] with one error toast. *)
Lemma validateTimeSelection_cases w :
  validateTimeSelection w = (Normal true, w, [])
  \/ exists m, validateTimeSelection w = (Normal false, w, [ToastError m]).
Proof.
  unfold validateTimeSelection, bind, getRender.
  destruct (blank (startTime (render w)) || blank (endTime (render w)));
    [right; eexists; reflexivity|].
  destruct (date_leb _ _); [right; eexists; reflexivity|].
  unfold newDate.
  destruct (isBefore _ _); [right; eexists; reflexivity|].
  now left.
Qed.

(** When it answers [true] on two clock times, the end is after the start
    and the start is not before the clock. *)
Lemma validateTimeSelection_true w s e :
  completion validateTimeSelection w = Normal true ->
  parseClock (startTime (render w)) = Some s ->
  parseClock (endTime (render w)) = Some e ->
  s < e
  /\ now (browser w) <= startOfDay (selectedDate (render w)) + s * msPerMinute.
Proof.
  intros Hv Hs He.
  destruct (Z.le_gt_cases e s) as [Hle | Hlt].
  - unfold completion in Hv.
    rewrite (validateTimeSelection_order w s e Hs He Hle) in Hv.
    discriminate.
  - split; [lia|].
    destruct (Z.lt_ge_cases
                (startOfDay (selectedDate (render w)) + s * msPerMinute)
                (now (browser w))) as [Hpast | Hok]; [|assumption].
    unfold completion in Hv.
    rewrite (validateTimeSelection_past w s e Hs He) in Hv by lia.
    discriminate.
Qed.

(* ===================================================================== *)
(** ** What submitBooking does *)
(* ===================================================================== *)

(** Up to the [await]: the call validates, shows the spinner and is
    suspended. *)
Lemma submitBooking_begin_ok w s e pe :
  parseClock (startTime (render w)) = Some s ->
  parseClock (endTime (render w)) = Some e ->
  s < e ->
  now (browser w) <= startOfDay (selectedDate (render w)) + s * msPerMinute ->
  priceEstimate (render w) = Some pe ->
  exists k,
    submitBooking_begin w
    = (Normal (Some k),
       {| render := with_isLoading true (render w); browser := browser w |},
       [SetIsLoading true])
    /\ closure k = render w
    /\ start k = TimeValue (startOfDay (selectedDate (render w)) + s * msPerMinute)
    /\ end_ k = TimeValue (startOfDay (selectedDate (render w)) + e * msPerMinute).
Proof.
  intros Hs He Hlt Hnow Hpe.
  unfold submitBooking_begin, bind, getRender.
  rewrite (validateTimeSelection_ok w s e Hs He Hlt Hnow), Hpe.
  rewrite (dateAt_clock _ _ _ Hs), (dateAt_clock _ _ _ He).
  eexists. split; [reflexivity|]. repeat split.
Qed.

Lemma submitBooking_resume_ok k w S E pe :
  start k = TimeValue S ->
  end_ k = TimeValue E ->
  priceEstimate (closure k) = Some pe ->
  exists b,
    submitBooking_resume k w
    = (Normal tt,
       {| render :=
            with_isLoading false
              (with_currentStep 3 (with_completedBooking (Some b) (render w)));
          browser :=
            {| now := now (browser w);
               random := fun n => random (browser w) (4 + n)%nat |} |},
       [SetCompletedBooking b; SetCurrentStep 3;
        ToastSuccess (Text "Booking created successfully!");
        OnBookingComplete b; SetIsLoading false])
    /\ Booking.id b = floor (random (browser w) 0%nat * 10000)%float
    /\ Booking.charger_id b = Charger.id (charger (closure k))
    /\ Booking.start_time b = S
    /\ Booking.end_time b = E
    /\ Booking.status b
       = (if Charger.auto_accept_bookings (charger (closure k))
          then confirmed else pending)
    /\ Booking.total_amount b = PriceEstimate.total pe
    /\ Booking.created_at b = now (browser w).
Proof.
  intros HS HE Hpe.
  unfold submitBooking_resume, mockBooking, attempt, bind.
  rewrite HS, HE, Hpe.
  eexists. split; [reflexivity|]. repeat split.
Qed.

(** A selection that passes the validation with an estimate held is booked:
    the call creates one booking for the selected interval. *)
Lemma submitBooking_books w s e pe :
  parseClock (startTime (render w)) = Some s ->
  parseClock (endTime (render w)) = Some e ->
  s < e ->
  now (browser w) <= startOfDay (selectedDate (render w)) + s * msPerMinute ->
  priceEstimate (render w) = Some pe ->
  exists b,
    submitBooking w
    = (Normal tt,
       {| render :=
            with_isLoading false
              (with_currentStep 3
                 (with_completedBooking (Some b)
                    (with_isLoading true (render w))));
          browser :=
            {| now := now (browser w) + 1500;
               random := fun n => random (browser w) (4 + n)%nat |} |},
       [SetIsLoading true; SetCompletedBooking b; SetCurrentStep 3;
        ToastSuccess (Text "Booking created successfully!");
        OnBookingComplete b; SetIsLoading false])
    /\ Booking.id b = floor (random (browser w) 0%nat * 10000)%float
    /\ Booking.charger_id b = Charger.id (charger (render w))
    /\ Booking.start_time b
       = startOfDay (selectedDate (render w)) + s * msPerMinute
    /\ Booking.end_time b
       = startOfDay (selectedDate (render w)) + e * msPerMinute
    /\ Booking.status b
       = (if Charger.auto_accept_bookings (charger (render w))
          then confirmed else pending)
    /\ Booking.total_amount b = PriceEstimate.total pe.
Proof.
  intros Hs He Hlt Hnow Hpe.
  destruct (submitBooking_begin_ok w s e pe Hs He Hlt Hnow Hpe)
    as (k & Hbegin & Hk & HS & HE).
  rewrite <- Hk in Hpe.
  pose (w1 := {| render := with_isLoading true (render w);
                 browser := {| now := now (browser w) + 1500;
                               random := random (browser w) |} |}).
  destruct (submitBooking_resume_ok k w1 _ _ pe HS HE Hpe)
    as (b & Hresume & Hid & Hc & Hst & Hen & Hstatus & Htotal & _).
  exists b.
  unfold submitBooking, bind. rewrite Hbegin. unfold timeout.
  cbn [render browser now random].
  fold w1. rewrite Hresume.
  rewrite Hk in Hc, Hstatus.
  repeat split; assumption.
Qed.

Lemma submitBooking_refused w t :
  validateTimeSelection w = (Normal false, w, t) ->
  submitBooking w = (Normal tt, w, t).
Proof.
  intros Hv. unfold submitBooking, submitBooking_begin, bind, getRender.
  rewrite Hv. cbn. now rewrite !app_nil_r.
Qed.

Lemma submitBooking_no_estimate w :
  validateTimeSelection w = (Normal true, w, []) ->
  priceEstimate (render w) = None ->
  submitBooking w = (Normal tt, w, []).
Proof.
  intros Hv Hpe. unfold submitBooking, submitBooking_begin, bind, getRender.
  now rewrite Hv, Hpe.
Qed.

(** A selection that [new Date] cannot parse creates no booking. *)
Lemma submitBooking_unparsed w :
  parseClock (startTime (render w)) = None
  \/ parseClock (endTime (render w)) = None ->
  bookingsCreated (effects submitBooking w) = [].
Proof.
  intros Hnone.
  destruct (validateTimeSelection_cases w) as [Hv | [m Hv]].
  2:{ unfold effects. now rewrite (submitBooking_refused w _ Hv). }
  destruct (priceEstimate (render w)) as [pe|] eqn:Hpe.
  2:{ unfold effects. now rewrite (submitBooking_no_estimate w Hv Hpe). }
  unfold effects, submitBooking, submitBooking_begin, bind, getRender.
  rewrite Hv, Hpe. unfold dateAt.
  destruct Hnone as [-> | ->].
  - reflexivity.
  - destruct (parseClock (startTime (render w))); reflexivity.
Qed.

(** Every booking the call creates comes from two clock times on the
    selected day, the end after the start, the start not before the clock,
    with an estimate held. *)
Lemma submitBooking_created w b :
  In b (bookingsCreated (effects submitBooking w)) ->
  exists s e pe,
    parseClock (startTime (render w)) = Some s
    /\ parseClock (endTime (render w)) = Some e
    /\ s < e
    /\ now (browser w) <= startOfDay (selectedDate (render w)) + s * msPerMinute
    /\ priceEstimate (render w) = Some pe
    /\ Booking.start_time b
       = startOfDay (selectedDate (render w)) + s * msPerMinute
    /\ Booking.end_time b
       = startOfDay (selectedDate (render w)) + e * msPerMinute
    /\ Booking.status b
       = (if Charger.auto_accept_bookings (charger (render w))
          then confirmed else pending)
    /\ Booking.total_amount b = PriceEstimate.total pe.
Proof.
  intros Hin.
  destruct (parseClock (startTime (render w))) as [s|] eqn:Hs.
  2:{ rewrite submitBooking_unparsed in Hin by now left. destruct Hin. }
  destruct (parseClock (endTime (render w))) as [e|] eqn:He.
  2:{ rewrite submitBooking_unparsed in Hin by now right. destruct Hin. }
  destruct (Z.le_gt_cases e s) as [Hle | Hlt].
  { unfold effects in Hin.
    rewrite (submitBooking_refused w _
               (validateTimeSelection_order w s e Hs He Hle)) in Hin.
    destruct Hin. }
  destruct (Z.lt_ge_cases
              (startOfDay (selectedDate (render w)) + s * msPerMinute)
              (now (browser w))) as [Hpast | Hnow].
  { unfold effects in Hin.
    rewrite (submitBooking_refused w _
               (validateTimeSelection_past w s e Hs He ltac:(lia) Hpast))
      in Hin.
    destruct Hin. }
  destruct (priceEstimate (render w)) as [pe|] eqn:Hpe.
  2:{ unfold effects in Hin.
      rewrite (submitBooking_no_estimate w
                 (validateTimeSelection_ok w s e Hs He ltac:(lia) Hnow) Hpe)
        in Hin.
      destruct Hin. }
  destruct (submitBooking_books w s e pe Hs He ltac:(lia) Hnow Hpe)
    as (b' & Heff & _ & _ & Hst & Hen & Hstatus & Htotal).
  unfold effects in Hin. rewrite Heff in Hin. cbn in Hin. destruct Hin as [<- | []].
  exists s, e, pe. repeat split; try assumption; lia.
Qed.

(** A bookable selection is booked, without any error toast. *)
Lemma bookable_books w s e :
  bookable w s e ->
  exists b,
    bookingsCreated (effects submitBooking w) = [b]
    /\ errorsShown (effects submitBooking w) = []
    /\ Booking.start_time b
       = startOfDay (selectedDate (render w)) + s * msPerMinute
    /\ Booking.end_time b
       = startOfDay (selectedDate (render w)) + e * msPerMinute.
Proof.
  intros (Hs & He & Hlt & Hnow & Hpe).
  destruct (priceEstimate (render w)) as [pe|] eqn:Hest; [|congruence].
  destruct (submitBooking_books w s e pe Hs He Hlt Hnow Hest)
    as (b & Hrun & _ & _ & Hst & Hen & _).
  exists b. unfold effects. rewrite Hrun. now repeat split.
Qed.


(* ===================================================================== *)
(** ** Price estimate: the properties *)
(* ===================================================================== *)

Lemma scenario_minutes r :
  startTime r = "10:00" -> endTime r = "11:30" ->
  selectionMinutes r = Some 90.
Proof. unfold selectionMinutes. now intros -> ->. Qed.

(** C2. For a per-hour rule at 50 per hour with a booking fee of 10 (the
    platform rate is the constant 15%), the selection 10:00 to 11:30 is
    priced with duration 1.5 hours, subtotal 75, platform fee 11.25, booking
    fee 10 and total 96.25, and the total is subtotal + platform fee +
    booking fee. *)
Theorem per_hour_scenario_price w p :
  Charger.pricing (charger (render w)) = Some p ->
  ChargerPricing.pricing_type p = per_hour ->
  ChargerPricing.price_value p = 50%float ->
  ChargerPricing.booking_fee p = 10%float ->
  startTime (render w) = "10:00" ->
  endTime (render w) = "11:30" ->
  withinSessionBounds p 90 = true ->
  exists est,
    effects calculatePriceEstimate w = [SetPriceEstimate est]
    /\ PriceEstimate.duration_hours est = 1.5%float
    /\ PriceEstimate.subtotal est = 75%float
    /\ PriceEstimate.platform_fee est = 11.25%float
    /\ PriceEstimate.booking_fee est = 10%float
    /\ PriceEstimate.total est = 96.25%float
    /\ PriceEstimate.total est
       = (PriceEstimate.subtotal est + PriceEstimate.platform_fee est
          + PriceEstimate.booking_fee est)%float.
Proof.
  intros Hp Htype Hprice Hfee Hs He Hbounds.
  pose proof (calculatePriceEstimate_valid w p 90 Hp
                (scenario_minutes _ Hs He) Hbounds) as Hrun.
  cbv zeta in Hrun. rewrite Htype, Hprice, Hfee in Hrun.
  unfold effects. rewrite Hrun. cbn [snd].
  eexists. split; [reflexivity|].
  cbn [PriceEstimate.duration_hours PriceEstimate.subtotal
       PriceEstimate.platform_fee PriceEstimate.booking_fee
       PriceEstimate.total].
  repeat split; reflexivity.
Qed.

Lemma per_hour_scenario_price_witness :
  exists est,
    effects calculatePriceEstimate (Sample.picked Sample.R1 Sample.alice Sample.morning)
    = [SetPriceEstimate est]
    /\ PriceEstimate.duration_hours est = 1.5%float
    /\ PriceEstimate.subtotal est = 75%float
    /\ PriceEstimate.platform_fee est = 11.25%float
    /\ PriceEstimate.booking_fee est = 10%float
    /\ PriceEstimate.total est = 96.25%float
    /\ PriceEstimate.total est
       = (PriceEstimate.subtotal est + PriceEstimate.platform_fee est
          + PriceEstimate.booking_fee est)%float.
Proof.
  apply (per_hour_scenario_price
           (Sample.picked Sample.R1 Sample.alice Sample.morning) Sample.rule);
    vm_compute; reflexivity.
Defined.

(** C3, as the specification states it, fails: the rule's peak window 09:00
    to 12:00 overlaps the selection 10:00 to 11:30 and its peak multiplier
    is 1.5, yet the subtotal is 1.5 * 50 = 75 and not 112.5. *)
Lemma peak_multiplier_not_applied :
  let w := Sample.picked Sample.R1 Sample.alice Sample.morning in
  let adjusted est :=
    (PriceEstimate.duration_hours est * PriceEstimate.unit_price est
     * ChargerPricing.peak_price_multiplier Sample.rule)%float in
  ChargerPricing.pricing_type Sample.rule = per_hour
  /\ overlapsPeakWindow Sample.rule (render w) = true
  /\ ChargerPricing.peak_price_multiplier Sample.rule = 1.5%float
  /\ map PriceEstimate.subtotal (estimatesSet (effects calculatePriceEstimate w))
     = [75%float]
  /\ map adjusted (estimatesSet (effects calculatePriceEstimate w))
     = [112.5%float]
  /\ (75 <? 112.5)%float = true.
Proof. cbv zeta. repeat split; vm_compute; reflexivity. Qed.

(** C3, amended. In per-hour mode the subtotal is the duration in hours
    times the unit price, whatever the rule's peak window, peak multiplier
    and weekend multiplier and whatever the day. *)
Theorem per_hour_subtotal w p minutes :
  Charger.pricing (charger (render w)) = Some p ->
  ChargerPricing.pricing_type p = per_hour ->
  selectionMinutes (render w) = Some minutes ->
  withinSessionBounds p minutes = true ->
  exists est,
    effects calculatePriceEstimate w = [SetPriceEstimate est]
    /\ PriceEstimate.duration_hours est = hoursOfMinutes minutes
    /\ PriceEstimate.unit_price est = ChargerPricing.price_value p
    /\ PriceEstimate.subtotal est
       = (PriceEstimate.duration_hours est * ChargerPricing.price_value p)%float.
Proof.
  intros Hp Htype Hsel Hbounds.
  pose proof (calculatePriceEstimate_valid w p minutes Hp Hsel Hbounds) as Hrun.
  cbv zeta in Hrun. rewrite Htype in Hrun.
  unfold effects. rewrite Hrun.
  eexists. split; [reflexivity|]. repeat split.
Qed.

Lemma per_hour_subtotal_witness :
  exists est,
    effects calculatePriceEstimate (Sample.picked Sample.R1 Sample.alice Sample.morning)
    = [SetPriceEstimate est]
    /\ PriceEstimate.duration_hours est = hoursOfMinutes 90
    /\ PriceEstimate.unit_price est = ChargerPricing.price_value Sample.rule
    /\ PriceEstimate.subtotal est
       = (PriceEstimate.duration_hours est
          * ChargerPricing.price_value Sample.rule)%float.
Proof.
  apply (per_hour_subtotal
           (Sample.picked Sample.R1 Sample.alice Sample.morning) Sample.rule 90);
    vm_compute; reflexivity.
Defined.

(** C4. In per-kWh mode, for every valid selection, the estimated energy is
    the duration in hours times the charger's power in kW times 0.8, and
    the subtotal is that energy times the unit price. *)
Theorem per_kwh_energy_and_subtotal w p minutes :
  Charger.pricing (charger (render w)) = Some p ->
  ChargerPricing.pricing_type p = per_kwh ->
  selectionMinutes (render w) = Some minutes ->
  withinSessionBounds p minutes = true ->
  exists est,
    effects calculatePriceEstimate w = [SetPriceEstimate est]
    /\ PriceEstimate.duration_hours est = hoursOfMinutes minutes
    /\ PriceEstimate.energy_estimate_kwh est
       = (PriceEstimate.duration_hours est
          * Charger.max_power_kw (charger (render w)) * 0.8)%float
    /\ PriceEstimate.subtotal est
       = (PriceEstimate.energy_estimate_kwh est
          * ChargerPricing.price_value p)%float.
Proof.
  intros Hp Htype Hsel Hbounds.
  pose proof (calculatePriceEstimate_valid w p minutes Hp Hsel Hbounds) as Hrun.
  cbv zeta in Hrun. rewrite Htype in Hrun.
  unfold effects. rewrite Hrun.
  eexists. split; [reflexivity|]. repeat split.
Qed.

Lemma per_kwh_energy_and_subtotal_witness :
  exists est,
    effects calculatePriceEstimate (Sample.picked Sample.R2 Sample.alice Sample.morning)
    = [SetPriceEstimate est]
    /\ PriceEstimate.duration_hours est = hoursOfMinutes 90
    /\ PriceEstimate.energy_estimate_kwh est
       = (PriceEstimate.duration_hours est
          * Charger.max_power_kw
              (charger (render (Sample.picked Sample.R2 Sample.alice Sample.morning)))
          * 0.8)%float
    /\ PriceEstimate.subtotal est
       = (PriceEstimate.energy_estimate_kwh est
          * ChargerPricing.price_value Sample.kwhRule)%float.
Proof.
  apply (per_kwh_energy_and_subtotal
           (Sample.picked Sample.R2 Sample.alice Sample.morning)
           Sample.kwhRule 90);
    vm_compute; reflexivity.
Defined.

(** C9. For every valid selection the estimate reports as energy the
    duration in hours times the charger's [max_power_kw] times 0.8, whether
    the rule is per hour, per kWh or flat. *)
Theorem energy_estimate_all_modes w p minutes :
  Charger.pricing (charger (render w)) = Some p ->
  selectionMinutes (render w) = Some minutes ->
  withinSessionBounds p minutes = true ->
  exists est,
    effects calculatePriceEstimate w = [SetPriceEstimate est]
    /\ PriceEstimate.pricing_type est = ChargerPricing.pricing_type p
    /\ PriceEstimate.duration_hours est = hoursOfMinutes minutes
    /\ PriceEstimate.energy_estimate_kwh est
       = (PriceEstimate.duration_hours est
          * Charger.max_power_kw (charger (render w)) * 0.8)%float.
Proof.
  intros Hp Hsel Hbounds.
  pose proof (calculatePriceEstimate_valid w p minutes Hp Hsel Hbounds) as Hrun.
  cbv zeta in Hrun.
  unfold effects. rewrite Hrun.
  eexists. split; [reflexivity|]. repeat split.
Qed.

Lemma energy_estimate_all_modes_witness :
  exists est,
    effects calculatePriceEstimate (Sample.picked Sample.R1 Sample.bob Sample.morning)
    = [SetPriceEstimate est]
    /\ PriceEstimate.pricing_type est = ChargerPricing.pricing_type Sample.rule
    /\ PriceEstimate.duration_hours est = hoursOfMinutes 90
    /\ PriceEstimate.energy_estimate_kwh est
       = (PriceEstimate.duration_hours est
          * Charger.max_power_kw
              (charger (render (Sample.picked Sample.R1 Sample.bob Sample.morning)))
          * 0.8)%float.
Proof.
  apply (energy_estimate_all_modes
           (Sample.picked Sample.R1 Sample.bob Sample.morning) Sample.rule 90);
    vm_compute; reflexivity.
Defined.

(** C8. The price computation reads only the pricing rule, the charger's
    power and the selected interval (the selected day and the two clock
    times): two calls that agree on them hand over the same estimate (or
    show the same toast), whatever the clock, the random source and the rest
    of the state, and neither call touches the clock or the random
    source. *)
Theorem price_estimate_deterministic w1 w2 :
  Charger.pricing (charger (render w1)) = Charger.pricing (charger (render w2)) ->
  Charger.max_power_kw (charger (render w1))
  = Charger.max_power_kw (charger (render w2)) ->
  startOfDay (selectedDate (render w1)) = startOfDay (selectedDate (render w2)) ->
  startTime (render w1) = startTime (render w2) ->
  endTime (render w1) = endTime (render w2) ->
  effects calculatePriceEstimate w1 = effects calculatePriceEstimate w2
  /\ browser (after calculatePriceEstimate w1) = browser w1
  /\ browser (after calculatePriceEstimate w2) = browser w2.
Proof.
  intros Hp Hk Hd Hs He. split; [|split].
  - now apply calculatePriceEstimate_inputs.
  - apply calculatePriceEstimate_browser.
  - apply calculatePriceEstimate_browser.
Qed.

Lemma price_estimate_deterministic_witness :
  let w1 := Sample.picked Sample.R1 Sample.alice Sample.morning in
  let w2 := Sample.picked Sample.R1 Sample.bob Sample.elsewhere in
  effects calculatePriceEstimate w1 = effects calculatePriceEstimate w2
  /\ browser (after calculatePriceEstimate w1) = browser w1
  /\ browser (after calculatePriceEstimate w2) = browser w2.
Proof.
  apply (price_estimate_deterministic
           (Sample.picked Sample.R1 Sample.alice Sample.morning)
           (Sample.picked Sample.R1 Sample.bob Sample.elsewhere));
    vm_compute; reflexivity.
Defined.

(* ===================================================================== *)
(** ** Validation and submission: the properties *)
(* ===================================================================== *)

Lemma calculatePriceEstimate_order w p s e :
  Charger.pricing (charger (render w)) = Some p ->
  parseClock (startTime (render w)) = Some s ->
  parseClock (endTime (render w)) = Some e ->
  e <= s ->
  calculatePriceEstimate w
  = (Normal tt, w, [ToastError (Text "End time must be after start time")]).
Proof.
  intros Hp Hs He Hle. unfold calculatePriceEstimate, bind, getRender.
  rewrite Hp.
  rewrite (parseClock_not_blank _ _ Hs), (parseClock_not_blank _ _ He).
  rewrite (dateAt_clock _ _ _ Hs), (dateAt_clock _ _ _ He).
  cbn [orb date_leb].
  replace (_ <=? _) with true
    by (symmetry; apply Z.leb_le; unfold msPerMinute; lia).
  reflexivity.
Qed.

(** On two clock times an estimate is handed over only if the end is after
    the start and the duration passes both session bounds. *)
Lemma calculatePriceEstimate_bounds w p s e est :
  Charger.pricing (charger (render w)) = Some p ->
  parseClock (startTime (render w)) = Some s ->
  parseClock (endTime (render w)) = Some e ->
  In est (estimatesSet (effects calculatePriceEstimate w)) ->
  s < e /\ withinSessionBounds p (e - s) = true.
Proof.
  intros Hp Hs He Hin.
  destruct (calculatePriceEstimate_estimates w est Hin)
    as (p' & Hp' & _ & _ & Hle & Hmin & Hmax & Hdur).
  assert (p' = p) by congruence. subst p'.
  rewrite (dateAt_clock _ _ _ Hs), (dateAt_clock _ _ _ He) in Hle, Hdur.
  cbn [date_leb differenceInMinutes] in Hle, Hdur.
  rewrite minutes_between in Hdur.
  apply Z.leb_gt in Hle. unfold msPerMinute in Hle.
  split; [lia|].
  unfold withinSessionBounds, hoursOfMinutes.
  rewrite <- Hdur, Hmin, Hmax. reflexivity.
Qed.

Lemma submitBooking_without_estimate w :
  priceEstimate (render w) = None ->
  bookingsCreated (effects submitBooking w) = [].
Proof.
  intros Hpe. unfold effects.
  destruct (validateTimeSelection_cases w) as [Hv | [m Hv]].
  - now rewrite (submitBooking_no_estimate w Hv Hpe).
  - now rewrite (submitBooking_refused w _ Hv).
Qed.

(** C5, as the specification states it, fails: a charger that is not active
    (and that the details page still offers, its status being available) is
    booked like any other. *)
Lemma inactive_charger_is_booked :
  let w := Sample.picked Sample.inactive Sample.alice Sample.morning in
  Charger.is_active (charger (render w)) = false
  /\ ChargerDetailsPage.bookNowDisabled (charger (render w)) = false
  /\ map Booking.charger_id (bookingsCreated (effects submitBooking w))
     = [Charger.id Sample.inactive]
  /\ errorsShown (effects submitBooking w) = [].
Proof. cbv zeta. repeat apply conj; evaluate. Qed.

(** C5, amended. The booking flow shows an error and creates no booking for
    every selection with a missing time, an end not strictly after its start
    or a start before the current time (no tolerance is applied); without a
    price estimate no booking is created, and an estimate is computed only
    for a duration within the rule's session bounds; a selection that passes
    these checks and whose duration lies within the session bounds gets its
    estimate and is then booked, whether the resource is active or not. *)
Theorem booking_flow_validation w :
  (blank (startTime (render w)) || blank (endTime (render w)) = true ->
   submitBooking w
   = (Normal tt, w, [ToastError (Text "Please select start and end time")]))
  /\ (forall s e,
        parseClock (startTime (render w)) = Some s ->
        parseClock (endTime (render w)) = Some e ->
        e <= s ->
        submitBooking w
        = (Normal tt, w,
           [ToastError (Text "End time must be after start time")]))
  /\ (forall s e,
        parseClock (startTime (render w)) = Some s ->
        parseClock (endTime (render w)) = Some e ->
        s < e ->
        startOfDay (selectedDate (render w)) + s * msPerMinute
        < now (browser w) ->
        submitBooking w
        = (Normal tt, w, [ToastError (Text "Cannot book in the past")]))
  /\ (priceEstimate (render w) = None ->
      bookingsCreated (effects submitBooking w) = [])
  /\ (forall p s e est,
        Charger.pricing (charger (render w)) = Some p ->
        parseClock (startTime (render w)) = Some s ->
        parseClock (endTime (render w)) = Some e ->
        In est (estimatesSet (effects calculatePriceEstimate w)) ->
        s < e /\ withinSessionBounds p (e - s) = true)
  /\ (forall p s e,
        Charger.pricing (charger (render w)) = Some p ->
        parseClock (startTime (render w)) = Some s ->
        parseClock (endTime (render w)) = Some e ->
        s < e ->
        now (browser w)
        <= startOfDay (selectedDate (render w)) + s * msPerMinute ->
        withinSessionBounds p (e - s) = true ->
        exists est b,
          estimatesSet (effects timeSelectionEffect w) = [est]
          /\ bookingsCreated (effects (timeSelectionEffect ;; submitBooking) w)
             = [b]
          /\ errorsShown (effects (timeSelectionEffect ;; submitBooking) w)
             = []
          /\ Booking.total_amount b = PriceEstimate.total est
          /\ Booking.start_time b
             = startOfDay (selectedDate (render w)) + s * msPerMinute
          /\ Booking.end_time b
             = startOfDay (selectedDate (render w)) + e * msPerMinute).
Proof.
  repeat split.
  - intros H. apply submitBooking_refused.
    now apply validateTimeSelection_blank.
  - intros s e Hs He Hle. apply submitBooking_refused.
    now apply (validateTimeSelection_order w s e).
  - intros s e Hs He Hlt Hpast. apply submitBooking_refused.
    now apply (validateTimeSelection_past w s e).
  - apply submitBooking_without_estimate.
  - eapply calculatePriceEstimate_bounds; eassumption.
  - eapply calculatePriceEstimate_bounds; eassumption.
  - intros p s e Hp Hs He Hlt Hnow Hb.
    assert (Hsel : selectionMinutes (render w) = Some (e - s)).
    { unfold selectionMinutes. rewrite Hs, He.
      now replace (s <? e) with true by (symmetry; now apply Z.ltb_lt). }
    pose proof (calculatePriceEstimate_valid w p (e - s) Hp Hsel Hb) as Hrun.
    cbv zeta in Hrun.
    assert (Heffect : timeSelectionEffect w = calculatePriceEstimate w).
    { unfold timeSelectionEffect, bind, getRender. cbv beta iota.
      rewrite Hp, (parseClock_not_blank _ _ Hs), (parseClock_not_blank _ _ He).
      cbn [negb andb fst snd].
      destruct (calculatePriceEstimate w) as [[r w'] t].
      cbn [fst snd app]. reflexivity. }
    rewrite Hrun in Heffect.
    match type of Heffect with
    | _ = (_, ?w1, [SetPriceEstimate ?est]) =>
        destruct (submitBooking_books w1 s e est Hs He Hlt Hnow eq_refl)
          as (b & Hsubmit & _ & _ & Hst & Hen & _ & Htotal);
        exists est, b
    end.
    unfold effects, bind. rewrite Heffect, Hsubmit.
    repeat split; assumption.
Qed.

Lemma booking_flow_validation_witness :
  exists est b,
    estimatesSet
      (effects timeSelectionEffect
         (Sample.picked Sample.inactive Sample.alice Sample.morning)) = [est]
    /\ bookingsCreated
         (effects (timeSelectionEffect ;; submitBooking)
            (Sample.picked Sample.inactive Sample.alice Sample.morning)) = [b]
    /\ errorsShown
         (effects (timeSelectionEffect ;; submitBooking)
            (Sample.picked Sample.inactive Sample.alice Sample.morning)) = []
    /\ Booking.total_amount b = PriceEstimate.total est
    /\ Booking.start_time b
       = startOfDay
           (selectedDate
              (render (Sample.picked Sample.inactive Sample.alice Sample.morning)))
         + 600 * msPerMinute
    /\ Booking.end_time b
       = startOfDay
           (selectedDate
              (render (Sample.picked Sample.inactive Sample.alice Sample.morning)))
         + 690 * msPerMinute.
Proof.
  destruct (booking_flow_validation
              (Sample.picked Sample.inactive Sample.alice Sample.morning))
    as (_ & _ & _ & _ & _ & Hbooked).
  apply (Hbooked Sample.rule 600 690); evaluate.
Defined.

(** A slip beside C5: an estimate once held is never cleared, so after a
    valid pick a change to a 10-minute session (below the 30-minute minimum)
    is refused by [calculatePriceEstimate] and booked all the same, at the
    price of the earlier pick. *)
Example stale_estimate_books_short_session :
  let w := Sample.picked Sample.R1 Sample.alice Sample.morning in
  let t := effects (changeEndTime "10:10" ;; submitBooking) w in
  errorsShown t = [MinimumSessionDuration 0.5]
  /\ map Booking.end_time (bookingsCreated t) = [610 * msPerMinute]
  /\ map Booking.total_amount (bookingsCreated t) = [96.25%float].
Proof. cbv zeta. repeat apply conj; evaluate. Qed.

(** C7. Every booking that [submitBooking] creates is pending, or confirmed
    if the charger accepts bookings automatically. *)
Theorem booking_status_pending_or_confirmed w b :
  In b (bookingsCreated (effects submitBooking w)) ->
  Booking.status b
  = if Charger.auto_accept_bookings (charger (render w)) then confirmed
    else pending.
Proof.
  intros Hin.
  destruct (submitBooking_created w b Hin)
    as (s & e & pe & _ & _ & _ & _ & _ & _ & _ & Hstatus & _).
  exact Hstatus.
Qed.

Lemma booking_status_pending_or_confirmed_witness :
  exists b,
    In b (bookingsCreated
            (effects submitBooking
               (Sample.picked Sample.R2 Sample.alice Sample.morning)))
    /\ Booking.status b
       = if Charger.auto_accept_bookings
              (charger (render (Sample.picked Sample.R2 Sample.alice Sample.morning)))
         then confirmed else pending.
Proof.
  destruct (bookable_books
              (Sample.picked Sample.R2 Sample.alice Sample.morning) 600 690)
    as (b & Hcreated & _).
  { unfold bookable. repeat apply conj; evaluate. }
  assert (Hin : In b (bookingsCreated
                        (effects submitBooking
                           (Sample.picked Sample.R2 Sample.alice Sample.morning))))
    by (rewrite Hcreated; now left).
  exists b. split; [exact Hin|].
  exact (booking_status_pending_or_confirmed
           (Sample.picked Sample.R2 Sample.alice Sample.morning) b Hin).
Defined.

(** C10. The start and end clock times are both placed on the selected
    day, so a selection whose end clock time is not strictly later than its
    start clock time is refused with 'End time must be after start time' by
    the validation, by the submission and by the price estimate, and every
    booking created starts and ends within the selected day. *)
Theorem same_day_selection w :
  (forall s e,
     parseClock (startTime (render w)) = Some s ->
     parseClock (endTime (render w)) = Some e ->
     dateAt (selectedDate (render w)) (startTime (render w))
     = TimeValue (startOfDay (selectedDate (render w)) + s * msPerMinute)
     /\ dateAt (selectedDate (render w)) (endTime (render w))
        = TimeValue (startOfDay (selectedDate (render w)) + e * msPerMinute)
     /\ (e <= s ->
         validateTimeSelection w
         = (Normal false, w,
            [ToastError (Text "End time must be after start time")])
         /\ submitBooking w
            = (Normal tt, w,
               [ToastError (Text "End time must be after start time")])
         /\ (Charger.pricing (charger (render w)) <> None ->
             calculatePriceEstimate w
             = (Normal tt, w,
                [ToastError (Text "End time must be after start time")]))))
  /\ (forall b,
        In b (bookingsCreated (effects submitBooking w)) ->
        startOfDay (selectedDate (render w)) <= Booking.start_time b
        /\ Booking.start_time b < Booking.end_time b
        /\ Booking.end_time b < startOfDay (selectedDate (render w)) + msPerDay).
Proof.
  split.
  - intros s e Hs He.
    split; [now apply dateAt_clock|]. split; [now apply dateAt_clock|].
    intros Hle.
    pose proof (validateTimeSelection_order w s e Hs He Hle) as Hv.
    split; [exact Hv|]. split; [now apply submitBooking_refused|].
    intros Hp.
    destruct (Charger.pricing (charger (render w))) as [p|] eqn:Hpricing;
      [|congruence].
    now apply (calculatePriceEstimate_order w p s e).
  - intros b Hin.
    destruct (submitBooking_created w b Hin)
      as (s & e & pe & Hs & He & Hlt & _ & _ & Hst & Hen & _).
    apply parseClock_range in Hs, He.
    rewrite Hst, Hen. unfold msPerMinute, msPerDay. lia.
Qed.

Lemma same_day_selection_witness :
  validateTimeSelection
    (after (changeEndTime "09:30")
       (Sample.picked Sample.R1 Sample.alice Sample.morning))
  = (Normal false,
     after (changeEndTime "09:30")
       (Sample.picked Sample.R1 Sample.alice Sample.morning),
     [ToastError (Text "End time must be after start time")]).
Proof.
  destruct (same_day_selection
              (after (changeEndTime "09:30")
                 (Sample.picked Sample.R1 Sample.alice Sample.morning)))
    as (Hrefused & _).
  apply (Hrefused 600 570); evaluate.
Defined.

(* ===================================================================== *)
(** ** Repeated and concurrent calls: the properties *)
(* ===================================================================== *)

(** C6, as the specification states it, fails: [submitBooking] takes no
    idempotency key, and a second call for the same request by the same user
    returns a second booking, with another id, for the same interval. *)
Lemma repeated_call_books_twice :
  let w := Sample.picked Sample.R1 Sample.alice Sample.morning in
  let created := bookingsCreated (effects (submitBooking ;; submitBooking) w) in
  map Booking.id created = [5000%float; 5312%float]
  /\ (5000 <? 5312)%float = true
  /\ map Booking.renter_id created = [User.id Sample.alice; User.id Sample.alice]
  /\ map Booking.charger_id created = [Charger.id Sample.R1; Charger.id Sample.R1]
  /\ map Booking.start_time created = [600 * msPerMinute; 600 * msPerMinute]
  /\ map Booking.end_time created = [690 * msPerMinute; 690 * msPerMinute].
Proof. cbv zeta. repeat apply conj; evaluate. Qed.

(** C6, amended. [submitBooking] keeps no record of earlier requests: each
    call that passes the validation with an estimate held creates a booking
    of its own for the selected interval, its id drawn afresh from
    [Math.random]; two calls in a row create two bookings. *)
Theorem each_call_books_afresh w s e :
  bookable w s e ->
  now (browser w) + 1500
  <= startOfDay (selectedDate (render w)) + s * msPerMinute ->
  exists b1 b2,
    bookingsCreated (effects (submitBooking ;; submitBooking) w) = [b1; b2]
    /\ Booking.id b1 = floor (random (browser w) 0%nat * 10000)%float
    /\ Booking.id b2 = floor (random (browser w) 4%nat * 10000)%float
    /\ Booking.start_time b1
       = startOfDay (selectedDate (render w)) + s * msPerMinute
    /\ Booking.start_time b2 = Booking.start_time b1
    /\ Booking.end_time b1
       = startOfDay (selectedDate (render w)) + e * msPerMinute
    /\ Booking.end_time b2 = Booking.end_time b1.
Proof.
  intros (Hs & He & Hlt & Hnow & Hpe) Hlater.
  destruct (priceEstimate (render w)) as [pe|] eqn:Hest; [|congruence].
  destruct (submitBooking_books w s e pe Hs He Hlt Hnow Hest)
    as (b1 & Hrun1 & Hid1 & _ & Hst1 & Hen1 & _).
  match type of Hrun1 with _ = (_, ?w', _) => set (w1 := w') in * end.
  destruct (submitBooking_books w1 s e pe Hs He Hlt Hlater Hest)
    as (b2 & Hrun2 & Hid2 & _ & Hst2 & Hen2 & _).
  exists b1, b2.
  unfold effects, bind. rewrite Hrun1, Hrun2.
  split; [reflexivity|].
  subst w1. cbn [render selectedDate with_isLoading with_currentStep
                 with_completedBooking] in Hst2, Hen2.
  repeat split; try assumption; congruence.
Qed.

Lemma each_call_books_afresh_witness :
  let w := Sample.picked Sample.R1 Sample.alice Sample.morning in
  exists b1 b2,
    bookingsCreated (effects (submitBooking ;; submitBooking) w) = [b1; b2]
    /\ Booking.id b1 = floor (random (browser w) 0%nat * 10000)%float
    /\ Booking.id b2 = floor (random (browser w) 4%nat * 10000)%float
    /\ Booking.start_time b1
       = startOfDay (selectedDate (render w)) + 600 * msPerMinute
    /\ Booking.start_time b2 = Booking.start_time b1
    /\ Booking.end_time b1
       = startOfDay (selectedDate (render w)) + 690 * msPerMinute
    /\ Booking.end_time b2 = Booking.end_time b1.
Proof.
  apply (each_call_books_afresh
           (Sample.picked Sample.R1 Sample.alice Sample.morning) 600 690).
  - unfold bookable. repeat apply conj; evaluate.
  - evaluate.
Defined.

Lemma callBegins_awaits w s e :
  bookable w s e ->
  exists k,
    callBegins (ready w)
    = {| flow := {| render := with_isLoading true (render w);
                    browser := browser w |};
         call := Awaiting k;
         seen := [SetIsLoading true] |}
    /\ start k
       = TimeValue (startOfDay (selectedDate (render w)) + s * msPerMinute)
    /\ end_ k
       = TimeValue (startOfDay (selectedDate (render w)) + e * msPerMinute)
    /\ closure k = render w.
Proof.
  intros (Hs & He & Hlt & Hnow & Hpe).
  destruct (priceEstimate (render w)) as [pe|] eqn:Hest; [|congruence].
  destruct (submitBooking_begin_ok w s e pe Hs He Hlt Hnow Hest)
    as (k & Hbegin & Hk & HS & HE).
  exists k. unfold callBegins, ready. cbn [flow seen]. rewrite Hbegin.
  now repeat split.
Qed.

Lemma callBegins_ready w s e :
  bookable w s e -> stage w s e (callBegins (ready w)).
Proof.
  intros Hw. destruct (callBegins_awaits w s e Hw) as (k & -> & HS & HE & Hk).
  now apply stage_awaiting.
Qed.

Lemma timerFires_returned elapsed k c :
  call (timerFires elapsed k c) = Returned.
Proof.
  unfold timerFires.
  now destruct ((timeout elapsed ;; submitBooking_resume k) (flow c))
    as [[r w] t].
Qed.

Lemma timerFires_awaiting w s e k elapsed :
  bookable w s e ->
  start k = TimeValue (startOfDay (selectedDate (render w)) + s * msPerMinute) ->
  end_ k = TimeValue (startOfDay (selectedDate (render w)) + e * msPerMinute) ->
  closure k = render w ->
  stage w s e
    (timerFires elapsed k
       {| flow := {| render := with_isLoading true (render w);
                     browser := browser w |};
          call := Awaiting k;
          seen := [SetIsLoading true] |}).
Proof.
  intros (_ & _ & _ & _ & Hpe) HS HE Hk.
  destruct (priceEstimate (render w)) as [pe|] eqn:Hest; [|congruence].
  rewrite <- Hk in Hest.
  unfold timerFires, bind, timeout. cbn [flow seen render browser now random].
  match goal with
  | |- context [submitBooking_resume k ?w1] =>
      destruct (submitBooking_resume_ok k w1 _ _ pe HS HE Hest)
        as (b & Hresume & _ & Hc & Hst & Hen & _)
  end.
  rewrite Hresume. rewrite Hk in Hc.
  apply (stage_returned w s e _ b); try assumption; try reflexivity.
  cbn. unfold slotTakenToast. intuition discriminate.
Qed.

Lemma clientStep_stage w s e c c' :
  bookable w s e -> stage w s e c -> clientStep c c' -> stage w s e c'.
Proof.
  intros Hw Hc Hstep.
  destruct Hc as [| k HS HE Hk | c b Hcall].
  - inversion Hstep as [c0 Hcall | c0 k elapsed Hcall]; subst.
    + now apply callBegins_ready.
    + discriminate Hcall.
  - inversion Hstep as [c0 Hcall | c0 k' elapsed Hcall]; subst.
    + discriminate Hcall.
    + cbn in Hcall. injection Hcall as <-.
      now apply timerFires_awaiting.
  - inversion Hstep as [c0 Hcall' | c0 k elapsed Hcall']; subst; congruence.
Qed.

Lemma steps_stage wa sa ea wb sb eb x y :
  bookable wa sa ea -> bookable wb sb eb ->
  steps x y ->
  stage wa sa ea (fst x) -> stage wb sb eb (snd x) ->
  stage wa sa ea (fst y) /\ stage wb sb eb (snd y).
Proof.
  intros Ha Hb Hrun. induction Hrun as [x | x y z Hstep Hrun IH].
  - now split.
  - intros Hx1 Hx2. apply IH.
    + destruct Hstep as [a a' b Hstep | a b b' Hstep]; cbn in *;
        [now apply (clientStep_stage wa sa ea a) | assumption].
    + destruct Hstep as [a a' b Hstep | a b b' Hstep]; cbn in *;
        [assumption | now apply (clientStep_stage wb sb eb b)].
Qed.


(** Both calls can run to their end: each begins, then each timer fires. *)
Lemma both_calls_return wa sa ea wb sb eb :
  bookable wa sa ea -> bookable wb sb eb ->
  exists a' b',
    steps (ready wa, ready wb) (a', b')
    /\ call a' = Returned /\ call b' = Returned.
Proof.
  intros Ha Hb.
  destruct (callBegins_awaits wa sa ea Ha) as (ka & Hka & _).
  destruct (callBegins_awaits wb sb eb Hb) as (kb & Hkb & _).
  exists (timerFires 1500 ka (callBegins (ready wa))),
         (timerFires 1500 kb (callBegins (ready wb))).
  split; [|split; apply timerFires_returned].
  eapply steps_more; [apply step_first, step_call; reflexivity|].
  eapply steps_more; [apply step_second, step_call; reflexivity|].
  eapply steps_more.
  { apply step_first, (step_timer _ ka 1500); [now rewrite Hka | lia]. }
  eapply steps_more.
  { apply step_second, (step_timer _ kb 1500); [now rewrite Hkb | lia]. }
  apply steps_done.
Qed.

(** However the turns interleave, two ready clients with bookable
    selections both end with a booking and without the slot-taken toast. *)
Lemma concurrent_calls_book wa sa ea wb sb eb a' b' :
  bookable wa sa ea -> bookable wb sb eb ->
  steps (ready wa, ready wb) (a', b') ->
  call a' = Returned -> call b' = Returned ->
  exists ba bb,
    bookingsCreated (seen a') = [ba]
    /\ bookingsCreated (seen b') = [bb]
    /\ ~ In slotTakenToast (seen a')
    /\ ~ In slotTakenToast (seen b')
    /\ Booking.charger_id ba = Charger.id (charger (render wa))
    /\ Booking.charger_id bb = Charger.id (charger (render wb))
    /\ Booking.start_time ba
       = startOfDay (selectedDate (render wa)) + sa * msPerMinute
    /\ Booking.end_time ba
       = startOfDay (selectedDate (render wa)) + ea * msPerMinute
    /\ Booking.start_time bb
       = startOfDay (selectedDate (render wb)) + sb * msPerMinute
    /\ Booking.end_time bb
       = startOfDay (selectedDate (render wb)) + eb * msPerMinute.
Proof.
  intros Ha Hb Hrun Hra Hrb.
  destruct (steps_stage wa sa ea wb sb eb _ _ Ha Hb Hrun)
    as [Hsa Hsb]; try apply stage_ready.
  cbn [fst snd] in Hsa, Hsb.
  destruct Hsa as [| ka | a' ba _ Hba Hna Hca Hsta Hena];
    [discriminate Hra | discriminate Hra |].
  destruct Hsb as [| kb | b' bb _ Hbb Hnb Hcb Hstb Henb];
    [discriminate Hrb | discriminate Hrb |].
  exists ba, bb. now repeat split.
Qed.

(** C1, as the specification states it, fails: Alice and Bob, each in their
    own browser, book charger R1 for 10:00 to 11:30 of the same day at the
    same time; both calls return a booking and neither is told of a
    conflict. *)
Lemma concurrent_overlapping_calls_both_book :
  exists a' b' ba bb,
    steps (ready (Sample.picked Sample.R1 Sample.alice Sample.morning),
           ready (Sample.picked Sample.R1 Sample.bob Sample.elsewhere))
          (a', b')
    /\ call a' = Returned /\ call b' = Returned
    /\ bookingsCreated (seen a') = [ba]
    /\ bookingsCreated (seen b') = [bb]
    /\ ~ In slotTakenToast (seen a')
    /\ ~ In slotTakenToast (seen b')
    /\ Booking.charger_id ba = Booking.charger_id bb
    /\ intervalsOverlap (Booking.start_time ba) (Booking.end_time ba)
                        (Booking.start_time bb) (Booking.end_time bb) = true.
Proof.
  assert (Ha : bookable (Sample.picked Sample.R1 Sample.alice Sample.morning)
                 600 690)
    by (unfold bookable; repeat apply conj; evaluate).
  assert (Hb : bookable (Sample.picked Sample.R1 Sample.bob Sample.elsewhere)
                 600 690)
    by (unfold bookable; repeat apply conj; evaluate).
  destruct (both_calls_return _ _ _ _ _ _ Ha Hb) as (a' & b' & Hrun & Hra & Hrb).
  destruct (concurrent_calls_book _ _ _ _ _ _ a' b' Ha Hb Hrun Hra Hrb)
    as (ba & bb & Hba & Hbb & Hna & Hnb & Hca & Hcb & Hsa & Hea & Hsb & Heb).
  exists a', b', ba, bb.
  repeat apply conj; try assumption.
  - rewrite Hca, Hcb. evaluate.
  - rewrite Hsa, Hea, Hsb, Heb. evaluate.
Qed.

(** C1, amended. [submitBooking] checks no other booking: when two clients
    with bookable selections for overlapping intervals of the same day on
    the same charger call it concurrently, both calls can complete, and
    however their turns interleave each call returns its own booking for its
    own interval; neither client is shown the slot-taken error and neither
    booking replaces the other. *)
Theorem concurrent_calls_each_book wa sa ea wb sb eb :
  bookable wa sa ea -> bookable wb sb eb ->
  Charger.id (charger (render wa)) = Charger.id (charger (render wb)) ->
  startOfDay (selectedDate (render wa)) = startOfDay (selectedDate (render wb)) ->
  intervalsOverlap sa ea sb eb = true ->
  (exists a' b',
     steps (ready wa, ready wb) (a', b')
     /\ call a' = Returned /\ call b' = Returned)
  /\ (forall a' b',
        steps (ready wa, ready wb) (a', b') ->
        call a' = Returned -> call b' = Returned ->
        exists ba bb,
          bookingsCreated (seen a') = [ba]
          /\ bookingsCreated (seen b') = [bb]
          /\ ~ In slotTakenToast (seen a')
          /\ ~ In slotTakenToast (seen b')
          /\ Booking.charger_id ba = Booking.charger_id bb
          /\ Booking.start_time ba
             = startOfDay (selectedDate (render wa)) + sa * msPerMinute
          /\ Booking.end_time ba
             = startOfDay (selectedDate (render wa)) + ea * msPerMinute
          /\ Booking.start_time bb
             = startOfDay (selectedDate (render wb)) + sb * msPerMinute
          /\ Booking.end_time bb
             = startOfDay (selectedDate (render wb)) + eb * msPerMinute
          /\ intervalsOverlap (Booking.start_time ba) (Booking.end_time ba)
                              (Booking.start_time bb) (Booking.end_time bb)
             = true).
Proof.
  intros Ha Hb Hcharger Hday Hoverlap. split.
  - now apply (both_calls_return wa sa ea wb sb eb).
  - intros a' b' Hrun Hra Hrb.
    destruct (concurrent_calls_book _ _ _ _ _ _ a' b' Ha Hb Hrun Hra Hrb)
      as (ba & bb & Hba & Hbb & Hna & Hnb & Hca & Hcb & Hsa & Hea & Hsb & Heb).
    exists ba, bb. repeat apply conj; try assumption.
    + congruence.
    + rewrite Hsa, Hea, Hsb, Heb, Hday.
      unfold intervalsOverlap in *.
      apply andb_true_iff in Hoverlap. destruct Hoverlap as [H1 H2].
      apply Z.ltb_lt in H1, H2.
      apply andb_true_iff. split; apply Z.ltb_lt; unfold msPerMinute; lia.
Qed.

Lemma concurrent_calls_each_book_witness :
  let wa := Sample.picked Sample.R1 Sample.alice Sample.morning in
  let wb := Sample.picked Sample.R1 Sample.bob Sample.elsewhere in
  exists a' b',
    steps (ready wa, ready wb) (a', b')
    /\ call a' = Returned /\ call b' = Returned.
Proof.
  apply (concurrent_calls_each_book
           (Sample.picked Sample.R1 Sample.alice Sample.morning) 600 690
           (Sample.picked Sample.R1 Sample.bob Sample.elsewhere) 600 690);
    try (unfold bookable; repeat apply conj); evaluate.
Defined.

(* ===================================================================== *)
(** ** generateTimeSlots: the slots and the draws *)
(* ===================================================================== *)

(** The loop run from [current] with [n] half hours left before [end_]:
    [n] slots, one draw each, nothing else touched. *)
Lemma slotLoop_slots n : forall fuel current end_ w,
  end_ - current = Z.of_nat n * (30 * msPerMinute) ->
  (n <= fuel)%nat ->
  exists slots,
    slotLoop fuel current end_ w = (Normal slots, drawn n w, [])
    /\ List.length slots = n
    /\ forall k, (k < n)%nat ->
         nth_error slots k
         = Some {| slot_start := current + Z.of_nat k * (30 * msPerMinute);
                   slot_end := current + (Z.of_nat k + 1) * (30 * msPerMinute);
                   slot_available := (0.3 <? random (browser w) k)%float |}.
Proof.
  induction n as [|n IH]; intros fuel current end_ [r [t rnd]] Hleft Hfuel.
  - exists []. split; [|split; [reflexivity | intros k Hk; lia]].
    destruct fuel as [|fuel]; [reflexivity|].
    cbn [slotLoop].
    replace (current <? end_) with false
      by (symmetry; apply Z.ltb_ge; cbn in Hleft; lia).
    reflexivity.
  - destruct fuel as [|fuel]; [lia|].
    cbn [slotLoop].
    replace (current <? end_) with true
      by (symmetry; apply Z.ltb_lt; unfold msPerMinute in *; lia).
    unfold bind at 1. unfold Math_random at 1.
    cbn [browser render now random].
    destruct (IH fuel (current + 30 * msPerMinute) end_
                {| render := r;
                   browser := {| now := t; random := fun i => rnd (S i) |} |})
      as (rest & Hrun & Hlen & Hnth).
    { rewrite Nat2Z.inj_succ in Hleft. unfold msPerMinute in *. lia. }
    { lia. }
    unfold bind. rewrite Hrun.
    eexists. split; [reflexivity|]. split; [cbn; now rewrite Hlen|].
    intros [|k] Hk.
    + cbn. do 2 f_equal; unfold msPerMinute; lia.
    + cbn [nth_error]. rewrite Hnth by lia.
      cbn [browser random]. do 2 f_equal;
        rewrite Nat2Z.inj_succ; unfold msPerMinute; lia.
Qed.

(** The run of [generateTimeSlots]: 32 slots from 6 AM, one draw each. *)
Lemma generateTimeSlots_run date w :
  exists slots,
    generateTimeSlots date w = (Normal slots, drawn 32 w, [])
    /\ List.length slots = 32%nat
    /\ forall k, (k < 32)%nat ->
         nth_error slots k
         = Some (slotAt date k (0.3 <? random (browser w) k)%float).
Proof.
  destruct (slotLoop_slots 32 33
              (startOfDay date + 6 * 60 * msPerMinute)
              (startOfDay date + 22 * 60 * msPerMinute) w)
    as (slots & Hrun & Hlen & Hnth).
  { unfold msPerMinute. cbn. lia. }
  { lia. }
  exists slots. split; [exact Hrun|]. split; [exact Hlen|].
  intros k Hk. rewrite (Hnth k Hk). reflexivity.
Qed.

(** X1. Whatever the date and the random source, [generateTimeSlots] returns
    32 slots, the [k]-th being the half hour that starts [k] half hours after
    6 AM of that day, available exactly when the [k]-th draw exceeds 0.3; it
    takes 32 draws and has no other effect. *)
Theorem generateTimeSlots_slots date w :
  exists slots,
    generateTimeSlots date w = (Normal slots, drawn 32 w, [])
    /\ List.length slots = 32%nat
    /\ forall k, (k < 32)%nat ->
         nth_error slots k
         = Some (slotAt date k (0.3 <? random (browser w) k)%float).
Proof.
  destruct (slotLoop_slots 32 33
              (startOfDay date + 6 * 60 * msPerMinute)
              (startOfDay date + 22 * 60 * msPerMinute) w)
    as (slots & Hrun & Hlen & Hnth).
  { unfold msPerMinute. cbn. lia. }
  { lia. }
  exists slots. split; [exact Hrun|]. split; [exact Hlen|].
  intros k Hk. rewrite (Hnth k Hk). reflexivity.
Qed.

(** X2. The slots of [generateTimeSlots] tile the day from 6 AM to 10 PM:
    every slot lasts 30 minutes and lies between 6 AM and 10 PM of the day,
    and each slot starts when the one before it ends. *)
Theorem generateTimeSlots_tiling date w slots :
  completion (generateTimeSlots date) w = Normal slots ->
  (forall s, In s slots ->
     slot_end s = slot_start s + 30 * msPerMinute
     /\ startOfDay date + 6 * 60 * msPerMinute <= slot_start s
     /\ slot_end s <= startOfDay date + 22 * 60 * msPerMinute)
  /\ (forall k a b,
        nth_error slots k = Some a -> nth_error slots (S k) = Some b ->
        slot_start b = slot_end a)
  /\ (exists first last,
        nth_error slots 0 = Some first
        /\ slot_start first = startOfDay date + 6 * 60 * msPerMinute
        /\ nth_error slots 31 = Some last
        /\ slot_end last = startOfDay date + 22 * 60 * msPerMinute).
Proof.
  intros Hslots.
  destruct (generateTimeSlots_run date w) as (slots' & Hrun & Hlen & Hnth).
  unfold completion in Hslots. rewrite Hrun in Hslots.
  cbn in Hslots. injection Hslots as <-.
  split; [|split].
  - intros s Hin. apply In_nth_error in Hin. destruct Hin as [k Hk].
    assert (Hlt : (k < 32)%nat).
    { rewrite <- Hlen. apply nth_error_Some. congruence. }
    rewrite (Hnth k Hlt) in Hk. injection Hk as <-.
    unfold slotAt, msPerMinute. cbn [slot_start slot_end]. lia.
  - intros k a b Ha Hb.
    assert (Hlt : (S k < 32)%nat).
    { rewrite <- Hlen. apply nth_error_Some. congruence. }
    rewrite (Hnth k) in Ha by lia. rewrite (Hnth (S k) Hlt) in Hb.
    injection Ha as <-. injection Hb as <-.
    unfold slotAt. cbn [slot_start slot_end].
    rewrite Nat2Z.inj_succ. unfold msPerMinute. lia.
  - eexists. eexists.
    rewrite (Hnth 0%nat) by lia. rewrite (Hnth 31%nat) by lia.
    repeat split; unfold slotAt, msPerMinute; cbn [slot_start slot_end]; lia.
Qed.

Lemma generateTimeSlots_tiling_witness :
  exists first last,
    nth_error
      (availableSlots
         (render (after selectedDateEffect
                    (mount Sample.R1 None Sample.morning)))) 0
    = Some first
    /\ slot_start first = startOfDay 0 + 6 * 60 * msPerMinute
    /\ nth_error
         (availableSlots
            (render (after selectedDateEffect
                       (mount Sample.R1 None Sample.morning)))) 31
       = Some last
    /\ slot_end last = startOfDay 0 + 22 * 60 * msPerMinute.
Proof.
  apply (generateTimeSlots_tiling 0 (mount Sample.R1 None Sample.morning)).
  vm_compute. reflexivity.
Defined.

(* ===================================================================== *)
(** ** Step navigation *)
(* ===================================================================== *)

Lemma handleNext_refused w t :
  currentStep (render w) = 0%nat ->
  validateTimeSelection w = (Normal false, w, t) ->
  handleNext w = (Normal tt, w, t).
Proof.
  intros Hstep Hv. unfold handleNext, bind, getRender.
  rewrite Hstep. cbn [Nat.eqb]. rewrite Hv. cbn. now rewrite !app_nil_r.
Qed.

Lemma handleNext_from_selection w :
  currentStep (render w) = 0%nat ->
  validateTimeSelection w = (Normal true, w, []) ->
  handleNext w
  = (Normal tt,
     {| render := with_currentStep 1 (render w); browser := browser w |},
     [SetCurrentStep 1]).
Proof.
  intros Hstep Hv. unfold handleNext, bind, getRender.
  rewrite Hstep. cbn [Nat.eqb]. rewrite Hv. reflexivity.
Qed.

(** X3. On the first step [handleNext] goes on exactly when
    [validateTimeSelection] accepts the selection: if it refuses, the step
    and the whole state stay as they were and only the validation's toast is
    shown; if it accepts, the flow moves to step 1 without a toast. *)
Theorem handleNext_first_step w :
  currentStep (render w) = 0%nat ->
  (completion validateTimeSelection w = Normal false ->
   after handleNext w = w
   /\ effects handleNext w = effects validateTimeSelection w
   /\ exists m, effects handleNext w = [ToastError m])
  /\ (completion validateTimeSelection w = Normal true ->
      currentStep (render (after handleNext w)) = 1%nat
      /\ effects handleNext w = [SetCurrentStep 1]).
Proof.
  intros Hstep.
  destruct (validateTimeSelection_cases w) as [Hv | [m Hv]]; split;
    intros Hc; unfold completion in Hc; rewrite Hv in Hc;
    try discriminate Hc.
  - unfold after, effects.
    rewrite (handleNext_from_selection w Hstep Hv). now split.
  - unfold after, effects. rewrite (handleNext_refused w _ Hstep Hv), Hv.
    repeat split. now exists m.
Qed.

Lemma handleNext_first_step_witness :
  currentStep
    (render (after handleNext
               (Sample.picked Sample.R1 Sample.alice Sample.morning)))
  = 1%nat
  /\ effects handleNext (Sample.picked Sample.R1 Sample.alice Sample.morning)
     = [SetCurrentStep 1].
Proof.
  destruct (handleNext_first_step
              (Sample.picked Sample.R1 Sample.alice Sample.morning))
    as [_ Haccepted]; [evaluate|].
  apply Haccepted. evaluate.
Defined.

(** On the details step with a vehicle type chosen, [handleNext] moves to
    the payment step. *)
Lemma handleNext_with_vehicle w :
  currentStep (render w) = 1%nat ->
  blank (type (vehicleInfo (render w))) = false ->
  handleNext w
  = (Normal tt,
     {| render := with_currentStep 2 (render w); browser := browser w |},
     [SetCurrentStep 2]).
Proof.
  intros Hstep Htype. unfold handleNext, bind, getRender.
  rewrite Hstep, Htype. reflexivity.
Qed.

(** X4. On the details step [handleNext] asks for a vehicle type: without
    one it shows 'Please select your vehicle type' and stays; with one it
    moves to the payment step. *)
Theorem handleNext_details_step w :
  currentStep (render w) = 1%nat ->
  (blank (type (vehicleInfo (render w))) = true ->
   handleNext w
   = (Normal tt, w, [ToastError (Text "Please select your vehicle type")]))
  /\ (blank (type (vehicleInfo (render w))) = false ->
      handleNext w
      = (Normal tt,
         {| render := with_currentStep 2 (render w); browser := browser w |},
         [SetCurrentStep 2])).
Proof.
  intros Hstep. unfold handleNext, bind, getRender. rewrite Hstep.
  split; intros ->; reflexivity.
Qed.

Lemma handleNext_details_step_witness :
  handleNext
    (after handleNext (Sample.picked Sample.R1 Sample.alice Sample.morning))
  = (Normal tt,
     after handleNext (Sample.picked Sample.R1 Sample.alice Sample.morning),
     [ToastError (Text "Please select your vehicle type")]).
Proof.
  destruct (handleNext_details_step
              (after handleNext
                 (Sample.picked Sample.R1 Sample.alice Sample.morning)))
    as [Hmissing _]; [evaluate|].
  apply Hmissing. evaluate.
Defined.

Lemma handleNext_step w :
  currentStep (render (after handleNext w)) = currentStep (render w)
  \/ ((currentStep (render w) < 3)%nat
      /\ currentStep (render (after handleNext w))
         = S (currentStep (render w))).
Proof.
  unfold after, handleNext, bind, getRender.
  destruct (currentStep (render w)) as [|[|n]] eqn:Hstep; cbn [Nat.eqb].
  - destruct (validateTimeSelection_cases w) as [-> | [m ->]];
      cbn; rewrite ?Hstep; [right; split; [lia | reflexivity] | now left].
  - cbn [andb].
    destruct (blank (type (vehicleInfo (render w))));
      cbn; rewrite ?Hstep; [now left | right; split; [lia | reflexivity]].
  - cbn [andb negb].
    destruct (Nat.ltb (S (S n)) (steps_length - 1)) eqn:Hlt;
      cbn; rewrite ?Hstep; [|now left].
    right. apply Nat.ltb_lt in Hlt. unfold steps_length in Hlt.
    split; [lia|]. f_equal. lia.
Qed.

Lemma handleBack_step w :
  currentStep (render (after handleBack w)) = Nat.pred (currentStep (render w)).
Proof.
  unfold after, handleBack, bind, getRender.
  destruct (currentStep (render w)) as [|n] eqn:Hstep; cbn.
  - exact Hstep.
  - f_equal. lia.
Qed.

(* ===================================================================== *)
(** ** submitBooking: every way the call can end *)
(* ===================================================================== *)

(** When [new Date] gives Invalid Date for the start or the end, a call
    that got past the validation fails in [toISOString]: the spinner goes on,
    the failure toast is shown, the spinner goes off. *)
Lemma submitBooking_invalid_date w pe :
  validateTimeSelection w = (Normal true, w, []) ->
  priceEstimate (render w) = Some pe ->
  dateAt (selectedDate (render w)) (startTime (render w)) = InvalidDate
  \/ dateAt (selectedDate (render w)) (endTime (render w)) = InvalidDate ->
  submitBooking w
  = (Normal tt,
     {| render := with_isLoading false (with_isLoading true (render w));
        browser := browser w |},
     [SetIsLoading true;
      ToastError (Text "Failed to create booking. Please try again.");
      SetIsLoading false]).
Proof.
  intros Hv Hpe Hinvalid.
  unfold submitBooking, submitBooking_begin, bind, getRender.
  rewrite Hv, Hpe.
  destruct Hinvalid as [-> | ->].
  - reflexivity.
  - destruct (dateAt (selectedDate (render w)) (startTime (render w)));
      reflexivity.
Qed.

Lemma dateAt_cases day s :
  dateAt day s = InvalidDate
  \/ exists m, parseClock s = Some m
               /\ dateAt day s = TimeValue (startOfDay day + m * msPerMinute).
Proof.
  unfold dateAt. destruct (parseClock s) as [m|]; [right | now left].
  now exists m.
Qed.

Lemma submitBooking_outcomes w : SubmitOutcome w.
Proof.
  destruct (validateTimeSelection_cases w) as [Hv | [m Hv]].
  2:{ apply (outcome_refused w m). now apply submitBooking_refused. }
  destruct (priceEstimate (render w)) as [pe|] eqn:Hpe.
  2:{ apply outcome_silent; [exact Hpe|].
      now apply submitBooking_no_estimate. }
  destruct (dateAt_cases (selectedDate (render w)) (startTime (render w)))
    as [Hs | (s & Hs & _)].
  { apply outcome_failed. apply (submitBooking_invalid_date w pe); auto. }
  destruct (dateAt_cases (selectedDate (render w)) (endTime (render w)))
    as [He | (e & He & _)].
  { apply outcome_failed. apply (submitBooking_invalid_date w pe); auto. }
  assert (Hc : completion validateTimeSelection w = Normal true)
    by (unfold completion; now rewrite Hv).
  destruct (validateTimeSelection_true w s e Hc Hs He) as [Hlt Hnow].
  destruct (submitBooking_books w s e pe Hs He Hlt Hnow Hpe) as (b & Hrun & _).
  now apply (outcome_booked w b).
Qed.

(** X5. The spinner never stays on: whichever way [submitBooking] ends
    (refused, no estimate, failure in the [try] block, booking created),
    [isLoading] is false afterwards if it was false before, and every
    [setIsLoading(true)] is followed by a [setIsLoading(false)] as the last
    effect of the call. *)
Theorem submitBooking_spinner w :
  isLoading (render w) = false ->
  isLoading (render (after submitBooking w)) = false
  /\ (In (SetIsLoading true) (effects submitBooking w) ->
      last (effects submitBooking w) (SetIsLoading true) = SetIsLoading false).
Proof.
  intros Hoff. unfold after, effects.
  destruct (submitBooking_outcomes w) as [m -> | _ -> | -> | b ->];
    cbn [fst snd render isLoading with_isLoading]; split;
    try assumption; try reflexivity.
  - cbn. intros [H | []]. discriminate H.
  - cbn. intros [].
Qed.

Lemma submitBooking_spinner_witness :
  isLoading
    (render (after submitBooking
               (Sample.picked Sample.R1 Sample.alice Sample.morning)))
  = false
  /\ (In (SetIsLoading true)
         (effects submitBooking
            (Sample.picked Sample.R1 Sample.alice Sample.morning)) ->
      last (effects submitBooking
              (Sample.picked Sample.R1 Sample.alice Sample.morning))
           (SetIsLoading true)
      = SetIsLoading false).
Proof.
  apply (submitBooking_spinner
           (Sample.picked Sample.R1 Sample.alice Sample.morning)).
  evaluate.
Defined.

(** X6. The step counter stays within the four steps: from a step between 0
    and 3, [handleNext], [handleBack] and [submitBooking] all lead to a step
    between 0 and 3; [handleNext] goes forward by at most one, [handleBack]
    goes back by one and stops at 0, and [submitBooking] either keeps the
    step or jumps to the confirmation step 3. *)
Theorem currentStep_bounds w :
  (currentStep (render w) <= 3)%nat ->
  (currentStep (render (after handleNext w)) <= 3)%nat
  /\ (currentStep (render w) <= currentStep (render (after handleNext w))
      <= S (currentStep (render w)))%nat
  /\ currentStep (render (after handleBack w))
     = Nat.pred (currentStep (render w))
  /\ (currentStep (render (after submitBooking w)) = currentStep (render w)
      \/ currentStep (render (after submitBooking w)) = 3%nat).
Proof.
  intros Hle. split; [|split; [|split]].
  - destruct (handleNext_step w) as [-> | [Hlt ->]]; lia.
  - destruct (handleNext_step w) as [-> | [Hlt ->]]; lia.
  - apply handleBack_step.
  - unfold after.
    destruct (submitBooking_outcomes w) as [m -> | _ -> | -> | b ->];
      cbn; auto.
Qed.

Lemma currentStep_bounds_witness :
  let w := Sample.picked Sample.R1 Sample.alice Sample.morning in
  (currentStep (render (after handleNext w)) <= 3)%nat
  /\ (currentStep (render w) <= currentStep (render (after handleNext w))
      <= S (currentStep (render w)))%nat
  /\ currentStep (render (after handleBack w))
     = Nat.pred (currentStep (render w))
  /\ (currentStep (render (after submitBooking w)) = currentStep (render w)
      \/ currentStep (render (after submitBooking w)) = 3%nat).
Proof.
  apply (currentStep_bounds
           (Sample.picked Sample.R1 Sample.alice Sample.morning)).
  vm_compute. lia.
Defined.

(** X7. [handleBack] undoes [handleNext]: whenever [handleNext] moves the
    flow forward, a following [handleBack] brings it back to the step it
    came from, and the selection and the estimate are as before. *)
Theorem handleBack_undoes_handleNext w :
  currentStep (render (after handleNext w)) <> currentStep (render w) ->
  let w' := after handleBack (after handleNext w) in
  currentStep (render w') = currentStep (render w)
  /\ startTime (render w') = startTime (render w)
  /\ endTime (render w') = endTime (render w)
  /\ selectedDate (render w') = selectedDate (render w)
  /\ priceEstimate (render w') = priceEstimate (render w).
Proof.
  intros Hmoved. cbv zeta.
  split.
  - rewrite handleBack_step.
    destruct (handleNext_step w) as [Hsame | [_ ->]]; [congruence|].
    reflexivity.
  - clear Hmoved.
    assert (Hnext : startTime (render (after handleNext w)) = startTime (render w)
                    /\ endTime (render (after handleNext w)) = endTime (render w)
                    /\ selectedDate (render (after handleNext w))
                       = selectedDate (render w)
                    /\ priceEstimate (render (after handleNext w))
                       = priceEstimate (render w)).
    { unfold after, handleNext, bind, getRender.
      destruct (Nat.eqb (currentStep (render w)) 0);
        [destruct (validateTimeSelection_cases w) as [-> | [m ->]]|];
        destruct (Nat.eqb (currentStep (render w)) 1
                  && blank (type (vehicleInfo (render w))));
        destruct (Nat.ltb (currentStep (render w)) (steps_length - 1));
        repeat split. }
    destruct Hnext as (<- & <- & <- & <-).
    generalize (after handleNext w). intros v.
    unfold after, handleBack, bind, getRender.
    destruct (Nat.ltb 0 (currentStep (render v))); repeat split.
Qed.

Lemma handleBack_undoes_handleNext_witness :
  let w := Sample.picked Sample.R1 Sample.alice Sample.morning in
  let w' := after handleBack (after handleNext w) in
  currentStep (render w') = currentStep (render w)
  /\ startTime (render w') = startTime (render w)
  /\ endTime (render w') = endTime (render w)
  /\ selectedDate (render w') = selectedDate (render w)
  /\ priceEstimate (render w') = priceEstimate (render w).
Proof.
  apply (handleBack_undoes_handleNext
           (Sample.picked Sample.R1 Sample.alice Sample.morning)).
  vm_compute. intros H. discriminate H.
Defined.

(** A bookable selection, with every field of the booking. *)
Lemma submitBooking_booked_fields w s e pe :
  parseClock (startTime (render w)) = Some s ->
  parseClock (endTime (render w)) = Some e ->
  s < e ->
  now (browser w) <= startOfDay (selectedDate (render w)) + s * msPerMinute ->
  priceEstimate (render w) = Some pe ->
  exists b,
    bookingsCreated (effects submitBooking w) = [b]
    /\ Booking.id b = floor (random (browser w) 0%nat * 10000)%float
    /\ Booking.renter_id b
       = match user (render w) with
         | Some u => or_else (User.id u) 0%float
         | None => 0%float
         end
    /\ Booking.payment_status b = payment_pending
    /\ Booking.booking_code b
       = {| prefix := "BK"; draw := random (browser w) 1%nat; digits := 8 |}
    /\ Booking.total_amount b = PriceEstimate.total pe
    /\ Booking.paid_amount b = 0%float
    /\ Booking.currency b = "INR"
    /\ Booking.qr_code_url b
       = {| prefix := "BK"; draw := random (browser w) 2%nat; digits := 8 |}
    /\ Booking.access_code b
       = {| prefix := ""; draw := random (browser w) 3%nat; digits := 6 |}
    /\ Booking.vehicle_info b = vehicleInfo (render w)
    /\ Booking.special_instructions b = specialInstructions (render w)
    /\ Booking.created_at b = now (browser w) + 1500
    /\ Booking.updated_at b = now (browser w) + 1500
    /\ Booking.charger b = charger (render w).
Proof.
  intros Hs He Hlt Hnow Hpe.
  destruct (submitBooking_begin_ok w s e pe Hs He Hlt Hnow Hpe)
    as (k & Hbegin & Hk & HS & HE).
  unfold effects, submitBooking, bind. rewrite Hbegin.
  unfold timeout, submitBooking_resume, mockBooking, attempt, bind.
  rewrite HS, HE, Hk, Hpe.
  destruct w as [r [t rnd]].
  eexists. split; [reflexivity|]. repeat split.
Qed.

(** Up to the [await], a call ends in one of three ways: it returns at
    once with the state untouched (refused by the validation, or no estimate
    held), it fails in [toISOString] and shows the failure toast, or it is
    suspended with the spinner on, holding the render it was started from. *)
Lemma submitBooking_begin_cases w :
  (exists t,
     submitBooking_begin w = (Normal None, w, t) /\ bookingsCreated t = [])
  \/ submitBooking_begin w
     = (Normal None,
        {| render := with_isLoading false (with_isLoading true (render w));
           browser := browser w |},
        [SetIsLoading true;
         ToastError (Text "Failed to create booking. Please try again.");
         SetIsLoading false])
  \/ exists k pe S E,
       submitBooking_begin w
       = (Normal (Some k),
          {| render := with_isLoading true (render w); browser := browser w |},
          [SetIsLoading true])
       /\ closure k = render w
       /\ priceEstimate (render w) = Some pe
       /\ start k = TimeValue S
       /\ end_ k = TimeValue E
       /\ S < E.
Proof.
  destruct (validateTimeSelection_cases w) as [Hv | [m Hv]].
  2:{ left. exists [ToastError m].
      unfold submitBooking_begin, bind, getRender. rewrite Hv. now split. }
  destruct (priceEstimate (render w)) as [pe|] eqn:Hpe.
  2:{ left. exists [].
      unfold submitBooking_begin, bind, getRender. rewrite Hv, Hpe.
      now split. }
  destruct (dateAt_cases (selectedDate (render w)) (startTime (render w)))
    as [Hs | (s & Hs & _)].
  { right. left. unfold submitBooking_begin, bind, getRender.
    rewrite Hv, Hpe, Hs. reflexivity. }
  destruct (dateAt_cases (selectedDate (render w)) (endTime (render w)))
    as [He | (e & He & _)].
  { right. left. unfold submitBooking_begin, bind, getRender.
    rewrite Hv, Hpe, He.
    destruct (dateAt (selectedDate (render w)) (startTime (render w)));
      reflexivity. }
  assert (Hc : completion validateTimeSelection w = Normal true)
    by (unfold completion; now rewrite Hv).
  destruct (validateTimeSelection_true w s e Hc Hs He) as [Hlt Hnow].
  destruct (submitBooking_begin_ok w s e pe Hs He Hlt Hnow Hpe)
    as (k & Hrun & Hk & HS & HE).
  right. right. do 4 eexists.
  split; [exact Hrun|]. split; [exact Hk|]. split; [reflexivity|].
  split; [exact HS|]. split; [exact HE|]. unfold msPerMinute. lia.
Qed.

(** From the [await] on, a call that holds an estimate and two valid dates
    builds its booking from the render it was started from and from four
    draws taken now. *)
Lemma submitBooking_resume_fields k w S E pe :
  start k = TimeValue S ->
  end_ k = TimeValue E ->
  priceEstimate (closure k) = Some pe ->
  exists b,
    submitBooking_resume k w
    = (Normal tt,
       {| render :=
            with_isLoading false
              (with_currentStep 3 (with_completedBooking (Some b) (render w)));
          browser :=
            {| now := now (browser w);
               random := fun n => random (browser w) (4 + n)%nat |} |},
       [SetCompletedBooking b; SetCurrentStep 3;
        ToastSuccess (Text "Booking created successfully!");
        OnBookingComplete b; SetIsLoading false])
    /\ Booking.id b = floor (random (browser w) 0%nat * 10000)%float
    /\ Booking.charger_id b = Charger.id (charger (closure k))
    /\ Booking.renter_id b = renterId (user (closure k))
    /\ Booking.start_time b = S
    /\ Booking.end_time b = E
    /\ Booking.status b
       = (if Charger.auto_accept_bookings (charger (closure k))
          then confirmed else pending)
    /\ Booking.payment_status b = payment_pending
    /\ Booking.booking_code b
       = {| prefix := "BK"; draw := random (browser w) 1%nat; digits := 8 |}
    /\ Booking.total_amount b = PriceEstimate.total pe
    /\ Booking.paid_amount b = 0%float
    /\ Booking.currency b = "INR"
    /\ Booking.qr_code_url b
       = {| prefix := "BK"; draw := random (browser w) 2%nat; digits := 8 |}
    /\ Booking.access_code b
       = {| prefix := ""; draw := random (browser w) 3%nat; digits := 6 |}
    /\ Booking.vehicle_info b = vehicleInfo (closure k)
    /\ Booking.special_instructions b = specialInstructions (closure k)
    /\ Booking.charger b = charger (closure k).
Proof.
  intros HS HE Hpe.
  unfold submitBooking_resume, mockBooking, attempt, bind.
  rewrite HS, HE, Hpe.
  destruct w as [r [t rnd]].
  eexists. split; [reflexivity|]. repeat split.
Qed.

(** X8. A booking is built from the render in which Pay was pressed,
    whatever has changed by the time the timer fires: it is charged the
    total of the estimate held then, carries the id of the user held then
    (0 without a user or without an id), and is for the charger, vehicle and
    instructions of that render; it is unpaid and pending payment in INR.
    Its id, booking code, QR code and access code come from four successive
    random draws taken when the call resumes, so the QR code is cut from
    another draw than the booking code. *)
Theorem booking_fields w k v b :
  completion submitBooking_begin w = Normal (Some k) ->
  In b (bookingsCreated (effects (submitBooking_resume k) v)) ->
  exists pe,
    priceEstimate (render w) = Some pe
    /\ Booking.total_amount b = PriceEstimate.total pe
    /\ Booking.paid_amount b = 0%float
    /\ Booking.payment_status b = payment_pending
    /\ Booking.currency b = "INR"
    /\ Booking.renter_id b = renterId (user (render w))
    /\ Booking.charger b = charger (render w)
    /\ Booking.vehicle_info b = vehicleInfo (render w)
    /\ Booking.special_instructions b = specialInstructions (render w)
    /\ Booking.id b = floor (random (browser v) 0%nat * 10000)%float
    /\ Booking.booking_code b
       = {| prefix := "BK"; draw := random (browser v) 1%nat; digits := 8 |}
    /\ Booking.qr_code_url b
       = {| prefix := "BK"; draw := random (browser v) 2%nat; digits := 8 |}
    /\ Booking.access_code b
       = {| prefix := ""; draw := random (browser v) 3%nat; digits := 6 |}.
Proof.
  intros Hbegin Hin. unfold completion in Hbegin.
  destruct (submitBooking_begin_cases w)
    as [(t & Hrun & _) | [Hrun | (k' & pe & S & E & Hrun & Hk & Hpe & HS & HE & _)]];
    rewrite Hrun in Hbegin; cbn [fst] in Hbegin; try discriminate Hbegin.
  injection Hbegin as ->.
  rewrite <- Hk in Hpe.
  destruct (submitBooking_resume_fields k v S E pe HS HE Hpe)
    as (b' & Hresume & Hid & _ & Hrenter & _ & _ & _ & Hpay & Hcode & Htotal
        & Hpaid & Hcur & Hqr & Haccess & Hvehicle & Hnote & Hcharger).
  unfold effects in Hin. rewrite Hresume in Hin. cbn in Hin.
  destruct Hin as [<- | []].
  rewrite Hk in *.
  exists pe. repeat split; assumption.
Qed.

Lemma booking_fields_witness :
  exists k b pe,
    completion submitBooking_begin
      (Sample.picked Sample.R1 Sample.alice Sample.morning)
    = Normal (Some k)
    /\ In b (bookingsCreated
               (effects (submitBooking_resume k)
                  (Sample.picked Sample.R2 Sample.bob Sample.elsewhere)))
    /\ priceEstimate
         (render (Sample.picked Sample.R1 Sample.alice Sample.morning))
       = Some pe
    /\ Booking.total_amount b = PriceEstimate.total pe.
Proof.
  assert (Hheld : exists pe0,
             priceEstimate
               (render (Sample.picked Sample.R1 Sample.alice Sample.morning))
             = Some pe0)
    by (vm_compute; eexists; reflexivity).
  destruct Hheld as [pe0 Hheld].
  assert (Hs : parseClock
                 (startTime
                    (render (Sample.picked Sample.R1 Sample.alice Sample.morning)))
               = Some 600) by evaluate.
  assert (He : parseClock
                 (endTime
                    (render (Sample.picked Sample.R1 Sample.alice Sample.morning)))
               = Some 690) by evaluate.
  assert (Hnow : now (browser (Sample.picked Sample.R1 Sample.alice Sample.morning))
                 <= startOfDay
                      (selectedDate
                         (render (Sample.picked Sample.R1 Sample.alice
                                    Sample.morning)))
                    + 600 * msPerMinute) by evaluate.
  destruct (submitBooking_begin_ok
              (Sample.picked Sample.R1 Sample.alice Sample.morning)
              600 690 pe0 Hs He ltac:(lia) Hnow Hheld)
    as (k & Hbegin & Hk & HS & HE).
  assert (Hcompletion :
            completion submitBooking_begin
              (Sample.picked Sample.R1 Sample.alice Sample.morning)
            = Normal (Some k))
    by (unfold completion; now rewrite Hbegin).
  assert (Hpe : priceEstimate (closure k) = Some pe0) by (now rewrite Hk).
  destruct (submitBooking_resume_fields k
              (Sample.picked Sample.R2 Sample.bob Sample.elsewhere)
              _ _ pe0 HS HE Hpe)
    as (b & Hresume & _).
  assert (Hin : In b (bookingsCreated
                        (effects (submitBooking_resume k)
                           (Sample.picked Sample.R2 Sample.bob
                              Sample.elsewhere))))
    by (unfold effects; rewrite Hresume; cbn [snd bookingsCreated]; now left).
  destruct (booking_fields
              (Sample.picked Sample.R1 Sample.alice Sample.morning) k
              (Sample.picked Sample.R2 Sample.bob Sample.elsewhere) b
              Hcompletion Hin)
    as (pe & Hpe' & Htotal & _).
  exists k, b, pe.
  exact (conj Hcompletion (conj Hin (conj Hpe' Htotal))).
Defined.

(** X9. The payment step can be reached without a price estimate, and Pay
    then does nothing at all: from the first step with a selection that
    passes the validation and a vehicle type chosen, two [handleNext] lead
    to step 2 whether or not an estimate is held; with none held,
    [submitBooking] returns without a toast, without a booking and without
    touching the state. *)
Theorem pay_without_estimate w s e :
  currentStep (render w) = 0%nat ->
  parseClock (startTime (render w)) = Some s ->
  parseClock (endTime (render w)) = Some e ->
  s < e ->
  now (browser w) <= startOfDay (selectedDate (render w)) + s * msPerMinute ->
  blank (type (vehicleInfo (render w))) = false ->
  let w2 := after (handleNext ;; handleNext) w in
  currentStep (render w2) = 2%nat
  /\ effects (handleNext ;; handleNext) w = [SetCurrentStep 1; SetCurrentStep 2]
  /\ (priceEstimate (render w) = None ->
      submitBooking w2 = (Normal tt, w2, [])).
Proof.
  intros Hstep Hs He Hlt Hnow Htype. cbv zeta.
  pose proof (handleNext_from_selection w Hstep
                (validateTimeSelection_ok w s e Hs He Hlt Hnow)) as H1.
  set (w1 := {| render := with_currentStep 1 (render w);
                browser := browser w |}) in *.
  pose proof (handleNext_with_vehicle w1 eq_refl Htype) as H2.
  unfold after, effects, bind. rewrite H1, H2. cbn [fst snd app].
  split; [reflexivity|]. split; [reflexivity|].
  intros Hpe.
  apply submitBooking_no_estimate; [|exact Hpe].
  now apply (validateTimeSelection_ok _ s e).
Qed.

(** A call of [calculatePriceEstimate] that hands over no estimate leaves
    the flow as it was. *)
Lemma calculatePriceEstimate_keeps w :
  estimatesSet (effects calculatePriceEstimate w) = [] ->
  after calculatePriceEstimate w = w.
Proof.
  unfold effects, after, calculatePriceEstimate, bind, getRender.
  cbv beta iota.
  destruct (Charger.pricing (charger (render w))) as [p|]; [|reflexivity].
  destruct (blank (startTime (render w))); [reflexivity|].
  destruct (blank (endTime (render w))); [reflexivity|].
  cbn [orb].
  destruct (date_leb _ _); [reflexivity|].
  destruct (_ <? _)%float; [reflexivity|].
  destruct (_ <? _)%float; [reflexivity|].
  destruct (ChargerPricing.pricing_type p); cbn; discriminate.
Qed.

(** X10. An estimate once held is never cleared: when a change of the start
    or end time is refused by [calculatePriceEstimate] (or not priced at
    all), the estimate of the earlier selection stays in state. *)
Theorem estimate_survives_refusal w value pe :
  priceEstimate (render w) = Some pe ->
  (estimatesSet (effects (changeStartTime value) w) = [] ->
   priceEstimate (render (after (changeStartTime value) w)) = Some pe)
  /\ (estimatesSet (effects (changeEndTime value) w) = [] ->
      priceEstimate (render (after (changeEndTime value) w)) = Some pe).
Proof.
  intros Hpe.
  assert (Hcalc : forall v,
             priceEstimate (render v) = Some pe ->
             estimatesSet (effects timeSelectionEffect v) = [] ->
             priceEstimate (render (after timeSelectionEffect v)) = Some pe).
  { intros v Hv.
    unfold effects, after, timeSelectionEffect, bind, getRender.
    destruct (Charger.pricing (charger (render v))) as [p|]; [|now cbn].
    destruct (negb (blank (startTime (render v)))
              && negb (blank (endTime (render v)))); [|now cbn].
    intros Hnone.
    assert (Hkept : estimatesSet (effects calculatePriceEstimate v) = [])
      by (unfold effects; destruct (calculatePriceEstimate v) as [[c v'] t];
          exact Hnone).
    rewrite <- (calculatePriceEstimate_keeps v Hkept) in Hv.
    unfold after in Hv.
    destruct (calculatePriceEstimate v) as [[c v'] t]. exact Hv. }
  split; intros Hnone.
  - specialize (Hcalc {| render := with_startTime value (render w);
                         browser := browser w |} Hpe).
    unfold effects, after, changeStartTime, bind, updateRender in *.
    destruct (timeSelectionEffect _) as [[c v] t]. now apply Hcalc.
  - specialize (Hcalc {| render := with_endTime value (render w);
                         browser := browser w |} Hpe).
    unfold effects, after, changeEndTime, bind, updateRender in *.
    destruct (timeSelectionEffect _) as [[c v] t]. now apply Hcalc.
Qed.

Lemma estimate_survives_refusal_witness :
  let w := Sample.picked Sample.R1 Sample.alice Sample.morning in
  priceEstimate (render (after (changeEndTime "10:10") w))
  = priceEstimate (render w).
Proof.
  destruct (estimate_survives_refusal
              (Sample.picked Sample.R1 Sample.alice Sample.morning) "10:10"
              {| PriceEstimate.duration_hours := 1.5;
                 PriceEstimate.energy_estimate_kwh := (1.5 * 8 * 0.8)%float;
                 PriceEstimate.subtotal := 75;
                 PriceEstimate.platform_fee := 11.25;
                 PriceEstimate.booking_fee := 10;
                 PriceEstimate.total := 96.25;
                 PriceEstimate.pricing_type := per_hour;
                 PriceEstimate.unit_price := 50 |})
    as [_ Hend]; [evaluate|].
  cbv zeta. rewrite Hend by evaluate. evaluate.
Defined.

Lemma pay_without_estimate_witness :
  let w2 := after (handleNext ;; handleNext) Visit.withoutEstimate in
  currentStep (render w2) = 2%nat
  /\ effects (handleNext ;; handleNext) Visit.withoutEstimate
     = [SetCurrentStep 1; SetCurrentStep 2]
  /\ (priceEstimate (render Visit.withoutEstimate) = None ->
      submitBooking w2 = (Normal tt, w2, [])).
Proof.
  apply (pay_without_estimate Visit.withoutEstimate 600 690); evaluate.
Defined.

(* ===================================================================== *)
(** ** Invalid dates *)
(* ===================================================================== *)

Lemma nan_ltb_left x : (NaN <? x)%float = false.
Proof. rewrite FloatAxioms.ltb_spec. reflexivity. Qed.

Lemma nan_ltb_right x : (x <? NaN)%float = false.
Proof.
  rewrite FloatAxioms.ltb_spec. change (Prim2SF NaN) with S754_nan.
  unfold SFltb, SFcompare. now destruct (Prim2SF x) as [| | |[] ? ?].
Qed.

Lemma differenceInMinutes_invalid a b :
  a = InvalidDate \/ b = InvalidDate -> differenceInMinutes a b = NaN.
Proof. intros [-> | ->]; [|destruct a]; reflexivity. Qed.

Lemma date_leb_invalid a b :
  a = InvalidDate \/ b = InvalidDate -> date_leb a b = false.
Proof. intros [-> | ->]; [|destruct a]; reflexivity. Qed.

(** X11. A start or end that [new Date] cannot read is not refused by the
    price estimate: Invalid Date passes the order test and both duration
    tests, and the call hands over an estimate whose duration is NaN. *)
Theorem invalid_date_estimate w p :
  Charger.pricing (charger (render w)) = Some p ->
  blank (startTime (render w)) = false ->
  blank (endTime (render w)) = false ->
  dateAt (selectedDate (render w)) (startTime (render w)) = InvalidDate
  \/ dateAt (selectedDate (render w)) (endTime (render w)) = InvalidDate ->
  exists est,
    effects calculatePriceEstimate w = [SetPriceEstimate est]
    /\ errorsShown (effects calculatePriceEstimate w) = []
    /\ PriceEstimate.duration_hours est = NaN
    /\ isNaN (PriceEstimate.duration_hours est) = true
    /\ priceEstimate (render (after calculatePriceEstimate w)) = Some est.
Proof.
  intros Hp Hs He Hinvalid.
  unfold effects, after, calculatePriceEstimate, bind, getRender.
  rewrite Hp, Hs, He. cbn [orb].
  rewrite date_leb_invalid by tauto.
  rewrite differenceInMinutes_invalid by tauto.
  change (NaN / 60)%float with NaN.
  rewrite nan_ltb_left, nan_ltb_right.
  destruct (ChargerPricing.pricing_type p);
    (eexists; split; [reflexivity|]; repeat split).
Qed.

Lemma invalid_date_estimate_witness :
  exists est,
    effects calculatePriceEstimate Visit.garbledStart = [SetPriceEstimate est]
    /\ errorsShown (effects calculatePriceEstimate Visit.garbledStart) = []
    /\ PriceEstimate.duration_hours est = NaN
    /\ isNaN (PriceEstimate.duration_hours est) = true
    /\ priceEstimate (render (after calculatePriceEstimate Visit.garbledStart))
       = Some est.
Proof.
  apply (invalid_date_estimate Visit.garbledStart Sample.rule); try evaluate.
  left. evaluate.
Defined.

(** X12. A start that [new Date] cannot read slips through
    [validateTimeSelection] (both comparisons with Invalid Date are false)
    and is only caught when [submitBooking] calls [toISOString]: the call
    shows 'Failed to create booking. Please try again.', creates no booking
    and keeps the step. *)
Theorem invalid_start_fails_late w pe :
  blank (startTime (render w)) = false ->
  blank (endTime (render w)) = false ->
  dateAt (selectedDate (render w)) (startTime (render w)) = InvalidDate ->
  priceEstimate (render w) = Some pe ->
  validateTimeSelection w = (Normal true, w, [])
  /\ effects submitBooking w
     = [SetIsLoading true;
        ToastError (Text "Failed to create booking. Please try again.");
        SetIsLoading false]
  /\ bookingsCreated (effects submitBooking w) = []
  /\ currentStep (render (after submitBooking w)) = currentStep (render w).
Proof.
  intros Hs He Hinvalid Hpe.
  assert (Hv : validateTimeSelection w = (Normal true, w, [])).
  { unfold validateTimeSelection, bind, getRender, newDate.
    rewrite Hs, He, Hinvalid. cbn [orb].
    now destruct (dateAt (selectedDate (render w)) (endTime (render w))). }
  split; [exact Hv|].
  unfold effects, after.
  rewrite (submitBooking_invalid_date w pe Hv Hpe) by now left.
  repeat split.
Qed.

Lemma invalid_start_fails_late_witness :
  validateTimeSelection Visit.garbledStart
  = (Normal true, Visit.garbledStart, [])
  /\ effects submitBooking Visit.garbledStart
     = [SetIsLoading true;
        ToastError (Text "Failed to create booking. Please try again.");
        SetIsLoading false]
  /\ bookingsCreated (effects submitBooking Visit.garbledStart) = []
  /\ currentStep (render (after submitBooking Visit.garbledStart))
     = currentStep (render Visit.garbledStart).
Proof.
  apply (invalid_start_fails_late Visit.garbledStart
           {| PriceEstimate.duration_hours := NaN;
              PriceEstimate.energy_estimate_kwh := NaN;
              PriceEstimate.subtotal := NaN;
              PriceEstimate.platform_fee := NaN;
              PriceEstimate.booking_fee := 10;
              PriceEstimate.total := NaN;
              PriceEstimate.pricing_type := per_hour;
              PriceEstimate.unit_price := 50 |});
    evaluate.
Defined.

(* ===================================================================== *)
(** ** Invariants of the booking flow *)
(* ===================================================================== *)

Lemma calculatePriceEstimate_outcome w :
  calculatePriceEstimate w = (Normal tt, w, [])
  \/ (exists m, calculatePriceEstimate w = (Normal tt, w, [ToastError m]))
  \/ (exists e,
        calculatePriceEstimate w
        = (Normal tt,
           {| render := with_priceEstimate (Some e) (render w);
              browser := browser w |},
           [SetPriceEstimate e])
        /\ pricedBy (charger (render w)) e).
Proof.
  unfold calculatePriceEstimate, bind, getRender.
  cbv beta iota.
  destruct (Charger.pricing (charger (render w))) as [p|] eqn:Hp;
    [|now left].
  destruct (blank (startTime (render w))); [now left|].
  destruct (blank (endTime (render w))); [now left|].
  cbn [orb].
  destruct (date_leb _ _); [right; left; eexists; reflexivity|].
  destruct (differenceInMinutes _ _ / 60 <? _)%float eqn:Hmin;
    [right; left; eexists; reflexivity|].
  destruct (_ <? differenceInMinutes _ _ / 60)%float eqn:Hmax;
    [right; left; eexists; reflexivity|].
  right. right.
  destruct (ChargerPricing.pricing_type p) eqn:Htype;
    (eexists; split; [reflexivity|]); exists p;
    cbn [PriceEstimate.duration_hours PriceEstimate.energy_estimate_kwh
         PriceEstimate.subtotal PriceEstimate.platform_fee
         PriceEstimate.booking_fee PriceEstimate.total
         PriceEstimate.pricing_type PriceEstimate.unit_price];
    rewrite Htype; repeat split; assumption.
Qed.

(** The effect after a change of times or vehicle: the flow is as before, or
    it holds a new estimate priced by the charger's rule; no booking is
    created and no handler throws. *)
Lemma timeSelectionEffect_outcome w :
  exists t,
    bookingsCreated t = []
    /\ (timeSelectionEffect w = (Normal tt, w, t)
        \/ exists e,
             timeSelectionEffect w
             = (Normal tt,
                {| render := with_priceEstimate (Some e) (render w);
                   browser := browser w |}, t)
             /\ pricedBy (charger (render w)) e).
Proof.
  unfold timeSelectionEffect, bind, getRender.
  destruct (Charger.pricing (charger (render w))) as [p|];
    [|exists []; split; [reflexivity | now left]].
  destruct (negb (blank (startTime (render w)))
            && negb (blank (endTime (render w))));
    [|exists []; split; [reflexivity | now left]].
  destruct (calculatePriceEstimate_outcome w)
    as [-> | [[m ->] | (e & -> & He)]].
  - exists []. split; [reflexivity | now left].
  - exists [ToastError m]. split; [reflexivity | now left].
  - exists [SetPriceEstimate e]. split; [reflexivity|]. right. now exists e.
Qed.

Lemma settled_render c u w w' :
  Settled c u w ->
  charger (render w') = charger (render w) ->
  user (render w') = user (render w) ->
  currentStep (render w') = currentStep (render w) ->
  isLoading (render w') = isLoading (render w) ->
  priceEstimate (render w') = priceEstimate (render w) ->
  Settled c u w'.
Proof.
  intros [Hc Hu Hstep Hspin Hest] Ec Eu Es El Ee.
  constructor; try congruence.
  intros e He. apply Hest. congruence.
Qed.

(** After a state update that keeps charger, user, step and spinner, the
    time-selection effect keeps the flow settled. *)
Lemma timeSelectionEffect_settled c u w v :
  Settled c u w ->
  charger (render v) = charger (render w) ->
  user (render v) = user (render w) ->
  currentStep (render v) = currentStep (render w) ->
  isLoading (render v) = isLoading (render w) ->
  priceEstimate (render v) = priceEstimate (render w) ->
  exists t,
    bookingsCreated t = []
    /\ exists v',
         timeSelectionEffect v = (Normal tt, v', t) /\ Settled c u v'.
Proof.
  intros Hw Ec Eu Es El Ee.
  pose proof (settled_render c u w v Hw Ec Eu Es El Ee) as Hv.
  destruct (timeSelectionEffect_outcome v) as (t & Ht & [Hrun | (e & Hrun & He)]);
    exists t; (split; [exact Ht|]); eexists; (split; [exact Hrun|]).
  - exact Hv.
  - destruct Hv as [Hc Hu Hstep Hspin Hest].
    constructor; cbn; try assumption.
    intros e' He'. injection He' as <-. now rewrite <- Hc.
Qed.

(** Each action ends normally, creates bookings only through Pay, and keeps
    the flow settled. *)
Lemma perform_settled c u a w :
  Settled c u w ->
  exists w' t,
    perform a w = (Normal tt, w', t)
    /\ Settled c u w'
    /\ (forall b, In b (bookingsCreated t) ->
        a = Pay /\ In b (bookingsCreated (effects submitBooking w))).
Proof.
  intros Hw.
  destruct a as [date | value | value | v | value | | | | ms]; cbn [perform].
  - (* PickDate *)
    unfold changeSelectedDate, selectedDateEffect, bind, updateRender, getRender.
    cbn [render with_selectedDate selectedDate].
    match goal with
    | |- context [generateTimeSlots ?d ?w1] =>
        destruct (generateTimeSlots_run d w1) as (slots & -> & _)
    end.
    do 2 eexists. split; [reflexivity|]. split.
    + destruct Hw as [Hc Hu Hstep Hspin Hest]. now constructor.
    + cbn. contradiction.
  - (* PickStart *)
    unfold changeStartTime, bind, updateRender.
    destruct (timeSelectionEffect_settled c u w
                {| render := with_startTime value (render w);
                   browser := browser w |} Hw)
      as (t & Ht & v' & Hrun & Hv'); try reflexivity.
    rewrite Hrun. do 2 eexists. split; [reflexivity|]. split; [exact Hv'|].
    cbn. rewrite Ht. contradiction.
  - (* PickEnd *)
    unfold changeEndTime, bind, updateRender.
    destruct (timeSelectionEffect_settled c u w
                {| render := with_endTime value (render w);
                   browser := browser w |} Hw)
      as (t & Ht & v' & Hrun & Hv'); try reflexivity.
    rewrite Hrun. do 2 eexists. split; [reflexivity|]. split; [exact Hv'|].
    cbn. rewrite Ht. contradiction.
  - (* PickVehicle *)
    unfold changeVehicleInfo, bind, updateRender.
    destruct (timeSelectionEffect_settled c u w
                {| render := with_vehicleInfo v (render w);
                   browser := browser w |} Hw)
      as (t & Ht & v' & Hrun & Hv'); try reflexivity.
    rewrite Hrun. do 2 eexists. split; [reflexivity|]. split; [exact Hv'|].
    cbn. rewrite Ht. contradiction.
  - (* TypeInstructions *)
    unfold changeSpecialInstructions, updateRender.
    do 2 eexists. split; [reflexivity|]. split.
    + destruct Hw as [Hc Hu Hstep Hspin Hest]. now constructor.
    + cbn. contradiction.
  - (* Next *)
    pose proof (handleNext_step w) as Hstep'.
    unfold after in Hstep'.
    assert (Hrest :
              exists w' t,
                handleNext w = (Normal tt, w', t)
                /\ bookingsCreated t = []
                /\ charger (render w') = charger (render w)
                /\ user (render w') = user (render w)
                /\ isLoading (render w') = isLoading (render w)
                /\ priceEstimate (render w') = priceEstimate (render w)).
    { unfold handleNext, bind, getRender.
      destruct (Nat.eqb (currentStep (render w)) 0);
        [destruct (validateTimeSelection_cases w) as [-> | [m ->]]|];
        destruct (Nat.eqb (currentStep (render w)) 1
                  && blank (type (vehicleInfo (render w))));
        destruct (Nat.ltb (currentStep (render w)) (steps_length - 1));
        do 2 eexists; (split; [reflexivity|]); repeat split. }
    destruct Hrest as (w' & t & Hrun & Ht & Ec & Eu & El & Ee).
    rewrite Hrun in Hstep'. cbn [fst snd] in Hstep'.
    exists w', t. split; [exact Hrun|]. split.
    + destruct Hw as [Hc Hu Hstep Hspin Hest].
      constructor; try congruence.
      * destruct Hstep' as [-> | [Hlt ->]]; lia.
      * intros e He. apply Hest. congruence.
    + rewrite Ht. contradiction.
  - (* Back *)
    pose proof (handleBack_step w) as Hstep'.
    unfold after in Hstep'.
    assert (Hrest :
              exists w' t,
                handleBack w = (Normal tt, w', t)
                /\ bookingsCreated t = []
                /\ charger (render w') = charger (render w)
                /\ user (render w') = user (render w)
                /\ isLoading (render w') = isLoading (render w)
                /\ priceEstimate (render w') = priceEstimate (render w)).
    { unfold handleBack, bind, getRender.
      destruct (Nat.ltb 0 (currentStep (render w)));
        do 2 eexists; (split; [reflexivity|]); repeat split. }
    destruct Hrest as (w' & t & Hrun & Ht & Ec & Eu & El & Ee).
    rewrite Hrun in Hstep'. cbn [fst snd] in Hstep'.
    exists w', t. split; [exact Hrun|]. split.
    + destruct Hw as [Hc Hu Hstep Hspin Hest].
      constructor; try congruence.
      * rewrite Hstep'. lia.
      * intros e He. apply Hest. congruence.
    + rewrite Ht. contradiction.
  - (* Pay *)
    destruct Hw as [Hc Hu Hstep Hspin Hest].
    destruct (submitBooking_outcomes w) as [m Hrun | Hnone Hrun | Hrun | b Hrun];
      rewrite Hrun; do 2 eexists; (split; [reflexivity|]); split;
      try (constructor; cbn; assumption || lia);
      try (cbn; contradiction).
    intros b' Hin. split; [reflexivity|].
    unfold effects. now rewrite Hrun.
  - (* Wait *)
    unfold timeout. do 2 eexists. split; [reflexivity|]. split.
    + destruct Hw as [Hc Hu Hstep Hspin Hest]. now constructor.
    + cbn. contradiction.
Qed.

Lemma selectedDateEffect_run w :
  exists slots,
    selectedDateEffect w
    = (Normal tt,
       {| render := with_availableSlots slots (render w);
          browser := browser (drawn 32 w) |},
       [SetAvailableSlots slots]).
Proof.
  destruct (generateTimeSlots_run (selectedDate (render w)) w)
    as (slots & Hrun & _).
  exists slots. unfold selectedDateEffect, bind, getRender.
  cbv beta iota. rewrite Hrun. reflexivity.
Qed.

Lemma opened_settled c u b : Settled c u (opened c u b).
Proof.
  unfold opened, after, bind.
  destruct (selectedDateEffect_run (mount c u b)) as (slots & ->).
  match goal with
  | |- context [timeSelectionEffect ?v] =>
      assert (Hv : Settled c u v)
        by (constructor; cbn; try reflexivity; [lia | discriminate]);
      destruct (timeSelectionEffect_settled c u v v Hv)
        as (t & _ & v' & -> & Hv'); try reflexivity
  end.
  exact Hv'.
Qed.

(** Whatever is done in whatever order, the actions end normally, the flow
    stays settled, and every booking created was created by a Pay in a
    settled state. *)
Lemma performAll_settled c u actions : forall w,
  Settled c u w ->
  exists w' t,
    performAll actions w = (Normal tt, w', t)
    /\ Settled c u w'
    /\ forall b, In b (bookingsCreated t) ->
         exists v, Settled c u v
                   /\ In b (bookingsCreated (effects submitBooking v)).
Proof.
  induction actions as [|a rest IH]; intros w Hw.
  - exists w, []. split; [reflexivity|]. split; [exact Hw|].
    cbn. contradiction.
  - destruct (perform_settled c u a w Hw) as (w1 & t1 & Hrun1 & Hw1 & Hb1).
    destruct (IH w1 Hw1) as (w2 & t2 & Hrun2 & Hw2 & Hb2).
    exists w2, (t1 ++ t2). cbn [performAll]. unfold bind.
    rewrite Hrun1, Hrun2. split; [reflexivity|]. split; [exact Hw2|].
    intros b Hin.
    assert (Hsplit : In b (bookingsCreated t1) \/ In b (bookingsCreated t2)).
    { clear - Hin. induction t1 as [|x t1 IHt]; [now right|].
      destruct x; cbn in *; try (now apply IHt).
      destruct Hin as [-> | Hin]; [left; now left|].
      destruct (IHt Hin); [left; now right | now right]. }
    destruct Hsplit as [H1 | H2].
    + exists w. split; [exact Hw|]. now apply Hb1.
    + now apply Hb2.
Qed.

(* ===================================================================== *)
(** ** The flow under the event loop *)
(* ===================================================================== *)

Lemma bookingsCreated_app t1 t2 :
  bookingsCreated (t1 ++ t2) = bookingsCreated t1 ++ bookingsCreated t2.
Proof.
  induction t1 as [|x t1 IH]; [reflexivity|].
  destruct x; cbn; now rewrite ?IH.
Qed.

(** A state update that keeps charger, user, step, spinner and estimate,
    followed by the time-selection effect. *)
Lemma update_then_effect (f : Render -> Render) w :
  charger (f (render w)) = charger (render w) ->
  user (f (render w)) = user (render w) ->
  currentStep (f (render w)) = currentStep (render w) ->
  isLoading (f (render w)) = isLoading (render w) ->
  priceEstimate (f (render w)) = priceEstimate (render w) ->
  exists w' t,
    (updateRender f ;; timeSelectionEffect) w = (Normal tt, w', t)
    /\ bookingsCreated t = []
    /\ charger (render w') = charger (render w)
    /\ user (render w') = user (render w)
    /\ isLoading (render w') = isLoading (render w)
    /\ currentStep (render w') = currentStep (render w)
    /\ forall e, priceEstimate (render w') = Some e ->
         priceEstimate (render w) = Some e \/ pricedBy (charger (render w)) e.
Proof.
  intros Ec Eu Es El Ee.
  unfold bind, updateRender. cbv beta iota.
  destruct (timeSelectionEffect_outcome
              {| render := f (render w); browser := browser w |})
    as (t & Ht & [Hrun | (e & Hrun & He)]);
    rewrite Hrun; do 2 eexists; (split; [reflexivity|]);
    cbn [render browser app charger user isLoading currentStep priceEstimate
         with_priceEstimate] in *;
    repeat split; try assumption.
  - intros e He. left. congruence.
  - intros e' He'. right. injection He' as <-. now rewrite <- Ec.
Qed.

(** Every control but Pay ends normally, creates no booking, and keeps
    charger, user and spinner; the step stays within the four steps, and an
    estimate held afterwards was held before or is priced by the charger's
    rule. *)
Lemma perform_control a w :
  a <> Pay ->
  exists w' t,
    perform a w = (Normal tt, w', t)
    /\ bookingsCreated t = []
    /\ charger (render w') = charger (render w)
    /\ user (render w') = user (render w)
    /\ isLoading (render w') = isLoading (render w)
    /\ ((currentStep (render w) <= 3)%nat -> (currentStep (render w') <= 3)%nat)
    /\ forall e, priceEstimate (render w') = Some e ->
         priceEstimate (render w) = Some e \/ pricedBy (charger (render w)) e.
Proof.
  intros Hpay.
  destruct a as [date | value | value | v | value | | | | ms]; cbn [perform];
    try contradiction.
  - (* PickDate *)
    unfold changeSelectedDate, selectedDateEffect, bind, updateRender, getRender.
    cbn [render with_selectedDate selectedDate].
    match goal with
    | |- context [generateTimeSlots ?d ?w1] =>
        destruct (generateTimeSlots_run d w1) as (slots & -> & _)
    end.
    do 2 eexists. split; [reflexivity|]. repeat split; auto.
  - (* PickStart *)
    unfold changeStartTime.
    destruct (update_then_effect (with_startTime value) w)
      as (w' & t & Hrun & Ht & Ec & Eu & El & Es & Ee); try reflexivity.
    exists w', t. repeat split; try assumption. now rewrite Es.
  - (* PickEnd *)
    unfold changeEndTime.
    destruct (update_then_effect (with_endTime value) w)
      as (w' & t & Hrun & Ht & Ec & Eu & El & Es & Ee); try reflexivity.
    exists w', t. repeat split; try assumption. now rewrite Es.
  - (* PickVehicle *)
    unfold changeVehicleInfo.
    destruct (update_then_effect (with_vehicleInfo v) w)
      as (w' & t & Hrun & Ht & Ec & Eu & El & Es & Ee); try reflexivity.
    exists w', t. repeat split; try assumption. now rewrite Es.
  - (* TypeInstructions *)
    unfold changeSpecialInstructions, updateRender.
    do 2 eexists. split; [reflexivity|]. repeat split; auto.
  - (* Next *)
    pose proof (handleNext_step w) as Hstep. unfold after in Hstep.
    assert (Hrest :
              exists w' t,
                handleNext w = (Normal tt, w', t)
                /\ bookingsCreated t = []
                /\ charger (render w') = charger (render w)
                /\ user (render w') = user (render w)
                /\ isLoading (render w') = isLoading (render w)
                /\ priceEstimate (render w') = priceEstimate (render w)).
    { unfold handleNext, bind, getRender.
      destruct (Nat.eqb (currentStep (render w)) 0);
        [destruct (validateTimeSelection_cases w) as [-> | [m ->]]|];
        destruct (Nat.eqb (currentStep (render w)) 1
                  && blank (type (vehicleInfo (render w))));
        destruct (Nat.ltb (currentStep (render w)) (steps_length - 1));
        do 2 eexists; (split; [reflexivity|]); repeat split. }
    destruct Hrest as (w' & t & Hrun & Ht & Ec & Eu & El & Ee).
    rewrite Hrun in Hstep. cbn [fst snd] in Hstep.
    exists w', t. repeat split; try assumption.
    + intros Hle. destruct Hstep as [-> | [Hlt ->]]; lia.
    + intros e He. left. congruence.
  - (* Back *)
    pose proof (handleBack_step w) as Hstep. unfold after in Hstep.
    assert (Hrest :
              exists w' t,
                handleBack w = (Normal tt, w', t)
                /\ bookingsCreated t = []
                /\ charger (render w') = charger (render w)
                /\ user (render w') = user (render w)
                /\ isLoading (render w') = isLoading (render w)
                /\ priceEstimate (render w') = priceEstimate (render w)).
    { unfold handleBack, bind, getRender.
      destruct (Nat.ltb 0 (currentStep (render w)));
        do 2 eexists; (split; [reflexivity|]); repeat split. }
    destruct Hrest as (w' & t & Hrun & Ht & Ec & Eu & El & Ee).
    rewrite Hrun in Hstep. cbn [fst snd] in Hstep.
    exists w', t. repeat split; try assumption.
    + intros Hle. rewrite Hstep. lia.
    + intros e He. left. congruence.
  - (* Wait *)
    unfold timeout. do 2 eexists. split; [reflexivity|]. repeat split; auto.
Qed.

(** A turn that ends normally, creates no booking and keeps charger and
    spinner keeps the flow sound, whether it is still mounted or not. *)
Lemma turn_sound {A} c known (m : M A) x a w' t :
  Sound c known x ->
  m (shown x) = (Normal a, w', t) ->
  bookingsCreated t = [] ->
  charger (render w') = charger (render (shown x)) ->
  (forall usr, user (render w') = Some usr ->
     user (render (shown x)) = Some usr \/ known usr) ->
  isLoading (render w') = isLoading (render (shown x)) ->
  (currentStep (render w') <= 3)%nat ->
  (forall e, priceEstimate (render w') = Some e ->
     priceEstimate (render (shown x)) = Some e \/ pricedBy c e) ->
  Sound c known (snd (turn m x))
  /\ bookingsCreated (emitted (snd (turn m x))) = bookingsCreated (emitted x)
  /\ awaiting (snd (turn m x)) = awaiting x
  /\ alive (snd (turn m x)) = alive x
  /\ fst (turn m x) = Normal a.
Proof.
  intros [Hf Hc Hstep Hu Hest Hone Hspin Hidle Hk Hbk] Hrun Ht Ec Eu El Es Ee.
  unfold turn. rewrite Hrun. cbn [fst snd emitted awaiting alive].
  rewrite bookingsCreated_app, Ht.
  split; [|rewrite ?app_nil_r; now repeat split].
  destruct (alive x) eqn:Halive; constructor;
    cbn [shown alive awaiting emitted faults render browser];
    rewrite ?app_nil_r, ?bookingsCreated_app, ?Ht, ?app_nil_r;
    try assumption; try congruence.
  - intros usr Husr. destruct (Eu usr Husr); auto.
  - intros e He. destruct (Ee e He) as [H | H]; auto.
  - intros Hne. rewrite El. auto.
  - intros _ Hl. apply Hidle; [reflexivity | congruence].
Qed.

(** With the spinner off no call is pending. *)
Lemma sound_quiet c known x :
  Sound c known x ->
  isLoading (render (shown x)) = false ->
  awaiting x = [].
Proof.
  intros Hx Hoff.
  destruct (awaiting x) as [|k rest] eqn:Hq; [reflexivity|].
  pose proof (sound_spinner c known x Hx) as Hspin.
  rewrite Hq in Hspin. rewrite Hspin in Hoff by discriminate.
  discriminate Hoff.
Qed.

(** A control other than Pay keeps the flow sound and neither creates a
    booking nor starts or ends a call. *)
Lemma control_sound c known a x :
  a <> Pay ->
  Sound c known x ->
  Sound c known (snd (turn (perform a) x))
  /\ bookingsCreated (emitted (snd (turn (perform a) x)))
     = bookingsCreated (emitted x)
  /\ awaiting (snd (turn (perform a) x)) = awaiting x.
Proof.
  intros Ha Hx.
  destruct (perform_control a (shown x) Ha)
    as (w' & t & Hrun & Ht & Ec & Eu & El & Es & Ee).
  destruct (turn_sound c known (perform a) x tt w' t Hx Hrun Ht Ec)
    as (Hs & Hb & Hq & _); try assumption.
  - intros usr Husr. left. congruence.
  - apply Es. exact (sound_step c known x Hx).
  - intros e He. destruct (Ee e He) as [H | H]; [now left | right].
    now rewrite <- (sound_charger c known x Hx).
  - split; [exact Hs | split; assumption].
Qed.

(** A press on Pay keeps the flow sound, and at most starts one call. *)
Lemma pay_sound c known x :
  Sound c known x ->
  Sound c known (handle (Uses Pay) x)
  /\ (List.length (bookingsCreated (emitted (handle (Uses Pay) x)))
      + List.length (awaiting (handle (Uses Pay) x))
      <= List.length (bookingsCreated (emitted x)) + List.length (awaiting x) + 1)%nat.
Proof.
  intros Hx. cbn [handle].
  destruct (alive x) eqn:Halive; cbn [andb]; [|split; [exact Hx | lia]].
  destruct (isLoading (render (shown x))) eqn:Hoff; cbn [negb];
    [split; [exact Hx | lia]|].
  pose proof (sound_quiet c known x Hx Hoff) as Hnone.
  destruct (submitBooking_begin_cases (shown x))
    as [(t & Hrun & Ht)
       | [Hrun | (k & pe & S & E & Hrun & Hk & Hpe & HS & HE & Hlt)]].
  - destruct (turn_sound c known submitBooking_begin x None (shown x) t
                Hx Hrun Ht eq_refl)
      as (Hs & Hb & Hq & _ & Hfst); auto.
    { exact (sound_step c known x Hx). }
    destruct (turn submitBooking_begin x) as [r y].
    cbn [fst snd] in *. subst r. split; [exact Hs|]. rewrite Hb, Hq. lia.
  - destruct (turn_sound c known submitBooking_begin x None _ _
                Hx Hrun eq_refl eq_refl)
      as (Hs & Hb & Hq & _ & Hfst); auto.
    { exact (sound_step c known x Hx). }
    destruct (turn submitBooking_begin x) as [r y].
    cbn [fst snd] in *. subst r. split; [exact Hs|]. rewrite Hb, Hq. lia.
  - unfold turn. rewrite Hrun, Halive.
    cbn [with_awaiting shown alive awaiting emitted faults].
    destruct Hx as [Hf Hc Hstep Hu Hest Hone Hspin Hidle Hks Hbk].
    rewrite Hnone. cbn [app].
    split.
    + constructor; unfold with_awaiting;
        cbn [shown alive awaiting emitted faults render browser
             with_isLoading charger currentStep user priceEstimate isLoading];
        try assumption.
      * now rewrite app_nil_r.
      * cbn. lia.
      * intros _. reflexivity.
      * intros _ _. discriminate.
      * intros k' [<- | []]. unfold Launched. rewrite Hk.
        split; [exact Hc|]. split; [exact Hu|].
        split; [exists pe; split; [exact Hpe | now apply Hest]|].
        now exists S, E.
      * rewrite bookingsCreated_app. cbn [bookingsCreated].
        now rewrite app_nil_r.
    + unfold with_awaiting. cbn [awaiting emitted].
      rewrite bookingsCreated_app. cbn [bookingsCreated].
      rewrite app_nil_r. cbn [List.length]. lia.
Qed.

(** The timer of a suspended call keeps the flow sound: the call ends and
    hands over one booking. *)
Lemma timer_sound c known x :
  Sound c known x ->
  Sound c known (handle TimerFired x)
  /\ (List.length (bookingsCreated (emitted (handle TimerFired x)))
      + List.length (awaiting (handle TimerFired x))
      <= List.length (bookingsCreated (emitted x)) + List.length (awaiting x))%nat.
Proof.
  intros Hx. cbn [handle].
  destruct (awaiting x) as [|k rest] eqn:Hq;
    [split; [exact Hx | rewrite ?Hq; cbn; lia]|].
  destruct Hx as [Hf Hc Hstep Hu Hest Hone Hspin Hidle Hks Hbk].
  rewrite Hq in Hone, Hks.
  destruct rest as [|k2 rest]; [|cbn in Hone; lia].
  destruct (Hks k (or_introl eq_refl))
    as (Hkc & Hku & (pe & Hpe & Hpriced) & S & E & HS & HE & Hlt).
  unfold turn. cbn [with_awaiting shown alive awaiting emitted faults].
  destruct (submitBooking_resume_fields k (shown x) S E pe HS HE Hpe)
    as (b & Hresume & _ & Hid & Hrenter & Hst & Hen & Hstatus & _ & _ & Htotal
        & _ & _ & _ & _ & _ & _ & Hcharger).
  rewrite Hresume. cbn [snd shown alive awaiting emitted faults].
  assert (Hissued : Issued c known b).
  { unfold Issued. rewrite Hcharger, Hid, Hrenter, Hstatus, Hst, Hen, Htotal, Hkc.
    repeat split; try assumption.
    - unfold renterId. destruct (user (closure k)) as [usr|] eqn:Husr.
      + right. exists usr. split; [now apply Hku | reflexivity].
      + now left.
    - now exists pe. }
  split.
  - constructor; cbn [shown alive awaiting emitted faults].
    + now rewrite app_nil_r.
    + now destruct (alive x).
    + destruct (alive x); cbn; [lia | assumption].
    + now destruct (alive x).
    + now destruct (alive x).
    + cbn. lia.
    + intros H. now contradiction H.
    + intros Halive. rewrite Halive. cbn. discriminate.
    + intros k' [].
    + intros bk Hin. rewrite bookingsCreated_app in Hin.
      apply in_app_or in Hin. destruct Hin as [Hin | Hin]; [now apply Hbk|].
      cbn in Hin. destruct Hin as [<- | []]. exact Hissued.
  - rewrite bookingsCreated_app, length_app. cbn. lia.
Qed.

(** Every event keeps the flow sound; only a press on Pay can add to the
    bookings made and calls pending. *)
Lemma handle_sound c known e x :
  Sound c known x ->
  (forall usr, e = AuthState (Some usr) -> known usr) ->
  Sound c known (handle e x)
  /\ (List.length (bookingsCreated (emitted (handle e x)))
      + List.length (awaiting (handle e x))
      <= List.length (bookingsCreated (emitted x)) + List.length (awaiting x)
         + pays [e])%nat.
Proof.
  intros Hx Hknown.
  destruct e as [a | u | |].
  - destruct a as [date | value | value | v | value | | | | ms].
    1-7: cbn [handle pays];
         (destruct (alive x) eqn:Halive; [|split; [exact Hx | lia]]);
         match goal with
         | |- Sound _ _ (snd (turn (perform ?a) _)) /\ _ =>
             destruct (control_sound c known a x ltac:(discriminate) Hx)
               as (Hs & Hb & Hq)
         end;
         (split; [exact Hs | rewrite Hb, Hq; lia]).
    + exact (pay_sound c known x Hx).
    + cbn [handle pays].
      destruct (control_sound c known (Wait ms) x ltac:(discriminate) Hx)
        as (Hs & Hb & Hq).
      split; [exact Hs|]. cbn [perform] in Hb, Hq. rewrite Hb, Hq. lia.
  - cbn [handle pays].
    destruct (alive x) eqn:Halive; [|split; [exact Hx | lia]].
    destruct (turn_sound c known (updateRender (with_user u)) x tt
                {| render := with_user u (render (shown x));
                   browser := browser (shown x) |} []
                Hx eq_refl eq_refl eq_refl)
      as (Hs & Hb & Hq & _); try reflexivity.
    + intros usr Husr. right. apply Hknown. cbn in Husr. now subst u.
    + exact (sound_step c known x Hx).
    + intros e He. now left.
    + split; [exact Hs|]. rewrite Hb, Hq. lia.
  - destruct (timer_sound c known x Hx) as [Hs Hn].
    split; [exact Hs|]. cbn [pays]. lia.
  - cbn [handle pays]. split; [|cbn; lia].
    destruct Hx as [Hf Hc Hstep Hu Hest Hone Hspin Hidle Hks Hbk].
    constructor; cbn [unmount shown alive awaiting emitted faults];
      try assumption.
    discriminate.
Qed.

Lemma pays_app es1 es2 : pays (es1 ++ es2) = (pays es1 + pays es2)%nat.
Proof.
  induction es1 as [|e rest IH]; [reflexivity|].
  destruct e as [[]| | |]; cbn; now rewrite ?IH.
Qed.

(** Every sequence of events keeps the flow sound, and the bookings made
    and calls pending grow by no more than the presses on Pay. *)
Lemma handleAll_sound c known events : forall x,
  Sound c known x ->
  (forall usr, In (AuthState (Some usr)) events -> known usr) ->
  Sound c known (handleAll events x)
  /\ (List.length (bookingsCreated (emitted (handleAll events x)))
      + List.length (awaiting (handleAll events x))
      <= List.length (bookingsCreated (emitted x)) + List.length (awaiting x)
         + pays events)%nat.
Proof.
  induction events as [|e rest IH]; intros x Hx Hknown.
  - split; [exact Hx | cbn; lia].
  - destruct (handle_sound c known e x Hx) as [Hs Hn].
    { intros usr ->. apply Hknown. now left. }
    destruct (IH (handle e x) Hs) as [Hs' Hn'].
    { intros usr Hin. apply Hknown. now right. }
    cbn [handleAll]. split; [exact Hs'|].
    change (e :: rest) with ([e] ++ rest). rewrite pays_app. lia.
Qed.

(** The flow as first mounted is sound, with no booking and no call. *)
Lemma mounted_sound c known b :
  Sound c known (mounted c b)
  /\ bookingsCreated (emitted (mounted c b)) = []
  /\ awaiting (mounted c b) = [].
Proof.
  unfold mounted.
  set (x0 := {| shown := mount c None b; alive := true; awaiting := [];
                emitted := []; faults := [] |}).
  assert (Hx0 : Sound c known x0).
  { constructor; cbn; try reflexivity; try discriminate; try lia;
      try contradiction. }
  destruct (selectedDateEffect_run (mount c None b)) as (slots & Hdate).
  destruct (timeSelectionEffect_outcome
              {| render := with_availableSlots slots (render (mount c None b));
                 browser := browser (drawn 32 (mount c None b)) |})
    as (t & Ht & Hrun).
  assert (Hboth :
            exists w',
              (selectedDateEffect ;; timeSelectionEffect) (shown x0)
              = (Normal tt, w', SetAvailableSlots slots :: t)
              /\ charger (render w') = c
              /\ user (render w') = None
              /\ isLoading (render w') = false
              /\ currentStep (render w') = 0%nat
              /\ forall e, priceEstimate (render w') = Some e -> pricedBy c e).
  { unfold bind. cbn [shown x0]. rewrite Hdate.
    destruct Hrun as [Hrun | (e & Hrun & He)]; rewrite Hrun;
      eexists; (split; [reflexivity|]); cbn; repeat split;
      try discriminate.
    intros e' He'. injection He' as <-. exact He. }
  destruct Hboth as (w' & Hrun' & Ec & Eu & El & Es & Ee).
  destruct (turn_sound c known (selectedDateEffect ;; timeSelectionEffect)
              x0 tt w' (SetAvailableSlots slots :: t) Hx0 Hrun')
    as (Hs & Hb & Hq & _); try assumption.
  - intros usr Husr. congruence.
  - rewrite Es. lia.
  - intros e He. right. now apply Ee.
  - split; [exact Hs|]. split; [|exact Hq].
    rewrite Hb. reflexivity.
Qed.

(** X13. However the controls are used and in whatever order, with the
    hook's user changing, the timer of a pending call firing and the
    component being unmounted at any moment in between: no handler lets an
    error escape; the flow keeps its charger and a step between 0 and 3; at
    most one call of [submitBooking] is pending, the spinner is on while one
    is and, as long as the component is mounted, only then; the bookings
    made and the calls pending are no more than the presses on Pay; and any
    estimate held was computed by the formulas of [calculatePriceEstimate]
    under the charger's pricing rule for a duration that passed both
    session tests. *)
Theorem flow_invariants c b events :
  let x := handleAll events (mounted c b) in
  faults x = []
  /\ charger (render (shown x)) = c
  /\ (currentStep (render (shown x)) <= 3)%nat
  /\ (List.length (awaiting x) <= 1)%nat
  /\ (awaiting x <> [] -> isLoading (render (shown x)) = true)
  /\ (alive x = true -> isLoading (render (shown x)) = true ->
      awaiting x <> [])
  /\ (List.length (bookingsCreated (emitted x)) + List.length (awaiting x)
      <= pays events)%nat
  /\ forall e, priceEstimate (render (shown x)) = Some e -> pricedBy c e.
Proof.
  cbv zeta.
  destruct (mounted_sound c (fun _ => True) b) as (Hstart & Hnone & Hidle).
  destruct (handleAll_sound c (fun _ => True) events (mounted c b) Hstart)
    as [[Hf Hc Hstep Hu Hest Hone Hspin Hidle' Hks Hbk] Hcount]; [easy|].
  rewrite Hnone, Hidle in Hcount. cbn in Hcount.
  repeat split; assumption.
Qed.

(** X14. Whatever happened before, every booking the flow hands over is for
    the charger it was opened with, is pending or confirmed by the
    charger's auto-accept flag, ends after it starts, and is charged the
    total of an estimate computed under the charger's pricing rule:
    subtotal plus booking fee plus 15% platform fee.  Its renter id is 0 or
    comes from a user that the flow's own auth state held at some moment. *)
Theorem every_booking_priced_by_rule c b events bk :
  In bk (bookingsCreated (emitted (handleAll events (mounted c b)))) ->
  Booking.charger bk = c
  /\ Booking.charger_id bk = Charger.id c
  /\ (Booking.renter_id bk = 0%float
      \/ exists usr,
           In (AuthState (Some usr)) events
           /\ Booking.renter_id bk = or_else (User.id usr) 0%float)
  /\ Booking.status bk
     = (if Charger.auto_accept_bookings c then confirmed else pending)
  /\ Booking.start_time bk < Booking.end_time bk
  /\ exists e,
       pricedBy c e
       /\ Booking.total_amount bk = PriceEstimate.total e
       /\ PriceEstimate.total e
          = (PriceEstimate.subtotal e + PriceEstimate.booking_fee e
             + PriceEstimate.subtotal e * 0.15)%float.
Proof.
  intros Hin.
  set (known := fun usr => In (AuthState (Some usr)) events).
  destruct (mounted_sound c known b) as (Hstart & _).
  destruct (handleAll_sound c known events (mounted c b) Hstart)
    as [Hsound _]; [easy|].
  destruct (sound_emitted c known _ Hsound bk Hin)
    as (Hcharger & Hid & Hrenter & Hstatus & Horder & e & Hpriced & Htotal).
  repeat split; try assumption.
  exists e. split; [exact Hpriced|]. split; [exact Htotal|].
  destruct Hpriced as (p & _ & _ & _ & _ & _ & Hfee & _ & Htot & _).
  now rewrite Htot, Hfee.
Qed.

Lemma every_booking_priced_by_rule_witness :
  exists bk,
    In bk (bookingsCreated
             (emitted (handleAll Visit.interrupted
                         (mounted Sample.R1 Sample.morning))))
    /\ Booking.charger bk = Sample.R1
    /\ Booking.start_time bk < Booking.end_time bk.
Proof.
  assert (H : exists bk,
             bookingsCreated
               (emitted (handleAll Visit.interrupted
                           (mounted Sample.R1 Sample.morning)))
             = [bk])
    by (vm_compute; eexists; reflexivity).
  destruct H as [bk Hbk].
  assert (Hin : In bk (bookingsCreated
                         (emitted (handleAll Visit.interrupted
                                     (mounted Sample.R1 Sample.morning)))))
    by (rewrite Hbk; now left).
  destruct (every_booking_priced_by_rule
              Sample.R1 Sample.morning Visit.interrupted bk Hin)
    as (Hcharger & _ & _ & _ & Horder & _).
  exists bk. exact (conj Hin (conj Hcharger Horder)).
Defined.

(** X15. A charger listed without a pricing rule can never be booked
    through the flow: no estimate is ever computed for it, so whatever the
    user does, no booking is created. *)
Theorem unpriced_charger_never_booked c u b actions :
  Charger.pricing c = None ->
  bookingsCreated (effects (performAll actions) (opened c u b)) = []
  /\ priceEstimate (render (after (performAll actions) (opened c u b))) = None.
Proof.
  intros Hnone.
  destruct (performAll_settled c u actions (opened c u b) (opened_settled c u b))
    as (w' & t & Hrun & [Hc Hu Hstep Hspin Hest] & Hbookings).
  unfold effects, after. rewrite Hrun. cbn [fst snd]. split.
  - destruct (bookingsCreated t) as [|bk rest]; [reflexivity|].
    destruct (Hbookings bk (or_introl eq_refl))
      as (v & [Hvc _ _ _ Hvest] & Hv).
    destruct (submitBooking_created v bk Hv)
      as (s & e & pe & _ & _ & _ & _ & Hpe & _).
    destruct (Hvest pe Hpe) as (p & Hp & _). congruence.
  - destruct (priceEstimate (render w')) as [e|] eqn:He; [|reflexivity].
    destruct (Hest e eq_refl) as (p & Hp & _). congruence.
Qed.

Lemma unpriced_charger_never_booked_witness :
  bookingsCreated
    (effects (performAll Visit.straight)
       (opened Visit.unpriced (Some Sample.alice) Sample.morning)) = []
  /\ priceEstimate
       (render (after (performAll Visit.straight)
                  (opened Visit.unpriced (Some Sample.alice) Sample.morning)))
     = None.
Proof.
  apply (unpriced_charger_never_booked Visit.unpriced (Some Sample.alice)
           Sample.morning Visit.straight).
  reflexivity.
Defined.

(** X16. The details page opens the booking flow only on a press of Book
    Now with the charger's status 'available' and a user signed in on the
    page, so every booking the flow hands over, whatever happens in it, is
    for a charger whose status was 'available' then; without a user the
    page shows 'Please sign in to book a charger' and goes to /auth, and
    with the button disabled nothing happens.  The page hands the flow its
    charger only, not its user. *)
Theorem bookings_through_details_page c u b :
  (forall x0 events bk,
     bookingFlowFor c u b = Some x0 ->
     In bk (bookingsCreated (emitted (handleAll events x0))) ->
     Charger.current_status (Booking.charger bk) = available
     /\ (exists usr, u = Some usr)
     /\ x0 = mounted c b)
  /\ (ChargerDetailsPage.bookNowDisabled c = false -> u = None ->
      bookingFlowFor c u b = None
      /\ snd (pressBookNow c u)
         = [PageToastError "Please sign in to book a charger";
            Navigate "/auth"])
  /\ (ChargerDetailsPage.bookNowDisabled c = true ->
      bookingFlowFor c u b = None /\ snd (pressBookNow c u) = []).
Proof.
  split; [|split].
  - intros x0 events bk Hopen Hin.
    unfold bookingFlowFor, pressBookNow, handleBookNow in Hopen.
    destruct (ChargerDetailsPage.bookNowDisabled c) eqn:Hdisabled;
      [discriminate Hopen|].
    destruct u as [usr|]; [|discriminate Hopen].
    cbn in Hopen. injection Hopen as <-.
    destruct (mounted_sound c (fun _ => True) b) as (Hstart & _).
    destruct (handleAll_sound c (fun _ => True) events (mounted c b) Hstart)
      as [Hsound _]; [easy|].
    destruct (sound_emitted c _ _ Hsound bk Hin) as (Hcharger & _).
    split; [|split; [now exists usr | reflexivity]].
    rewrite Hcharger. unfold ChargerDetailsPage.bookNowDisabled in Hdisabled.
    now destruct (Charger.current_status c).
  - intros Henabled ->. unfold bookingFlowFor, pressBookNow.
    now rewrite Henabled.
  - intros Hdisabled. unfold bookingFlowFor, pressBookNow.
    now rewrite Hdisabled.
Qed.

Lemma bookings_through_details_page_witness :
  exists bk,
    In bk (bookingsCreated
             (emitted (handleAll Visit.interrupted
                         (mounted Sample.R1 Sample.morning))))
    /\ Charger.current_status (Booking.charger bk) = available.
Proof.
  assert (H : exists bk,
             bookingsCreated
               (emitted (handleAll Visit.interrupted
                           (mounted Sample.R1 Sample.morning)))
             = [bk])
    by (vm_compute; eexists; reflexivity).
  destruct H as [bk Hbk].
  assert (Hin : In bk (bookingsCreated
                         (emitted (handleAll Visit.interrupted
                                     (mounted Sample.R1 Sample.morning)))))
    by (rewrite Hbk; now left).
  destruct (bookings_through_details_page
              Sample.R1 (Some Sample.alice) Sample.morning)
    as (Hbooked & _).
  destruct (Hbooked (mounted Sample.R1 Sample.morning) Visit.interrupted bk
              eq_refl Hin) as (Havailable & _).
  exists bk. exact (conj Hin Havailable).
Defined.

(* ===================================================================== *)
(** ** ChargerCard: the amenity chips *)
(* ===================================================================== *)

(** X17. The card shows at most three amenity chips, each the label of an
    amenity that is enabled, and accounts for every enabled amenity: the
    chips plus the "+N more" note add up to the number of enabled amenities,
    and the note appears exactly when more than three are enabled. *)
Theorem amenity_chips_account (a : ChargerCard.Amenities) :
  (List.length (ChargerCard.chips a) <= 3)%nat
  /\ (forall label, In label (ChargerCard.chips a) ->
        exists key,
          In (key, true) a /\ label = ChargerCard.replaceUnderscore key)
  /\ (List.length (ChargerCard.chips a)
      + match ChargerCard.more a with Some n => n | None => 0 end
      = List.length (ChargerCard.enabled a))%nat
  /\ (forall n, ChargerCard.more a = Some n ->
        (1 <= n)%nat /\ List.length (ChargerCard.chips a) = 3%nat)
  /\ (ChargerCard.more a = None <->
      (List.length (ChargerCard.enabled a) <= 3)%nat).
Proof.
  split; [|split].
  - unfold ChargerCard.chips. rewrite length_map, length_firstn. lia.
  - intros label Hin. unfold ChargerCard.chips in Hin.
    apply in_map_iff in Hin. destruct Hin as ([key on] & <- & Hin).
    assert (Henabled : In (key, on) (ChargerCard.enabled a)).
    { rewrite <- (firstn_skipn 3 (ChargerCard.enabled a)).
      apply in_or_app. now left. }
    unfold ChargerCard.enabled in Henabled.
    apply filter_In in Henabled. destruct Henabled as [Ha Hon].
    cbn in Hon. subst on. now exists key.
  - unfold ChargerCard.chips, ChargerCard.more.
    rewrite length_map, length_firstn.
    set (n := List.length (ChargerCard.enabled a)).
    destruct (Nat.ltb 3 n) eqn:Hlt;
      [apply Nat.ltb_lt in Hlt | apply Nat.ltb_ge in Hlt];
      (split; [lia|]);
      (split; [intros m Hm; inversion Hm; subst; split; lia|]);
      (split; intros H; [discriminate H || lia | reflexivity || lia]).
Qed.

(** X18. The label of an amenity has the length of its key and one
    underscore less (none less if the key has none): only the first
    underscore becomes a space, so a key with several underscores keeps the
    later ones. *)
Theorem replaceUnderscore_first_only (s : string) :
  String.length (ChargerCard.replaceUnderscore s) = String.length s
  /\ ChargerCard.underscores (ChargerCard.replaceUnderscore s)
     = Nat.pred (ChargerCard.underscores s).
Proof.
  induction s as [|c rest [IHlen IHcount]]; [now split|].
  cbn [ChargerCard.replaceUnderscore ChargerCard.underscores].
  destruct (Ascii.eqb c "_") eqn:Hc.
  - split; [reflexivity|]. cbn. reflexivity.
  - cbn [String.length ChargerCard.underscores]. rewrite Hc, IHlen, IHcount.
    split; reflexivity.
Qed.

(* ===================================================================== *)
(** ** SearchPage: filtering *)
(* ===================================================================== *)

Lemma filter_twice {A} (f g : A -> bool) (l : list A) :
  filter f (filter g l) = filter (fun x => g x && f x) l.
Proof.
  induction l as [|x l IH]; [reflexivity|].
  cbn. destruct (g x); cbn; [destruct (f x)|]; now rewrite IH.
Qed.

Lemma filter_all {A} (l : list A) : filter (fun _ => true) l = l.
Proof. induction l as [|x l IH]; [reflexivity|]. cbn. now rewrite IH. Qed.

(** X19. In sample mode the chargers listed are exactly the samples that
    pass every filter that is set (an empty string, [false], 0 and NaN count
    as not set), in the order of the samples; with a map API key configured
    the list is empty. *)
Theorem loadChargers_results filters c :
  (In c (loadChargers false filters) <-> In c sampleChargers /\ passes filters c)
  /\ (exists keep, loadChargers false filters = filter keep sampleChargers)
  /\ loadChargers true filters = [].
Proof.
  split; [|split; [|reflexivity]].
  - unfold loadChargers, applyFilters, passes.
    generalize sampleChargers. intros l.
    destruct (givenString (SearchFilters.connector_type filters)) as [ct|];
      destruct (givenString (SearchFilters.charger_type filters)) as [st|];
      destruct (SearchFilters.available_now filters) as [[|]|];
      destruct (givenNumber (SearchFilters.min_rating filters)) as [mr|];
      cbv zeta; rewrite ?filter_In; cbv beta; rewrite ?String.eqb_eq;
      (split; intros H;
       repeat match goal with E : _ /\ _ |- _ => destruct E end;
       repeat split; try assumption; intros; first [congruence | eauto]).
  - unfold loadChargers, applyFilters.
    generalize sampleChargers. intros l.
    destruct (givenString (SearchFilters.connector_type filters)) as [ct|];
      destruct (givenString (SearchFilters.charger_type filters)) as [st|];
      destruct (SearchFilters.available_now filters) as [[|]|];
      destruct (givenNumber (SearchFilters.min_rating filters)) as [mr|];
      cbv zeta; rewrite ?filter_twice;
      first [ eexists; reflexivity
            | exists (fun _ => true); now rewrite filter_all ].
Qed.

(* ===================================================================== *)
(** ** Permissions and protected routes *)
(* ===================================================================== *)

Lemma role_eqb_eq a b : role_eqb a b = true <-> a = b.
Proof. destruct a, b; cbn; split; congruence. Qed.

(** X20. Without a user every permission check is false; with one,
    [isHost] holds exactly for hosts and admins and [isAdmin] exactly for
    admins, so every admin counts as a host; [hasRole] on an array holds
    exactly when the user's role is in it. *)
Theorem useAuth_permissions (user : option Account.t) :
  (user = None ->
   forall q, UseAuth.hasRole user q = false
             /\ UseAuth.isHost user = false
             /\ UseAuth.isAdmin user = false
             /\ UseAuth.isVerified user = false
             /\ UseAuth.isKYCVerified user = false)
  /\ (forall u, user = Some u ->
        (UseAuth.isHost user = true
         <-> Account.role u = host \/ Account.role u = admin)
        /\ (UseAuth.isAdmin user = true <-> Account.role u = admin)
        /\ (forall roles,
              UseAuth.hasRole user (AnyOf roles) = true
              <-> In (Account.role u) roles))
  /\ (UseAuth.isAdmin user = true -> UseAuth.isHost user = true).
Proof.
  split; [|split].
  - intros -> q. now repeat split.
  - intros u ->. split; [|split].
    + unfold UseAuth.isHost, UseAuth.hasRole. cbn.
      destruct (Account.role u); cbn; split; intros H;
        try discriminate; try reflexivity; auto;
        destruct H; discriminate.
    + unfold UseAuth.isAdmin, UseAuth.hasRole. apply role_eqb_eq.
    + intros roles. unfold UseAuth.hasRole. rewrite existsb_exists. split.
      * intros (r & Hin & Heq). apply role_eqb_eq in Heq. now subst.
      * intros Hin. exists (Account.role u). split; [exact Hin|].
        now apply role_eqb_eq.
  - destruct user as [u|]; [|discriminate].
    unfold UseAuth.isAdmin, UseAuth.isHost, UseAuth.hasRole. cbn.
    now destruct (Account.role u).
Qed.

Lemma useAuth_permissions_witness :
  UseAuth.isHost (Some Guarded.root) = true
  /\ UseAuth.hasRole None (OneRole admin) = false.
Proof.
  destruct (useAuth_permissions (Some Guarded.root)) as (_ & _ & Hadmin).
  destruct (useAuth_permissions None) as (Hnone & _).
  split.
  - apply Hadmin. reflexivity.
  - apply (Hnone eq_refl (OneRole admin)).
Defined.

(** X21. A protected page is rendered (with or without the unverified
    banner) exactly when the hook is not loading, the user is
    authenticated, the queried user has the required role if one is
    required, and has completed KYC if KYC is required. *)
Theorem protected_page_shown props auth :
  ProtectedRoute.showsChildren (ProtectedRoute.view props auth) = true
  <-> Auth.isLoading auth = false
      /\ Auth.isAuthenticated auth = true
      /\ (forall r, ProtectedRoute.requiredRole props = Some r ->
            exists u, Auth.queryUser auth = Some u /\ Account.role u = r)
      /\ (ProtectedRoute.requireKYC props = true ->
          exists u, Auth.queryUser auth = Some u
                    /\ Account.kyc_status u = kyc_verified).
Proof.
  unfold ProtectedRoute.view, UseAuth.hasRole, UseAuth.isKYCVerified.
  destruct (Auth.isLoading auth);
    [cbn; split; [discriminate | intros (H & _); discriminate H]|].
  destruct (Auth.isAuthenticated auth);
    [|cbn; split; [discriminate | intros (_ & H & _); discriminate H]].
  cbn [negb].
  destruct (ProtectedRoute.requiredRole props) as [r|];
    destruct (Auth.queryUser auth) as [q|];
    destruct (ProtectedRoute.requireKYC props);
    cbn [negb andb].
  all: try destruct (role_eqb (Account.role q) r) eqn:Hrole;
    try (apply role_eqb_eq in Hrole);
    try (assert (Hneq : Account.role q <> r)
           by (intros E; apply role_eqb_eq in E; congruence));
    cbn [negb];
    try destruct (Account.kyc_status q) eqn:Hkyc; cbn [negb];
    try destruct (Auth.user auth) as [a|];
    try destruct (Account.is_verified a); cbn.
  all: split;
    [ intros H; try discriminate H; repeat split; intros;
      try discriminate; eauto;
      match goal with E : Some _ = Some _ |- _ => injection E as <- end;
      eauto
    | intros (_ & _ & Hr & Hk); try reflexivity;
      try (destruct (Hr _ eq_refl) as (u & Hu & Eu); congruence);
      try (destruct (Hk eq_refl) as (u & Hu & Eu); congruence) ].
Qed.

(** X22. The required role is matched by equality with the queried user's
    role: a user with any other role sees Access Denied.  In particular an
    admin, who counts as a host for [isHost], is denied on a page that
    requires the host role. *)
Theorem required_role_is_exact props auth u r :
  Auth.isLoading auth = false ->
  Auth.isAuthenticated auth = true ->
  Auth.queryUser auth = Some u ->
  ProtectedRoute.requiredRole props = Some r ->
  Account.role u <> r ->
  (exists offer, ProtectedRoute.view props auth = ProtectedRoute.AccessDenied offer)
  /\ (Account.role u = admin -> r = host ->
      UseAuth.isHost (Auth.queryUser auth) = true).
Proof.
  intros Hload Hauth Hq Hr Hneq.
  unfold ProtectedRoute.view, UseAuth.isHost, UseAuth.hasRole.
  rewrite Hload, Hauth, Hq, Hr. cbn [negb].
  destruct (role_eqb (Account.role u) r) eqn:Hrole;
    [apply role_eqb_eq in Hrole; contradiction|].
  cbn [negb]. split; [eexists; reflexivity|].
  intros Hadmin _. rewrite Hadmin. reflexivity.
Qed.

Lemma required_role_is_exact_witness :
  (exists offer,
     ProtectedRoute.view Guarded.hostsOnly (Guarded.signedIn Guarded.root)
     = ProtectedRoute.AccessDenied offer)
  /\ UseAuth.isHost (Auth.queryUser (Guarded.signedIn Guarded.root)) = true.
Proof.
  destruct (required_role_is_exact Guarded.hostsOnly
              (Guarded.signedIn Guarded.root) Guarded.root host)
    as [Hdenied Hhost]; try reflexivity; try discriminate.
  split; [exact Hdenied | apply Hhost; reflexivity].
Defined.

(** X23. The redirect after login: a visit to a protected page while signed
    out (and not loading) stores its path and query; the next successful
    login navigates there, removes the entry and stores the new tokens,
    leaving every other key as it was, so the login after that goes to "/".
    A visit while loading or signed in stores nothing. *)
Theorem redirect_after_login auth pathname search authData authData' s :
  blank (pathname ++ search)%string = false ->
  (Auth.isAuthenticated auth = false -> Auth.isLoading auth = false ->
   let visited := ProtectedRoute.rememberDestination auth pathname search s in
   snd (login authData visited)
   = [AuthToastSuccess "Welcome back!"; RefetchUser;
      NavigateReplace (pathname ++ search)%string]
   /\ getItem "chargemitra_redirect" (fst (login authData visited)) = None
   /\ getItem "chargemitra_auth" (fst (login authData visited))
      = Some authData
   /\ snd (login authData' (fst (login authData visited)))
      = [AuthToastSuccess "Welcome back!"; RefetchUser; NavigateReplace "/"]
   /\ forall key,
        key <> "chargemitra_redirect" -> key <> "chargemitra_auth" ->
        getItem key (fst (login authData visited)) = getItem key s)
  /\ (Auth.isAuthenticated auth = true \/ Auth.isLoading auth = true ->
      ProtectedRoute.rememberDestination auth pathname search s = s).
Proof.
  intros Hpath. split.
  - intros Hauth Hload. cbv zeta.
    unfold ProtectedRoute.rememberDestination. rewrite Hauth, Hload.
    cbn [negb andb].
    unfold login, apiLogin, loginSucceeded, getItem, setItem, removeItem.
    cbn [fst snd].
    rewrite !String.eqb_refl.
    replace ("chargemitra_redirect" =? "chargemitra_auth")%string with false
      by reflexivity.
    replace ("chargemitra_auth" =? "chargemitra_redirect")%string with false
      by reflexivity.
    rewrite Hpath. repeat split.
    intros key Hredirect Hkey.
    apply String.eqb_neq in Hredirect, Hkey. now rewrite Hredirect, Hkey.
  - unfold ProtectedRoute.rememberDestination.
    intros [-> | ->]; [reflexivity|].
    now destruct (Auth.isAuthenticated auth).
Qed.

Lemma redirect_after_login_witness :
  snd (login "tokens"
         (ProtectedRoute.rememberDestination Guarded.signedOut
            "/bookings" "?tab=past" Guarded.emptyStorage))
  = [AuthToastSuccess "Welcome back!"; RefetchUser;
     NavigateReplace "/bookings?tab=past"].
Proof.
  destruct (redirect_after_login Guarded.signedOut "/bookings" "?tab=past"
              "tokens" "tokens" Guarded.emptyStorage eq_refl) as [Hout _].
  apply (Hout eq_refl eq_refl).
Defined.
